(** * Attestation scanner: decode-and-normalise pipeline

    A shallow embedding of the two variants of the attestation scanner
    ([src/attestation-scanner.js], module [Scanner] below, and
    [src/unnamed/part_000], module [Part0] below), together with the
    parts of the [ethers] (v5) and [viem] libraries that the two files
    call: hex strings, address checksums, UTF-8 and ABI decoding.

    Conventions.
    - A byte array ([Uint8Array]) is a [list byte].
    - A JavaScript string is a [string]: the sequence of its UTF-8
      bytes, which is also the form in which the program writes it to
      its two output files.
    - JavaScript numbers that hold lengths, offsets, block numbers and
      times are integers ([Z]).
    - A call that may throw returns an [exn]; [try]/[catch] is
      [try_catch]. *)

From Stdlib Require Import ZArith Lia.
From Stdlib Require Import Ascii.
From Stdlib Require String DecimalString.
From Stdlib Require Import Strings.Byte.
From stdpp Require Import gmap strings list.

Local Open Scope Z_scope.

(** ** Completions: normal return or a thrown error *)

Inductive exn (A : Type) : Type :=
  | Ok (a : A)
  | Throw (msg : string).
Arguments Ok {A} a.
Arguments Throw {A} msg.

Definition exn_bind {A B} (m : exn A) (k : A -> exn B) : exn B :=
  match m with
  | Ok a => k a
  | Throw e => Throw e
  end.

#[global] Instance exn_ret : MRet exn := fun A a => Ok a.
#[global] Instance exn_mbind : MBind exn := fun A B k m => exn_bind m k.

(** [try { body } catch (error) { handler }] *)
Definition try_catch {A} (body : exn A) (handler : string -> A) : A :=
  match body with
  | Ok a => a
  | Throw e => handler e
  end.

Definition is_throw {A} (m : exn A) : bool :=
  match m with
  | Ok _ => false
  | Throw _ => true
  end.

(** ** Bytes and characters *)

Definition Z_of_byte (b : byte) : Z := Z.of_N (Byte.to_N b).

Definition byte_of_Z (z : Z) : byte :=
  match Byte.of_N (Z.to_N (z mod 256)) with
  | Some b => b
  | None => x00
  end.

Definition char_of_byte (b : byte) : ascii := ascii_of_byte b.
Definition code (c : ascii) : Z := Z.of_N (N_of_ascii c).

Fixpoint string_forallb (p : ascii -> bool) (s : string) : bool :=
  match s with
  | EmptyString => true
  | String c s' => p c && string_forallb p s'
  end.

Fixpoint string_existsb (p : ascii -> bool) (s : string) : bool :=
  match s with
  | EmptyString => false
  | String c s' => p c || string_existsb p s'
  end.

Fixpoint string_map (f : ascii -> ascii) (s : string) : string :=
  match s with
  | EmptyString => EmptyString
  | String c s' => String (f c) (string_map f s')
  end.

Definition in_range (lo hi : Z) (c : ascii) : bool :=
  (lo <=? code c) && (code c <=? hi).

Definition is_digit (c : ascii) : bool := in_range 48 57 c.
Definition is_lower_hex (c : ascii) : bool := in_range 97 102 c.
Definition is_upper_hex (c : ascii) : bool := in_range 65 70 c.
Definition is_hex_digit (c : ascii) : bool :=
  is_digit c || is_lower_hex c || is_upper_hex c.

(** [String.prototype.toLowerCase] / [toUpperCase] on the ASCII letters;
    the program applies them to addresses and hex strings only. *)
Definition lower_char (c : ascii) : ascii :=
  if in_range 65 90 c then ascii_of_N (Z.to_N (code c + 32)) else c.
Definition upper_char (c : ascii) : ascii :=
  if in_range 97 122 c then ascii_of_N (Z.to_N (code c - 32)) else c.

Definition toLowerCase (s : string) : string := string_map lower_char s.

(** [s.slice(-n)]: the last [n] characters, the whole of [s] when it is
    shorter. *)
Definition slice_last (n : nat) (s : string) : string :=
  String.substring (String.length s - n) n s.

(** [s.substring(n)] *)
Fixpoint string_drop (n : nat) (s : string) : string :=
  match n, s with
  | O, _ => s
  | S n', String _ s' => string_drop n' s'
  | S _, EmptyString => EmptyString
  end.

(** ** Hexadecimal strings *)

Definition hex_char (n : Z) : ascii :=
  ascii_of_N (Z.to_N (if n <? 10 then 48 + n else 87 + n)).

(** value of a hexadecimal digit, either case *)
Definition hex_value (c : ascii) : option Z :=
  if is_digit c then Some (code c - 48)
  else if is_lower_hex c then Some (code c - 87)
  else if is_upper_hex c then Some (code c - 55)
  else None.

(** two lower-case digits per byte, no prefix *)
Fixpoint hex_of_bytes (bs : list byte) : string :=
  match bs with
  | [] => EmptyString
  | b :: bs' =>
      String (hex_char (Z_of_byte b / 16))
        (String (hex_char (Z_of_byte b mod 16)) (hex_of_bytes bs'))
  end.

(** pairs of digits to bytes; [None] on a stray or non-hex character *)
Fixpoint bytes_of_hex (s : string) : option (list byte) :=
  match s with
  | EmptyString => Some []
  | String c1 (String c2 s') =>
      match hex_value c1, hex_value c2, bytes_of_hex s' with
      | Some h, Some l, Some bs => Some (byte_of_Z (16 * h + l) :: bs)
      | _, _, _ => None
      end
  | String _ EmptyString => None
  end.

(** [hexlify(bytes)] of ethers, [bytesToHex] of viem: [0x] and two
    lower-case digits per byte.  This is the form in which every [bytes]
    value decoded from call data reaches the program. *)
Definition hexlify (bs : list byte) : string := "0x" +:+ hex_of_bytes bs.

Definition has_0x (s : string) : bool :=
  match s with
  | String "0" (String "x" _) => true
  | _ => false
  end.

(** ** Keccak-256

    Both libraries compute address checksums with Keccak-256 (rate 136
    bytes, original Keccak padding).  The state is 25 lanes of 64 bits,
    lane [(x, y)] at index [x + 5 * y]. *)

Module Keccak.

Definition mask64 : Z := 2 ^ 64 - 1.

Definition rotl (x n : Z) : Z :=
  Z.lor (Z.land (Z.shiftl x n) mask64) (Z.shiftr x (64 - n)).

Definition lane (st : list Z) (x y : nat) : Z :=
  nth (x mod 5 + 5 * (y mod 5))%nat st 0.

Definition round_constants : list Z :=
  [ 0x0000000000000001; 0x0000000000008082; 0x800000000000808A;
    0x8000000080008000; 0x000000000000808B; 0x0000000080000001;
    0x8000000080008081; 0x8000000000008009; 0x000000000000008A;
    0x0000000000000088; 0x0000000080008009; 0x000000008000000A;
    0x000000008000808B; 0x800000000000008B; 0x8000000000008089;
    0x8000000000008003; 0x8000000000008002; 0x8000000000000080;
    0x000000000000800A; 0x800000008000000A; 0x8000000080008081;
    0x8000000000008080; 0x0000000080000001; 0x8000000080008008 ].

(** rotation offsets, at index [x + 5 * y] *)
Definition rotation_offsets : list Z :=
  [  0;  1; 62; 28; 27;
    36; 44;  6; 55; 20;
     3; 10; 43; 25; 39;
    41; 45; 15; 21;  8;
    18;  2; 61; 56; 14 ].

Definition positions : list (nat * nat) :=
  y ← seq 0 5; x ← seq 0 5; [(x, y)].

Definition theta (st : list Z) : list Z :=
  let C x := fold_right Z.lxor 0 (map (lane st x) (seq 0 5)) in
  let D x := Z.lxor (C (x + 4)%nat) (rotl (C (x + 1)%nat) 1) in
  map (fun '(x, y) => Z.lxor (lane st x y) (D x)) positions.

(** rho and pi together: [B[y, 2x + 3y] = rotl A[x, y] r[x, y]], read
    from the side of the target lane *)
Definition rho_pi (st : list Z) : list Z :=
  map (fun '(x, y) =>
         let x0 := ((x + 3 * y) mod 5)%nat in
         rotl (lane st x0 x) (nth (x0 + 5 * x)%nat rotation_offsets 0))
      positions.

Definition chi (st : list Z) : list Z :=
  map (fun '(x, y) =>
         Z.lxor (lane st x y)
           (Z.land (Z.lxor (lane st (x + 1) y) mask64) (lane st (x + 2) y)))
      positions.

Definition iota (rc : Z) (st : list Z) : list Z :=
  match st with
  | [] => []
  | a :: st' => Z.lxor a rc :: st'
  end.

Definition round (st : list Z) (rc : Z) : list Z :=
  iota rc (chi (rho_pi (theta st))).

Definition keccak_f (st : list Z) : list Z :=
  fold_left round round_constants st.

Definition rate : nat := 136.

(** little-endian lane of up to eight bytes *)
Definition lane_of_bytes (bs : list Z) : Z :=
  fold_right (fun b acc => b + 256 * acc) 0 bs.

Fixpoint lanes_of_block (n : nat) (bs : list Z) : list Z :=
  match n with
  | O => []
  | S n' => lane_of_bytes (firstn 8 bs) :: lanes_of_block n' (skipn 8 bs)
  end.

Fixpoint xor_lanes (st blk : list Z) : list Z :=
  match st, blk with
  | a :: st', b :: blk' => Z.lxor a b :: xor_lanes st' blk'
  | _, [] => st
  | [], _ => []
  end.

Definition pad (msg : list Z) : list Z :=
  let q := (rate - length msg mod rate)%nat in
  match q with
  | 1%nat => msg ++ [0x81]
  | _ => msg ++ [0x01] ++ repeat 0 (q - 2) ++ [0x80]
  end.

Fixpoint absorb (blocks : nat) (st : list Z) (bs : list Z) : list Z :=
  match blocks with
  | O => st
  | S n =>
      absorb n (keccak_f (xor_lanes st (lanes_of_block 17 (firstn rate bs))))
        (skipn rate bs)
  end.

Fixpoint bytes_of_lane (n : nat) (l : Z) : list Z :=
  match n with
  | O => []
  | S n' => l mod 256 :: bytes_of_lane n' (l / 256)
  end.

Definition keccak256 (msg : list byte) : list byte :=
  let padded := pad (map Z_of_byte msg) in
  let st := absorb (length padded / rate) (repeat 0 25) padded in
  map byte_of_Z (flat_map (bytes_of_lane 8) (firstn 4 st)).

End Keccak.

(** ** Big-endian numbers *)

(** the unsigned integer held by a big-endian byte array *)
Definition Z_of_be (bs : list byte) : Z :=
  fold_left (fun acc b => 256 * acc + Z_of_byte b) bs 0.

(** [n] bytes, big-endian, of [v] (its low [8 * n] bits) *)
Fixpoint be_of_Z (n : nat) (v : Z) : list byte :=
  match n with
  | O => []
  | S n' => be_of_Z n' (v / 256) ++ [byte_of_Z v]
  end.

(** [bs.slice(start, start + len)] of a byte array *)
Definition slice (bs : list byte) (start len : Z) : list byte :=
  firstn (Z.to_nat len) (skipn (Z.to_nat start) bs).

(** [bytes.length] *)
Definition byteLength (bs : list byte) : Z := Z.of_nat (length bs).

(** ** UTF-8 *)

Definition string_of_bytes (bs : list byte) : string :=
  String.string_of_list_byte bs.
Definition bytes_of_string (s : string) : list byte :=
  String.list_byte_of_string s.

(** the UTF-8 bytes of one code point *)
Definition utf8_encode_cp (c : Z) : list byte :=
  if c <? 0x80 then [byte_of_Z c]
  else if c <? 0x800 then
    [byte_of_Z (0xC0 + c / 64); byte_of_Z (0x80 + c mod 64)]
  else if c <? 0x10000 then
    [byte_of_Z (0xE0 + c / 4096); byte_of_Z (0x80 + (c / 64) mod 64);
     byte_of_Z (0x80 + c mod 64)]
  else
    [byte_of_Z (0xF0 + c / 262144); byte_of_Z (0x80 + (c / 4096) mod 64);
     byte_of_Z (0x80 + (c / 64) mod 64); byte_of_Z (0x80 + c mod 64)].

(** the string made of the given code points *)
Definition string_of_code_points (cps : list Z) : string :=
  string_of_bytes (flat_map utf8_encode_cp cps).

Definition is_continuation (b : byte) : bool :=
  Z.land (Z_of_byte b) 0xc0 =? 0x80.

Definition cont_bits (b : byte) : Z := Z.land (Z_of_byte b) 0x3f.

(** ** The parts of ethers (v5) that the program calls *)

Module Ethers.

(** [isHexString(value)]: [/^0x[0-9A-Fa-f]*$/] *)
Definition isHexString (s : string) : bool :=
  has_0x s && string_forallb is_hex_digit (string_drop 2 s).

(** [arrayify(value)] on a string *)
Definition arrayify (s : string) : exn (list byte) :=
  if isHexString s then
    match bytes_of_hex (string_drop 2 s) with
    | Some bs => Ok bs
    | None => Throw "hex data is odd-length"
    end
  else Throw "invalid arrayify value".

(** the loop of [getChecksumAddress]: character [i] goes to upper case
    when nibble [i] of the hash is at least 8 *)
Fixpoint checksum_case (chars : string) (nibbles : list Z) : string :=
  match chars, nibbles with
  | String c s', n :: ns =>
      String (if 8 <=? n then upper_char c else c) (checksum_case s' ns)
  | _, _ => chars
  end.

Definition nibbles (bs : list byte) : list Z :=
  flat_map (fun b => [Z_of_byte b / 16; Z_of_byte b mod 16]) bs.

(** [getChecksumAddress(address)]; [address] is [0x] and 40 hex digits *)
Definition getChecksumAddress (address : string) : exn string :=
  if isHexString address && (String.length address =? 42)%nat then
    let chars := string_drop 2 (toLowerCase address) in
    let hashed := Keccak.keccak256 (bytes_of_string chars) in
    Ok ("0x" +:+ checksum_case chars (nibbles hashed))
  else Throw "invalid address".

(** [/^(0x)?[0-9a-fA-F]{40}$/] *)
Definition matches_hex40 (s : string) : bool :=
  let body := if has_0x s then string_drop 2 s else s in
  (String.length body =? 40)%nat && string_forallb is_hex_digit body.

(** [/([A-F].*[a-f])|([a-f].*[A-F])/] on a string without line breaks:
    a letter of each case occurs *)
Definition mixed_case (s : string) : bool :=
  string_existsb is_upper_hex s && string_existsb is_lower_hex s.

(** *** ICAP addresses ([XE], two check digits, 30 or 31 base-36 digits) *)

Definition is_alnum (c : ascii) : bool :=
  is_digit c || in_range 65 90 c || in_range 97 122 c.

(** [/^XE[0-9]{2}[0-9A-Za-z]{30,31}$/] *)
Definition matches_icap (s : string) : bool :=
  match s with
  | String "X" (String "E" (String d1 (String d2 rest))) =>
      is_digit d1 && is_digit d2 && string_forallb is_alnum rest
      && ((String.length rest =? 30)%nat || (String.length rest =? 31)%nat)
  | _ => false
  end.

(** value of a base-36 digit, either case *)
Definition base36_value (c : ascii) : Z :=
  if is_digit c then code c - 48
  else if in_range 65 90 c then code c - 55
  else code c - 87.

(** [ibanLookup] and the remainder modulo 97 of the decimal expansion *)
Fixpoint iban_mod97 (s : string) (acc : Z) : Z :=
  match s with
  | EmptyString => acc
  | String c s' =>
      let v := base36_value c in
      iban_mod97 s' ((if v <? 10 then 10 * acc + v else 100 * acc + v) mod 97)
  end.

Definition two_digits (n : Z) : string :=
  String (hex_char (n / 10)) (String (hex_char (n mod 10)) EmptyString).

Definition ibanChecksum (address : string) : string :=
  let a := string_map upper_char address in
  let a := string_drop 4 a +:+ String.substring 0 2 a +:+ "00" in
  two_digits (98 - iban_mod97 a 0).

Fixpoint base36_number (s : string) (acc : Z) : Z :=
  match s with
  | EmptyString => acc
  | String c s' => base36_number s' (36 * acc + base36_value c)
  end.

(** [getAddress(address)] *)
Definition getAddress (address : string) : exn string :=
  if matches_hex40 address then
    let address := if has_0x address then address else "0x" +:+ address in
    result ← getChecksumAddress address;
    if mixed_case address && negb (String.eqb result address)
    then Throw "bad address checksum"
    else Ok result
  else if matches_icap address then
    if negb (String.eqb (String.substring 2 2 address) (ibanChecksum address))
    then Throw "bad icap checksum"
    else
      let v := base36_number (string_drop 4 address) 0 in
      if v <? 2 ^ 160 then getChecksumAddress (hexlify (be_of_Z 20 v))
      else Throw "invalid address"
  else Throw "invalid address".

(** [getUtf8CodePoints(bytes)] with the default error function, which
    throws on every malformed sequence *)
Fixpoint getUtf8CodePoints (bs : list byte) : exn (list Z) :=
  match bs with
  | [] => Ok []
  | b :: rest =>
      let c := Z_of_byte b in
      if Z.shiftr c 7 =? 0 then
        cps ← getUtf8CodePoints rest; Ok (c :: cps)
      else if Z.land c 0xe0 =? 0xc0 then
        match rest with
        | b1 :: rest' =>
            if negb (is_continuation b1) then Throw "missing continuation byte"
            else
              let res := Z.lor (Z.shiftl (Z.land c 0x1f) 6) (cont_bits b1) in
              if res <=? 0x7f then Throw "overlong representation"
              else cps ← getUtf8CodePoints rest'; Ok (res :: cps)
        | _ => Throw "unexpected end of data"
        end
      else if Z.land c 0xf0 =? 0xe0 then
        match rest with
        | b1 :: b2 :: rest' =>
            if negb (is_continuation b1 && is_continuation b2)
            then Throw "missing continuation byte"
            else
              let res :=
                Z.lor (Z.shiftl (Z.lor (Z.shiftl (Z.land c 0x0f) 6)
                                   (cont_bits b1)) 6) (cont_bits b2) in
              if (0xd800 <=? res) && (res <=? 0xdfff)
              then Throw "invalid UTF-8 byte, UTF-16 surrogate"
              else if res <=? 0x7ff then Throw "overlong representation"
              else cps ← getUtf8CodePoints rest'; Ok (res :: cps)
        | _ => Throw "unexpected end of data"
        end
      else if Z.land c 0xf8 =? 0xf0 then
        match rest with
        | b1 :: b2 :: b3 :: rest' =>
            if negb (is_continuation b1 && is_continuation b2
                     && is_continuation b3)
            then Throw "missing continuation byte"
            else
              let res :=
                Z.lor (Z.shiftl (Z.lor (Z.shiftl (Z.lor
                  (Z.shiftl (Z.land c 0x07) 6) (cont_bits b1)) 6)
                  (cont_bits b2)) 6) (cont_bits b3) in
              if 0x10ffff <? res then Throw "out of UTF-8 range"
              else if res <=? 0xffff then Throw "overlong representation"
              else cps ← getUtf8CodePoints rest'; Ok (res :: cps)
        | _ => Throw "unexpected end of data"
        end
      else if Z.land c 0xc0 =? 0x80 then Throw "unexpected continuation byte"
      else Throw "bad codepoint prefix"
  end.

(** [toUtf8String(bytes)] *)
Definition toUtf8String (bs : list byte) : exn string :=
  cps ← getUtf8CodePoints bs; Ok (string_of_code_points cps).

(** *** ABI decoding: [defaultAbiCoder.decode]

    The program decodes the three types [bool], [string], [address]. *)

Inductive ParamType := t_bool | t_string | t_address.

Inductive Value :=
  | v_bool (b : bool)
  | v_string (s : string)
  | v_address (a : string).

(** [Reader]: the data and the read offset *)
Record Reader := { _data : list byte; _offset : Z }.

(** [BigNumber.toNumber()]: throws beyond 53 bits *)
Definition toNumber (v : Z) : exn Z :=
  if v <=? 2 ^ 53 - 1 then Ok v else Throw "overflow".

(** [_peekBytes(0, length, loose)]; the default coder is strict
    ([allowLoose] is unset), so the whole padded length has to be there *)
Definition _peekBytes (r : Reader) (length : Z) : exn (list byte) :=
  let alignedLength := (length + 31) / 32 * 32 in
  if _offset r + alignedLength >? byteLength (_data r)
  then Throw "data out-of-bounds"
  else Ok (slice (_data r) (_offset r) alignedLength).

Definition readBytes (r : Reader) (length : Z) : exn (list byte * Reader) :=
  bytes ← _peekBytes r length;
  Ok (firstn (Z.to_nat length) bytes,
      {| _data := _data r; _offset := _offset r + byteLength bytes |}).

Definition readValue (r : Reader) : exn (Z * Reader) :=
  '(bytes, r') ← readBytes r 32; Ok (Z_of_be bytes, r').

Definition subReader (r : Reader) (offset : Z) : Reader :=
  {| _data := skipn (Z.to_nat (_offset r + offset)) (_data r); _offset := 0 |}.

(** [hexZeroPad(value.toHexString(), 20)]: throws when the value needs
    more than 20 bytes *)
Definition hexZeroPad20 (v : Z) : exn string :=
  if v <? 2 ^ 160 then Ok (hexlify (be_of_Z 20 v)) else Throw "value out of range".

(** [coder.decode(reader)] of [BooleanCoder], [AddressCoder] and
    [StringCoder] *)
Definition coder_decode (t : ParamType) (r : Reader) : exn (Value * Reader) :=
  match t with
  | t_bool =>
      '(v, r') ← readValue r; Ok (v_bool (negb (v =? 0)), r')
  | t_address =>
      '(v, r') ← readValue r;
      padded ← hexZeroPad20 v;
      a ← getAddress padded;
      Ok (v_address a, r')
  | t_string =>
      '(len, r1) ← readValue r;
      n ← toNumber len;
      '(bytes, r') ← readBytes r1 n;
      s ← toUtf8String bytes;
      Ok (v_string s, r')
  end.

Definition dynamic (t : ParamType) : bool :=
  match t with
  | t_string => true
  | _ => false
  end.

(** [unpack(reader, coders)].  A dynamic value is read through an offset
    relative to the start of the tuple.  ethers stores an error other
    than a buffer overrun in the result and throws it when the element
    is read; the program reads every element at once (by destructuring,
    inside its [try]), so both kinds of error are a [Throw] here. *)
Fixpoint unpack_from (base : Reader) (coders : list ParamType) (r : Reader)
  : exn (list Value) :=
  match coders with
  | [] => Ok []
  | t :: coders' =>
      '(value, r') ←
        (if dynamic t then
           '(offset, r') ← readValue r;
           n ← toNumber offset;
           '(value, _) ← coder_decode t (subReader base n);
           Ok (value, r')
         else coder_decode t r);
      values ← unpack_from base coders' r';
      Ok (value :: values)
  end.

Definition unpack (r : Reader) (coders : list ParamType) : exn (list Value) :=
  unpack_from (subReader r 0) coders r.

(** [defaultAbiCoder.decode(types, data)] *)
Definition defaultAbiCoder_decode (types : list ParamType) (data : string)
  : exn (list Value) :=
  bytes ← arrayify data;
  unpack {| _data := bytes; _offset := 0 |} types.

End Ethers.

(** ** The parts of viem that the program calls *)

Module Viem.

(** [hexToBytes(hex)]: drops the first two characters, pads an odd
    number of digits with a leading zero, throws on a non-hex digit *)
Definition hexToBytes (hex : string) : exn (list byte) :=
  let hexString := string_drop 2 hex in
  let hexString :=
    if Nat.odd (String.length hexString) then String "0" hexString
    else hexString in
  match bytes_of_hex hexString with
  | Some bs => Ok bs
  | None => Throw "Invalid byte sequence"
  end.

(** [size(value)] of a hex string *)
Definition size_hex (value : string) : Z :=
  if has_0x value then (Z.of_nat (String.length value) - 2 + 1) / 2
  else Z.of_nat (String.length value).

(** [checksumAddress(address)]; the same EIP-55 rule as in ethers *)
Definition checksumAddress (address : string) : string :=
  let hexAddress := toLowerCase (string_drop 2 address) in
  let hash := Keccak.keccak256 (bytes_of_string hexAddress) in
  "0x" +:+ Ethers.checksum_case hexAddress (Ethers.nibbles hash).

(** [trim(bytes)]: leading zero bytes go, the last byte stays *)
Fixpoint trim (bs : list byte) : list byte :=
  match bs with
  | b :: (_ :: _) as rest => if Z_of_byte b =? 0 then trim rest else bs
  | _ => bs
  end.

(** *** [new TextDecoder().decode(bytes)]

    The UTF-8 decoder of the Encoding standard, not fatal: every
    malformed sequence becomes U+FFFD; a leading byte order mark is
    dropped. *)

Record Utf8State := {
  code_point : Z;
  bytes_seen : Z;
  bytes_needed : Z;
  lower_boundary : Z;
  upper_boundary : Z
}.

Definition utf8_initial : Utf8State :=
  {| code_point := 0; bytes_seen := 0; bytes_needed := 0;
     lower_boundary := 0x80; upper_boundary := 0xBF |}.

(** a byte met when no sequence is open *)
Definition utf8_lead (b : Z) : Utf8State * list Z :=
  if b <=? 0x7F then (utf8_initial, [b])
  else if (0xC2 <=? b) && (b <=? 0xDF) then
    ({| code_point := Z.land b 0x1F; bytes_seen := 0; bytes_needed := 1;
        lower_boundary := 0x80; upper_boundary := 0xBF |}, [])
  else if (0xE0 <=? b) && (b <=? 0xEF) then
    ({| code_point := Z.land b 0xF; bytes_seen := 0; bytes_needed := 2;
        lower_boundary := if b =? 0xE0 then 0xA0 else 0x80;
        upper_boundary := if b =? 0xED then 0x9F else 0xBF |}, [])
  else if (0xF0 <=? b) && (b <=? 0xF4) then
    ({| code_point := Z.land b 0x7; bytes_seen := 0; bytes_needed := 3;
        lower_boundary := if b =? 0xF0 then 0x90 else 0x80;
        upper_boundary := if b =? 0xF4 then 0x8F else 0xBF |}, [])
  else (utf8_initial, [0xFFFD]).

Definition utf8_step (st : Utf8State) (b : Z) : Utf8State * list Z :=
  if bytes_needed st =? 0 then utf8_lead b
  else if (b <? lower_boundary st) || (upper_boundary st <? b) then
    let '(st', out) := utf8_lead b in (st', 0xFFFD :: out)
  else
    let cp := Z.lor (Z.shiftl (code_point st) 6) (Z.land b 0x3F) in
    if bytes_seen st + 1 =? bytes_needed st then (utf8_initial, [cp])
    else ({| code_point := cp; bytes_seen := bytes_seen st + 1;
             bytes_needed := bytes_needed st;
             lower_boundary := 0x80; upper_boundary := 0xBF |}, []).

Fixpoint utf8_run (st : Utf8State) (bs : list byte) : list Z :=
  match bs with
  | [] => if bytes_needed st =? 0 then [] else [0xFFFD]
  | b :: bs' =>
      let '(st', out) := utf8_step st (Z_of_byte b) in
      out ++ utf8_run st' bs'
  end.

Definition drop_bom (cps : list Z) : list Z :=
  match cps with
  | c :: cps' => if c =? 0xFEFF then cps' else cps
  | [] => []
  end.

Definition TextDecoder_decode (bs : list byte) : string :=
  string_of_code_points (drop_bom (utf8_run utf8_initial bs)).

(** [bytesToString(bytes)] *)
Definition bytesToString (bs : list byte) : string := TextDecoder_decode bs.

(** *** ABI decoding: [decodeAbiParameters] *)

Inductive AbiType := t_bool | t_string | t_address.

Inductive Value :=
  | v_bool (b : bool)
  | v_string (s : string)
  | v_address (a : string).

(** [createCursor(bytes)]: the bytes and the position.  The cursor also
    counts repeated reads of one position and throws after 8192 of
    them; the fixed schema makes at most seven reads, so the counter is
    left out. *)
Record Cursor := { bytes : list byte; position : Z }.

Definition assertPosition (c : Cursor) (p : Z) : exn unit :=
  if (p <? 0) || (p >? byteLength (bytes c) - 1)
  then Throw "PositionOutOfBoundsError"
  else Ok tt.

Definition setPosition (c : Cursor) (p : Z) : exn Cursor :=
  _ ← assertPosition c p; Ok {| bytes := bytes c; position := p |}.

Definition inspectBytes (c : Cursor) (length : Z) : exn (list byte) :=
  _ ← assertPosition c (position c + length - 1);
  Ok (slice (bytes c) (position c) length).

(** [cursor.readBytes(length, size)]: reads [length] bytes and moves on
    by [size] *)
Definition readBytes (c : Cursor) (length size : Z) : exn (list byte * Cursor) :=
  value ← inspectBytes c length;
  Ok (value, {| bytes := bytes c; position := position c + size |}).

(** [bytesToNumber]: a value too large for a JavaScript number is far
    beyond the data and fails at the next position check, as it does
    here with the exact integer *)
Definition bytesToNumber (bs : list byte) : Z := Z_of_be bs.

(** [bytesToBool(bytes, { size: 32 })] *)
Definition bytesToBool (bs : list byte) : exn bool :=
  match trim bs with
  | [b] => if Z_of_byte b >? 1 then Throw "InvalidBytesBooleanError"
           else Ok (negb (Z_of_byte b =? 0))
  | _ => Throw "InvalidBytesBooleanError"
  end.

Definition decodeBool (c : Cursor) : exn (Value * Cursor) :=
  '(bs, c') ← readBytes c 32 32;
  b ← bytesToBool bs;
  Ok (v_bool b, c').

Definition decodeAddress (c : Cursor) : exn (Value * Cursor) :=
  '(value, c') ← readBytes c 32 32;
  Ok (v_address (checksumAddress (hexlify (skipn 12 value))), c').

Definition decodeString (c : Cursor) (staticPosition : Z) : exn (Value * Cursor) :=
  '(w, c1) ← readBytes c 32 32;
  let offset := bytesToNumber w in
  let start := staticPosition + offset in
  c2 ← setPosition c1 start;
  '(w', c3) ← readBytes c2 32 32;
  let length := bytesToNumber w' in
  if length =? 0 then
    c4 ← setPosition c3 (staticPosition + 32);
    Ok (v_string "", c4)
  else
    '(data, c4) ← readBytes c3 length 32;
    let value := bytesToString (trim data) in
    c5 ← setPosition c4 (staticPosition + 32);
    Ok (v_string value, c5).

(** [decodeParameter(cursor, param, { staticPosition })]; every case
    reports 32 consumed bytes *)
Definition decodeParameter (c : Cursor) (t : AbiType) (staticPosition : Z)
  : exn (Value * Cursor) :=
  match t with
  | t_bool => decodeBool c
  | t_string => decodeString c staticPosition
  | t_address => decodeAddress c
  end.

(** the loop of [decodeTuple] over the components of a tuple with a
    dynamic child: component [i] is read at [start + 32 * i] and stored
    under its name *)
Fixpoint decodeComponents (c : Cursor) (components : list (string * AbiType))
    (start consumed : Z) : exn (list (string * Value) * Cursor) :=
  match components with
  | [] => Ok ([], c)
  | (name, t) :: rest =>
      c1 ← setPosition c (start + consumed);
      '(data, c2) ← decodeParameter c1 t start;
      '(value, c3) ← decodeComponents c2 rest start (consumed + 32);
      Ok ((name, data) :: value, c3)
  end.

(** [decodeTuple] for a tuple that has a dynamic component: the slot
    holds the offset of the tuple data *)
Definition decodeTuple (c : Cursor) (components : list (string * AbiType))
    (staticPosition : Z) : exn (list (string * Value) * Cursor) :=
  '(w, c1) ← readBytes c 32 32;
  let offset := bytesToNumber w in
  let start := staticPosition + offset in
  '(value, c2) ← decodeComponents c1 components start 0;
  c3 ← setPosition c2 (staticPosition + 32);
  Ok (value, c3).

(** [decodeAbiParameters(params, data)] for one tuple parameter; the
    result is the array of the decoded parameters *)
Definition decodeAbiParameters (components : list (string * AbiType))
    (data : string) : exn (list (list (string * Value))) :=
  bs ← hexToBytes data;
  if byteLength bs =? 0 then Throw "AbiDecodingZeroDataError"
  else if size_hex data <? 32 then Throw "AbiDecodingDataSizeTooSmallError"
  else
    c ← setPosition {| bytes := bs; position := 0 |} 0;
    '(value, _) ← decodeTuple c components 0;
    Ok [value].

End Viem.

(** ** JavaScript values the program prints *)

Definition newline : ascii := ascii_of_N 10.
Definition quote : ascii := ascii_of_N 34.
Definition backslash : ascii := ascii_of_N 92.

Definition str (c : ascii) : string := String c EmptyString.

(** [String(n)] of an integer *)
Definition String_number (n : Z) : string :=
  DecimalString.NilZero.string_of_int (Z.to_int n).

(** [String(b)] of a boolean *)
Definition String_bool (b : bool) : string := if b then "true" else "false".

(** the last [w] decimal digits of [v] *)
Fixpoint dec_digits (w : nat) (v : Z) : string :=
  match w with
  | O => EmptyString
  | S w' => dec_digits w' (v / 10) +:+ str (hex_char (v mod 10))
  end.

(** *** [Date.prototype.toISOString] *)

Module JSDate.

Definition msPerDay : Z := 86400000.

(** year, month and day of a day number counted from 1970-01-01 *)
Definition civil_from_days (z : Z) : Z * Z * Z :=
  let z := z + 719468 in
  let era := z / 146097 in
  let doe := z - era * 146097 in
  let yoe := (doe - doe / 1460 + doe / 36524 - doe / 146096) / 365 in
  let doy := doe - (365 * yoe + yoe / 4 - yoe / 100) in
  let mp := (5 * doy + 2) / 153 in
  let d := doy - (153 * mp + 2) / 5 + 1 in
  let m := if mp <? 10 then mp + 3 else mp - 9 in
  let y := yoe + era * 400 in
  (if m <=? 2 then y + 1 else y, m, d).

Definition year_string (y : Z) : string :=
  if (0 <=? y) && (y <=? 9999) then dec_digits 4 y
  else (if y <? 0 then "-" else "+") +:+ dec_digits 6 (Z.abs y).

(** [new Date(t).toISOString()], [t] in milliseconds since the epoch;
    a time value outside the range of [Date] is an invalid date and
    throws *)
Definition toISOString (t : Z) : exn string :=
  if Z.abs t >? 8640000000000000 then Throw "Invalid time value"
  else
    let '(y, m, d) := civil_from_days (t / msPerDay) in
    let ms := t mod msPerDay in
    Ok (year_string y +:+ "-" +:+ dec_digits 2 m +:+ "-" +:+ dec_digits 2 d
        +:+ "T" +:+ dec_digits 2 (ms / 3600000)
        +:+ ":" +:+ dec_digits 2 (ms / 60000 mod 60)
        +:+ ":" +:+ dec_digits 2 (ms / 1000 mod 60)
        +:+ "." +:+ dec_digits 3 (ms mod 1000) +:+ "Z").

End JSDate.

(** *** [JSON.stringify(value, null, 2)] of a flat object *)

Module JSON.

Inductive value :=
  | str_value (s : string)
  | num_value (n : Z)
  | bool_value (b : bool).

(** one character inside a string literal *)
Definition escape_char (c : ascii) : string :=
  let n := code c in
  if n =? 8 then "\b"
  else if n =? 9 then "\t"
  else if n =? 10 then "\n"
  else if n =? 12 then "\f"
  else if n =? 13 then "\r"
  else if n =? 34 then String backslash (str quote)
  else if n =? 92 then String backslash (str backslash)
  else if n <? 32 then "\u00" +:+ str (hex_char (n / 16)) +:+ str (hex_char (n mod 16))
  else str c.

Fixpoint escape (s : string) : string :=
  match s with
  | EmptyString => EmptyString
  | String c s' => escape_char c +:+ escape s'
  end.

(** [QuoteJSONString] *)
Definition quote_string (s : string) : string :=
  str quote +:+ escape s +:+ str quote.

Definition stringify_value (v : value) : string :=
  match v with
  | str_value s => quote_string s
  | num_value n => String_number n
  | bool_value b => String_bool b
  end.

Definition member (kv : string * value) : string :=
  "  " +:+ quote_string kv.1 +:+ ": " +:+ stringify_value kv.2.

Fixpoint members (kvs : list (string * value)) : string :=
  match kvs with
  | [] => EmptyString
  | [kv] => member kv +:+ str newline
  | kv :: kvs' => member kv +:+ "," +:+ str newline +:+ members kvs'
  end.

(** an object with its members in order, indented by two spaces *)
Definition stringify (kvs : list (string * value)) : string :=
  match kvs with
  | [] => "{}"
  | _ => "{" +:+ str newline +:+ members kvs +:+ "}"
  end.

End JSON.

(** ** The world outside the program *)

(** [provider.getTransaction(hash)] *)
Record Transaction := { tx_to : option string; tx_data : string }.

(** [provider.getBlock(number)] *)
Record Block := { block_timestamp : Z }.

(** the first argument of [attest]; [bytes] values are hex strings *)
Record AttestationPayload := {
  payload_schemaId : string;
  payload_expirationDate : Z;
  payload_subject : string;
  payload_attestationData : string
}.

(** [decoded.args] of [contract.interface.parseTransaction] *)
Record TransactionDescription := {
  args_attestationPayload : AttestationPayload;
  args_validationPayloads : list string
}.

(** an item of the explorer's [result]; [item_blockNumber] is
    [parseInt(tx.blockNumber)] of the decimal string the explorer sends *)
Record ExplorerItem := {
  item_hash : string;
  item_to : string;
  item_blockNumber : Z
}.

(** [response.data] of the explorer query *)
Record Response := {
  response_status : string;
  response_message : string;
  response_result : list ExplorerItem
}.

(** What the process is given: its configuration, the chain provider,
    the call decoder of the contract interface, the explorer and the
    clock.  [parseTransaction] is the ethers call decoder for the one
    [attest] signature; it is a parameter of the development. *)
Record Env := {
  env_CONTRACT_ADDRESS : string;
  provider_getTransaction : string -> exn (option Transaction);
  provider_getBlock : Z -> exn (option Block);
  interface_parseTransaction : string -> exn (option TransactionDescription);
  axios_get : exn Response;
  clock : nat -> Z
}.

(** what the process does to the outside, in order *)
Inductive Event :=
  | ev_axios_get
  | ev_getTransaction (txHash : string)
  | ev_parseTransaction (data : string)
  | ev_getBlock (blockNumber : Z)
  | ev_writeFileSync (path data : string)
  | ev_appendFileSync (path data : string).

(** the files, the events so far, and how often the clock was read *)
Record World := {
  files : gmap string string;
  trace : list Event;
  clock_reads : nat
}.

(** a computation that acts on the world and may throw *)
Definition M (A : Type) : Type := World -> World * exn A.

Definition M_ret {A} (a : A) : M A := fun w => (w, Ok a).

Definition M_bind {A B} (m : M A) (k : A -> M B) : M B :=
  fun w =>
    match m w with
    | (w', Ok a) => k a w'
    | (w', Throw e) => (w', Throw e)
    end.

#[global] Instance M_mret : MRet M := @M_ret.
#[global] Instance M_mbind : MBind M := fun A B k m => M_bind m k.

(** a pure call that may throw *)
Definition lift {A} (m : exn A) : M A := fun w => (w, m).

(** [try { body } catch (error) { handler }] *)
Definition M_try {A} (body : M A) (handler : string -> M A) : M A :=
  fun w =>
    match body w with
    | (w', Ok a) => (w', Ok a)
    | (w', Throw e) => handler e w'
    end.

Definition emit (e : Event) : M unit :=
  fun w =>
    ({| files := files w; trace := trace w ++ [e]; clock_reads := clock_reads w |},
     Ok tt).

Definition file_content (w : World) (path : string) : string :=
  default EmptyString (files w !! path).

(** [fs.writeFileSync(path, data, "utf8")] *)
Definition writeFileSync (path data : string) : M unit :=
  fun w =>
    ({| files := <[path := data]> (files w);
        trace := trace w ++ [ev_writeFileSync path data];
        clock_reads := clock_reads w |}, Ok tt).

(** [fs.appendFileSync(path, data, "utf8")] *)
Definition appendFileSync (path data : string) : M unit :=
  fun w =>
    ({| files := <[path := file_content w path +:+ data]> (files w);
        trace := trace w ++ [ev_appendFileSync path data];
        clock_reads := clock_reads w |}, Ok tt).

(** [new Date()]: the next reading of the clock, in milliseconds *)
Definition new_Date (env : Env) : M Z :=
  fun w =>
    ({| files := files w; trace := trace w; clock_reads := S (clock_reads w) |},
     Ok (clock env (clock_reads w))).

Definition is_write (e : Event) : bool :=
  match e with
  | ev_writeFileSync _ _ => true
  | _ => false
  end.

Definition is_append (e : Event) : bool :=
  match e with
  | ev_appendFileSync _ _ => true
  | _ => false
  end.

(** ** Reading the two artifacts *)

(** the rows of a text file: every line feed ends a row; text after the
    last line feed is a row of its own *)
Fixpoint rows (s : string) : list string :=
  match s with
  | EmptyString => []
  | String c s' =>
      if Ascii.eqb c newline then EmptyString :: rows s'
      else
        match rows s' with
        | [] => [str c]
        | r :: rs => String c r :: rs
        end
  end.

(** The structured artifact is a sequence of JSON texts.  Its entries are
    the top-level objects: a scan that follows string literals, escapes
    and the nesting of braces counts every brace that opens at depth 0. *)
Record Scan := {
  depth : nat;
  in_string : bool;
  escaped : bool;
  objects : nat
}.

Definition scan_start : Scan :=
  {| depth := 0; in_string := false; escaped := false; objects := 0 |}.

Definition scan_char (st : Scan) (c : ascii) : Scan :=
  if in_string st then
    if escaped st then
      {| depth := depth st; in_string := true; escaped := false; objects := objects st |}
    else if Ascii.eqb c backslash then
      {| depth := depth st; in_string := true; escaped := true; objects := objects st |}
    else if Ascii.eqb c quote then
      {| depth := depth st; in_string := false; escaped := false; objects := objects st |}
    else st
  else if Ascii.eqb c quote then
    {| depth := depth st; in_string := true; escaped := false; objects := objects st |}
  else if Ascii.eqb c "{" then
    {| depth := S (depth st); in_string := false; escaped := false;
       objects := if depth st is O then S (objects st) else objects st |}
  else if Ascii.eqb c "}" then
    {| depth := pred (depth st); in_string := false; escaped := false;
       objects := objects st |}
  else st.

Fixpoint scan (st : Scan) (s : string) : Scan :=
  match s with
  | EmptyString => st
  | String c s' => scan (scan_char st c) s'
  end.

Definition entries (s : string) : nat := objects (scan scan_start s).

(** ** [src/attestation-scanner.js] *)

Module Scanner.

Definition JSON_FILE : string := "./attestations.json".
Definition CSV_FILE : string := "./attestations.csv".

(** [parseAbiParameters(attestationDataSchema)] for the schema string
    [(bool isPositive, string articlePage, address submitter)]: the
    parentheses make it ONE parameter, a tuple with three named
    components *)
Definition attestationDataSchema : list (string * Viem.AbiType) :=
  [("isPositive", Viem.t_bool); ("articlePage", Viem.t_string);
   ("submitter", Viem.t_address)].

Record DecodedData := {
  isPositive : bool;
  articlePage : string;
  submitter : string
}.

(** [object.name] *)
Fixpoint property (name : string) (object : list (string * Viem.Value))
  : option Viem.Value :=
  match object with
  | [] => None
  | (k, v) :: object' => if String.eqb k name then Some v else property name object'
  end.

(** [Boolean(x)] *)
Definition Boolean (x : option Viem.Value) : bool :=
  match x with
  | Some (Viem.v_bool b) => b
  | Some (Viem.v_string s) | Some (Viem.v_address s) => negb (String.eqb s "")
  | None => false
  end.

(** [x ?? "N/A"]; the two properties it is applied to hold strings *)
Definition or_NA (x : option Viem.Value) : string :=
  match x with
  | Some (Viem.v_string s) | Some (Viem.v_address s) => s
  | Some (Viem.v_bool b) => String_bool b
  | None => "N/A"
  end.

Definition decodeAttestationData (encodedData : string) : exn (option DecodedData) :=
  Ok (try_catch
        (if String.eqb encodedData "" || String.eqb encodedData "0x" then Ok None
         else
           decodedArray ← Viem.decodeAbiParameters attestationDataSchema encodedData;
           match decodedArray with
           | decodedData :: _ =>
               Ok (Some {| isPositive := Boolean (property "isPositive" decodedData);
                           articlePage := or_NA (property "articlePage" decodedData);
                           submitter := or_NA (property "submitter" decodedData) |})
           | [] => Ok None
           end)
        (fun _ => None)).

Definition CSV_HEADER : string :=
  "txHash,blockNumber,schemaId,subject,isPositive,articlePage,submitter,timestamp".

Definition initializeFiles : M unit :=
  _ ← writeFileSync JSON_FILE "";
  writeFileSync CSV_FILE (CSV_HEADER +:+ str newline).

Record Attestation := {
  txHash : string;
  blockNumber : Z;
  schemaId : string;
  subject : string;
  att_isPositive : bool;
  att_articlePage : string;
  att_submitter : string;
  timestamp : string
}.

Definition to_object (a : Attestation) : list (string * JSON.value) :=
  [("txHash", JSON.str_value (txHash a));
   ("blockNumber", JSON.num_value (blockNumber a));
   ("schemaId", JSON.str_value (schemaId a));
   ("subject", JSON.str_value (subject a));
   ("isPositive", JSON.bool_value (att_isPositive a));
   ("articlePage", JSON.str_value (att_articlePage a));
   ("submitter", JSON.str_value (att_submitter a));
   ("timestamp", JSON.str_value (timestamp a))].

Definition saveToJSON (attestation : Attestation) : M unit :=
  let jsonString := JSON.stringify (to_object attestation) +:+ str newline in
  appendFileSync JSON_FILE jsonString.

(** the text of a row, without the line feed that ends it *)
Definition csvRow (attestation : Attestation) : string :=
  txHash attestation +:+ "," +:+ String_number (blockNumber attestation)
  +:+ "," +:+ schemaId attestation +:+ "," +:+ subject attestation
  +:+ "," +:+ String_bool (att_isPositive attestation)
  +:+ "," +:+ att_articlePage attestation
  +:+ "," +:+ att_submitter attestation +:+ "," +:+ timestamp attestation.

Definition saveToCSV (attestation : Attestation) : M unit :=
  let csvLine := csvRow attestation +:+ str newline in
  appendFileSync CSV_FILE csvLine.

(** the sink, used on its own: one record after the other, each
    appended to both files as [decodeAttestation] does *)
Fixpoint append_all (attestations : list Attestation) : M unit :=
  match attestations with
  | [] => mret tt
  | attestation :: rest =>
      _ ← saveToJSON attestation;
      _ ← saveToCSV attestation;
      append_all rest
  end.

Section Pipeline.

Variable env : Env.

(** [process.env.CONTRACT_ADDRESS.toLowerCase()] *)
Definition CONTRACT_ADDRESS : string := toLowerCase (env_CONTRACT_ADDRESS env).

(** [tx.to?.toLowerCase() !== CONTRACT_ADDRESS] *)
Definition to_differs (to : option string) : bool :=
  match to with
  | Some a => negb (String.eqb (toLowerCase a) CONTRACT_ADDRESS)
  | None => true
  end.

(** The part of [decodeAttestation] that builds the record from the
    decoded call; [None] where the source returns without a record.
    The members of the record are evaluated in order: the subject is
    checksummed (and may throw) before the clock is read. *)
Definition assemble (txHash : string) (blockNumber : Z)
    (attestationPayload : AttestationPayload) : M (option Attestation) :=
  let schemaId := payload_schemaId attestationPayload in
  let subject := payload_subject attestationPayload in
  let attestationDataEncoded := payload_attestationData attestationPayload in
  match decodeAttestationData attestationDataEncoded with
  | Throw _ => mret None
  | Ok None => mret None
  | Ok (Some decodedAttestationData) =>
      subject' ← lift (Ethers.getAddress subject);
      now ← new_Date env;
      iso ← lift (JSDate.toISOString now);
      mret (Some {| txHash := txHash;
                    blockNumber := blockNumber;
                    schemaId := schemaId;
                    subject := subject';
                    att_isPositive := isPositive decodedAttestationData;
                    att_articlePage := articlePage decodedAttestationData;
                    att_submitter := submitter decodedAttestationData;
                    timestamp := iso |})
  end.

(** [decodeAttestation(txHash, blockNumber)].  A decoded argument
    list always has its first element with its four members, so the
    test for an empty [attestationPayload] never fires and is left
    out. *)
Definition decodeAttestation (txHash : string) (blockNumber : Z) : M unit :=
  M_try
    (_ ← emit (ev_getTransaction txHash);
     tx ← lift (provider_getTransaction env txHash);
     match tx with
     | None => mret tt
     | Some tx =>
         if to_differs (tx_to tx) then mret tt
         else if String.eqb (tx_data tx) "" || String.eqb (tx_data tx) "0x"
         then mret tt
         else
           _ ← emit (ev_parseTransaction (tx_data tx));
           decoded ← lift (interface_parseTransaction env (tx_data tx));
           match decoded with
           | None => mret tt
           | Some decoded =>
               attestation ←
                 assemble txHash blockNumber (args_attestationPayload decoded);
               match attestation with
               | None => mret tt
               | Some attestation =>
                   _ ← saveToJSON attestation;
                   saveToCSV attestation
               end
           end
     end)
    (fun _ => mret tt).

(** the [for] loop of [fetchTransactionsFromExplorer].  The calls of
    [decodeAttestation] are not awaited by the program; the model
    runs them one after the other, in the order of the loop. *)
Fixpoint process (transactions : list ExplorerItem) : M unit :=
  match transactions with
  | [] => mret tt
  | tx :: rest =>
      _ ← (if String.eqb (toLowerCase (item_to tx)) CONTRACT_ADDRESS
           then decodeAttestation (item_hash tx) (item_blockNumber tx)
           else mret tt);
      process rest
  end.

Definition fetchTransactionsFromExplorer : M unit :=
  M_try
    (_ ← emit ev_axios_get;
     response ← lift (axios_get env);
     if negb (String.eqb (response_status response) "1") then mret tt
     else process (response_result response))
    (fun _ => mret tt).

(** the startup sequence *)
Definition startup : M unit :=
  _ ← initializeFiles;
  fetchTransactionsFromExplorer.

End Pipeline.

End Scanner.

(** ** [src/unnamed/part_000] *)

Module Part0.

Definition JSON_FILE : string := "./attestations.json".
Definition CSV_FILE : string := "./attestations.csv".

Record DecodedData := {
  isPositive : bool;
  articlePage : string;
  submitter : string
}.

(** the three types given to [defaultAbiCoder.decode]: three top-level
    parameters *)
Definition attestationDataTypes : list Ethers.ParamType :=
  [Ethers.t_bool; Ethers.t_string; Ethers.t_address].

(** The coder returns one value per type, of that type, so the last
    case of the destructuring is never reached. *)
Definition decodeAttestationData (encodedData : string) : exn (option DecodedData) :=
  if String.eqb encodedData "" || String.eqb encodedData "0x" then Ok None
  else
    Ok (try_catch
          (decoded ← Ethers.defaultAbiCoder_decode attestationDataTypes encodedData;
           match decoded with
           | [Ethers.v_bool isPositive; Ethers.v_string articlePage;
              Ethers.v_address submitter] =>
               Ok (Some {| isPositive := isPositive; articlePage := articlePage;
                           submitter := submitter |})
           | _ => Ok None
           end)
          (fun _ => None)).

Definition parseSubjectAsAddress (subjectBytes : string) : exn string :=
  if (String.length subjectBytes =? 66)%nat then
    let last40 := slice_last 40 subjectBytes in
    Ethers.getAddress ("0x" +:+ last40)
  else Ethers.getAddress subjectBytes.

Definition CSV_HEADER : string :=
  "txHash,blockNumber,from,timestamp,articlePage,positiveFeedback,negativeFeedback".

Definition initializeFiles : M unit :=
  _ ← writeFileSync JSON_FILE "";
  writeFileSync CSV_FILE (CSV_HEADER +:+ str newline).

Record Attestation := {
  txHash : string;
  blockNumber : Z;
  from : string;
  timestamp : string;
  att_articlePage : string;
  positiveFeedback : Z;
  negativeFeedback : Z
}.

Definition to_object (a : Attestation) : list (string * JSON.value) :=
  [("txHash", JSON.str_value (txHash a));
   ("blockNumber", JSON.num_value (blockNumber a));
   ("from", JSON.str_value (from a));
   ("timestamp", JSON.str_value (timestamp a));
   ("articlePage", JSON.str_value (att_articlePage a));
   ("positiveFeedback", JSON.num_value (positiveFeedback a));
   ("negativeFeedback", JSON.num_value (negativeFeedback a))].

Definition saveToJSON (attestation : Attestation) : M unit :=
  let jsonString := JSON.stringify (to_object attestation) +:+ str newline in
  appendFileSync JSON_FILE jsonString.

(** the text of a row, without the line feed that ends it *)
Definition csvRow (attestation : Attestation) : string :=
  txHash attestation +:+ "," +:+ String_number (blockNumber attestation)
  +:+ "," +:+ from attestation +:+ "," +:+ timestamp attestation
  +:+ "," +:+ att_articlePage attestation
  +:+ "," +:+ String_number (positiveFeedback attestation)
  +:+ "," +:+ String_number (negativeFeedback attestation).

(** the three unused locals of the source are left out *)
Definition saveToCSV (attestation : Attestation) : M unit :=
  let csvLine := csvRow attestation +:+ str newline in
  appendFileSync CSV_FILE csvLine.

(** the sink, used on its own: one record after the other, each
    appended to both files as [decodeAttestation] does *)
Fixpoint append_all (attestations : list Attestation) : M unit :=
  match attestations with
  | [] => mret tt
  | attestation :: rest =>
      _ ← saveToJSON attestation;
      _ ← saveToCSV attestation;
      append_all rest
  end.

Section Pipeline.

Variable env : Env.

Definition CONTRACT_ADDRESS : string := toLowerCase (env_CONTRACT_ADDRESS env).

Definition to_differs (to : option string) : bool :=
  match to with
  | Some a => negb (String.eqb (toLowerCase a) CONTRACT_ADDRESS)
  | None => true
  end.

(** the part of [decodeAttestation] that builds the record from the
    decoded call; [None] where the source returns without a record *)
Definition assemble (txHash : string) (blockNumber : Z)
    (attestationPayload : AttestationPayload) : M (option Attestation) :=
  let rawSubject := payload_subject attestationPayload in
  let attestationDataEncoded := payload_attestationData attestationPayload in
  decodedAttestationData ← lift (decodeAttestationData attestationDataEncoded);
  match decodedAttestationData with
  | None => mret None
  | Some decodedAttestationData =>
      match parseSubjectAsAddress rawSubject with
      | Throw _ => mret None
      | Ok subjectAddress =>
          _ ← emit (ev_getBlock blockNumber);
          block ← lift (provider_getBlock env blockNumber);
          match block with
          | None => lift (Throw "Cannot read properties of null")
          | Some block =>
              blockTimestamp ←
                lift (JSDate.toISOString (block_timestamp block * 1000));
              mret (Some
                {| txHash := txHash;
                   blockNumber := blockNumber;
                   from := submitter decodedAttestationData;
                   timestamp := blockTimestamp;
                   att_articlePage := articlePage decodedAttestationData;
                   positiveFeedback :=
                     if isPositive decodedAttestationData then 1 else 0;
                   negativeFeedback :=
                     if isPositive decodedAttestationData then 0 else 1 |})
          end
      end
  end.

Definition decodeAttestation (txHash : string) (blockNumber : Z) : M unit :=
  M_try
    (_ ← emit (ev_getTransaction txHash);
     tx ← lift (provider_getTransaction env txHash);
     match tx with
     | None => mret tt
     | Some tx =>
         if to_differs (tx_to tx) then mret tt
         else if String.eqb (tx_data tx) "" || String.eqb (tx_data tx) "0x"
         then mret tt
         else
           _ ← emit (ev_parseTransaction (tx_data tx));
           decoded ← lift (interface_parseTransaction env (tx_data tx));
           match decoded with
           | None => mret tt
           | Some decoded =>
               attestation ←
                 assemble txHash blockNumber (args_attestationPayload decoded);
               match attestation with
               | None => mret tt
               | Some attestation =>
                   _ ← saveToJSON attestation;
                   saveToCSV attestation
               end
           end
     end)
    (fun _ => mret tt).

(** the [for] loop of [fetchTransactionsFromExplorer]; the calls are
    run one after the other, as in [Scanner.process] *)
Fixpoint process (transactions : list ExplorerItem) : M unit :=
  match transactions with
  | [] => mret tt
  | tx :: rest =>
      _ ← (if String.eqb (toLowerCase (item_to tx)) CONTRACT_ADDRESS
           then decodeAttestation (item_hash tx) (item_blockNumber tx)
           else mret tt);
      process rest
  end.

Definition fetchTransactionsFromExplorer : M unit :=
  M_try
    (_ ← emit ev_axios_get;
     response ← lift (axios_get env);
     if negb (String.eqb (response_status response) "1") then mret tt
     else process (response_result response))
    (fun _ => mret tt).

Definition startup : M unit :=
  _ ← initializeFiles;
  fetchTransactionsFromExplorer.

End Pipeline.

End Part0.

(** ** The payload layouts

    Modelled from the spec: the ABI encoder, which the sources do not
    contain (they only decode).  The spec gives the layout: "canonical
    ABI head/tail encoding: a 32-byte-aligned tuple head followed by
    variable-length tail data", where "boolean occupies one word",
    "address occupies the low 20 bytes of one word" and "string is
    length-prefixed UTF-8 bytes referenced via an offset in the tuple
    head".  [encode_parameters] lays a payload
    [(isPositive, articlePage, submitter)] out as the three top-level
    parameters [bool, string, address] that [part_000] decodes;
    [encode_tuple] lays it out as the one parameter of tuple type
    [(bool, string, address)] that [attestation-scanner.js] decodes,
    which puts the offset of the tuple in front.  [submitter] is the 20
    bytes of the address. *)

Definition word (v : Z) : list byte := be_of_Z 32 v.

Definition pad32 (bs : list byte) : list byte :=
  bs ++ repeat x00 (Z.to_nat ((- byteLength bs) mod 32)).

Definition encode_string (s : string) : list byte :=
  word (byteLength (bytes_of_string s)) ++ pad32 (bytes_of_string s).

Definition encode_parameters (isPositive : bool) (articlePage : string)
    (submitter : list byte) : list byte :=
  word (if isPositive then 1 else 0) ++ word 96 ++ word (Z_of_be submitter)
  ++ encode_string articlePage.

Definition encode_tuple (isPositive : bool) (articlePage : string)
    (submitter : list byte) : list byte :=
  word 32 ++ encode_parameters isPositive articlePage submitter.

(** the checksummed (EIP-55) text of a 20-byte address *)
Definition checksum_address (a : list byte) : string :=
  "0x" +:+ Ethers.checksum_case (hex_of_bytes a)
             (Ethers.nibbles (Keccak.keccak256 (bytes_of_string (hex_of_bytes a)))).

(** text made of ASCII characters other than NUL *)
Definition plain_text (s : string) : bool :=
  forallb (fun b => (0 <? Z_of_byte b) && (Z_of_byte b <? 128)) (bytes_of_string s).

(** The decoded payload, as the triple of its members, for comparing the
    two variants. *)
Definition Triple : Type := bool * string * string.

Definition Scanner_triple (encodedData : string) : exn (option Triple) :=
  r ← Scanner.decodeAttestationData encodedData;
  Ok (option_map (fun d => (Scanner.isPositive d, Scanner.articlePage d,
                            Scanner.submitter d)) r).

Definition Part0_triple (encodedData : string) : exn (option Triple) :=
  r ← Part0.decodeAttestationData encodedData;
  Ok (option_map (fun d => (Part0.isPositive d, Part0.articlePage d,
                            Part0.submitter d)) r).

(** ** Malformed payloads

    Two ways in which a byte string misses the layout, read off the
    bytes themselves: the head is shorter than its words, or the string
    tail is shorter than the length written in front of it.  In the
    tuple layout the head starts where the first word says. *)

Definition short_head_parameters (d : list byte) : bool :=
  byteLength d <? 96.

Definition truncated_tail_parameters (d : list byte) : bool :=
  let offset := Z_of_be (slice d 32 32) in
  let len := Z_of_be (slice d offset 32) in
  (96 <=? byteLength d) && (offset + 32 <=? byteLength d)
  && (byteLength d <? offset + 32 + len).

Definition short_head_tuple (d : list byte) : bool :=
  (byteLength d <? 32) || (byteLength d <? Z_of_be (slice d 0 32) + 96).

Definition truncated_tail_tuple (d : list byte) : bool :=
  let start := Z_of_be (slice d 0 32) in
  let offset := Z_of_be (slice d (start + 32) 32) in
  let len := Z_of_be (slice d (start + offset) 32) in
  (start + 96 <=? byteLength d) && (start + offset + 32 <=? byteLength d)
  && (byteLength d <? start + offset + 32 + len).

(** ** Text without line feeds *)

Definition no_line_feed (s : string) : bool :=
  string_forallb (fun c => negb (Ascii.eqb c newline)) s.

Definition plain_bytes (bs : list byte) : Prop :=
  Forall (fun b => 0 < Z_of_byte b < 128) bs.

(** ** States of the scan of the structured artifact *)

(** outside string literals, at depth [d] with [n] objects seen *)
Definition outside (d n : nat) : Scan :=
  {| depth := d; in_string := false; escaped := false; objects := n |}.

(** inside a string literal, not after a backslash *)
Definition inside (d n : nat) : Scan :=
  {| depth := d; in_string := true; escaped := false; objects := n |}.

(** the characters the scan reacts to outside string literals *)
Definition structural (c : ascii) : bool :=
  Ascii.eqb c quote || Ascii.eqb c "{" || Ascii.eqb c "}".

(** ** Runs that only append

    [w'] comes after [w] and no file was written anew in between: the
    trace grew by events none of which is a [writeFileSync], and every
    file still starts with the content it had. *)
Definition append_only (w w' : World) : Prop :=
  (exists evs, trace w' = trace w ++ evs
               /\ forallb (fun e => negb (is_write e)) evs = true)
  /\ (forall path, exists s, file_content w' path = file_content w path +:+ s).

Definition append_only_M {A} (m : M A) : Prop :=
  forall w, append_only w (m w).1.

(** the events of a run that touch a file *)
Definition is_file_event (e : Event) : bool := is_write e || is_append e.

(** ** What the claims speak of *)

(** the ABI decoder of a variant throws on the payload [d] *)
Definition schema_mismatch_tuple (d : list byte) : bool :=
  is_throw (Viem.decodeAbiParameters Scanner.attestationDataSchema (hexlify d)).

Definition schema_mismatch_parameters (d : list byte) : bool :=
  is_throw (Ethers.defaultAbiCoder_decode Part0.attestationDataTypes (hexlify d)).

(** the world after further events that touch no file *)
Definition after_events (w : World) (evs : list Event) : World :=
  {| files := files w; trace := trace w ++ evs; clock_reads := clock_reads w |}.

(** [tx], an item of the explorer's list, is a call to the contract (by
    the explorer and by the provider), has call data, and its call data
    decodes to a call with the payload [p] *)
Definition carries (env : Env) (tx : ExplorerItem) (t : Transaction)
    (p : AttestationPayload) : Prop :=
  toLowerCase (item_to tx) = toLowerCase (env_CONTRACT_ADDRESS env)
  /\ provider_getTransaction env (item_hash tx) = Ok (Some t)
  /\ (exists a, tx_to t = Some a
                /\ toLowerCase a = toLowerCase (env_CONTRACT_ADDRESS env))
  /\ tx_data t <> "" /\ tx_data t <> "0x"
  /\ exists decoded,
       interface_parseTransaction env (tx_data t) = Ok (Some decoded)
       /\ args_attestationPayload decoded = p.

(** ** Sample inputs *)

(** the address of the spec's example, 0xAbCdEf0123456789AbCdEf0123456789AbCdEf01 *)
Definition sample_address : list byte :=
  [xab; xcd; xef; x01; x23; x45; x67; x89; xab; xcd;
   xef; x01; x23; x45; x67; x89; xab; xcd; xef; x01].

(** 0xAAAA...AAAA *)
Definition address_aa : list byte := repeat xaa 20.

Definition empty_world : World :=
  {| files := ∅; trace := []; clock_reads := 0 |}.

Definition sample_contract : string := "0xC0ffee254729296a45a3885639AC7E10F9d54979".

Definition sample_payload (subject attestationData : string) : AttestationPayload :=
  {| payload_schemaId := hexlify (repeat x11 32);
     payload_expirationDate := 0;
     payload_subject := subject;
     payload_attestationData := attestationData |}.

(** a transaction sent to the sample contract *)
Definition sample_item : ExplorerItem :=
  {| item_hash := "0x01"; item_to := toLowerCase sample_contract;
     item_blockNumber := 100 |}.

(** a transaction sent elsewhere *)
Definition other_item : ExplorerItem :=
  {| item_hash := "0x02";
     item_to := "0x0000000000000000000000000000000000000001";
     item_blockNumber := 101 |}.

(** an environment in which every transaction hash resolves to a call
    to the contract that carries the given payload; the explorer lists
    two transactions, the second one sent elsewhere *)
Definition sample_env (status : string) (p : AttestationPayload) : Env :=
  {| env_CONTRACT_ADDRESS := sample_contract;
     provider_getTransaction := fun _ =>
       Ok (Some {| tx_to := Some sample_contract; tx_data := "0x12345678" |});
     provider_getBlock := fun _ => Ok (Some {| block_timestamp := 1600000000 |});
     interface_parseTransaction := fun _ =>
       Ok (Some {| args_attestationPayload := p; args_validationPayloads := [] |});
     axios_get :=
       Ok {| response_status := status;
             response_message := "OK";
             response_result := [sample_item; other_item] |};
     clock := fun _ => 1700000000000 |}.

(** a payload in the parameter layout whose string tail is cut after
    three of its six bytes *)
Definition truncated_parameters : list byte :=
  firstn 131 (encode_parameters true "page-3" address_aa).

(** the same in the tuple layout *)
Definition truncated_tuple : list byte :=
  firstn 163 (encode_tuple true "page-3" address_aa).

(** a record whose [articlePage] holds a line feed *)
Definition two_line_page : string := "a" +:+ str newline +:+ "b".

Definition Scanner_sample_record (articlePage : string) : Scanner.Attestation :=
  {| Scanner.txHash := "0x01";
     Scanner.blockNumber := 100;
     Scanner.schemaId := hexlify (repeat x11 32);
     Scanner.subject := checksum_address sample_address;
     Scanner.att_isPositive := true;
     Scanner.att_articlePage := articlePage;
     Scanner.att_submitter := checksum_address address_aa;
     Scanner.timestamp := "2023-11-14T22:13:20.000Z" |}.

Definition Part0_sample_record (articlePage : string) : Part0.Attestation :=
  {| Part0.txHash := "0x01";
     Part0.blockNumber := 100;
     Part0.from := checksum_address address_aa;
     Part0.timestamp := "2020-09-13T12:26:40.000Z";
     Part0.att_articlePage := articlePage;
     Part0.positiveFeedback := 1;
     Part0.negativeFeedback := 0 |}.

(** ** Payloads with arbitrary head words

    Modelled from the spec: the layout of [encode_parameters] and
    [encode_tuple] with any 32-byte word in the place of the boolean
    and in the place of the address.  These are the byte strings that a
    caller of the contract is free to put into [attestationData]. *)

Definition layout_parameters (v : Z) (articlePage : string) (a : Z) : list byte :=
  word v ++ word 96 ++ word a ++ encode_string articlePage.

Definition layout_tuple (v : Z) (articlePage : string) (a : Z) : list byte :=
  word 32 ++ layout_parameters v articlePage a.

(** U+FFFD, the replacement character, as text *)
Definition replacement : string := string_of_code_points [0xFFFD].

(** a byte that cannot start a UTF-8 sequence: a continuation byte, or
    the prefix of a sequence of five bytes or more *)
Definition stray (b : byte) : bool :=
  (0x80 <=? Z_of_byte b) && (Z_of_byte b <=? 0xBF) || (0xF8 <=? Z_of_byte b).

(** [n] NUL characters *)
Definition nuls (n : nat) : string := string_of_bytes (repeat x00 n).

(** [line.split(",")]: the fields of a row *)
Fixpoint split_commas (s : string) : list string :=
  match s with
  | EmptyString => [EmptyString]
  | String c s' =>
      if Ascii.eqb c "," then EmptyString :: split_commas s'
      else
        match split_commas s' with
        | [] => [str c]
        | f :: fs => String c f :: fs
        end
  end.

Definition no_comma (s : string) : bool :=
  string_forallb (fun c => negb (Ascii.eqb c ",")) s.

(** an environment in which every call to the outside fails *)
Definition failing_env : Env :=
  {| env_CONTRACT_ADDRESS := sample_contract;
     provider_getTransaction := fun _ => Throw "could not detect network";
     provider_getBlock := fun _ => Throw "could not detect network";
     interface_parseTransaction := fun _ => Throw "no matching function";
     axios_get := Throw "Network Error";
     clock := fun _ => 0 |}.

(** * Properties *)

(** ** Bytes and hexadecimal strings *)

Lemma byte_of_Z_of_byte (b : byte) : byte_of_Z (Z_of_byte b) = b.
Proof. destruct b; reflexivity. Qed.

Lemma Z_of_byte_range (b : byte) : 0 <= Z_of_byte b < 256.
Proof. destruct b; vm_compute; split; congruence. Qed.

Lemma hex_digits_of_byte (b : byte) :
  hex_value (hex_char (Z_of_byte b / 16)) = Some (Z_of_byte b / 16)
  /\ hex_value (hex_char (Z_of_byte b mod 16)) = Some (Z_of_byte b mod 16).
Proof. destruct b; split; reflexivity. Qed.

Lemma hex_chars_lower (b : byte) :
  let h := hex_char (Z_of_byte b / 16) in
  let l := hex_char (Z_of_byte b mod 16) in
  is_hex_digit h = true /\ is_hex_digit l = true
  /\ is_upper_hex h = false /\ is_upper_hex l = false
  /\ lower_char h = h /\ lower_char l = l.
Proof. destruct b; repeat split; reflexivity. Qed.

Lemma bytes_of_hex_of_bytes (bs : list byte) :
  bytes_of_hex (hex_of_bytes bs) = Some bs.
Proof.
  induction bs as [|b bs IH]; [reflexivity|].
  cbn [hex_of_bytes bytes_of_hex].
  destruct (hex_digits_of_byte b) as [-> ->]. rewrite IH.
  f_equal. f_equal.
  rewrite <- (byte_of_Z_of_byte b) at 3. f_equal.
  pose proof (Z.div_mod (Z_of_byte b) 16). lia.
Qed.

Lemma length_hex_of_bytes (bs : list byte) :
  String.length (hex_of_bytes bs) = (2 * length bs)%nat.
Proof. induction bs as [|b bs IH]; cbn [hex_of_bytes String.length length]; lia. Qed.

Lemma hex_of_bytes_app (a b : list byte) :
  hex_of_bytes (a ++ b) = hex_of_bytes a +:+ hex_of_bytes b.
Proof.
  induction a as [|x a IH]; [reflexivity|].
  cbn [hex_of_bytes app]. now rewrite IH.
Qed.

Lemma hex_of_bytes_is_hex (bs : list byte) :
  string_forallb is_hex_digit (hex_of_bytes bs) = true.
Proof.
  induction bs as [|b bs IH]; [reflexivity|]. cbn [hex_of_bytes string_forallb].
  destruct (hex_chars_lower b) as (-> & -> & _). exact IH.
Qed.

Lemma hex_of_bytes_no_upper (bs : list byte) :
  string_existsb is_upper_hex (hex_of_bytes bs) = false.
Proof.
  induction bs as [|b bs IH]; [reflexivity|]. cbn [hex_of_bytes string_existsb].
  destruct (hex_chars_lower b) as (_ & _ & -> & -> & _). exact IH.
Qed.

Lemma toLowerCase_hex_of_bytes (bs : list byte) :
  toLowerCase (hex_of_bytes bs) = hex_of_bytes bs.
Proof.
  unfold toLowerCase.
  induction bs as [|b bs IH]; [reflexivity|]. cbn [hex_of_bytes string_map].
  destruct (hex_chars_lower b) as (_ & _ & _ & _ & -> & ->). now rewrite IH.
Qed.

Lemma hexlify_cons (bs : list byte) :
  hexlify bs = String "0" (String "x" (hex_of_bytes bs)).
Proof. reflexivity. Qed.

Lemma arrayify_hexlify (bs : list byte) : Ethers.arrayify (hexlify bs) = Ok bs.
Proof.
  unfold Ethers.arrayify, Ethers.isHexString. rewrite hexlify_cons. cbn.
  now rewrite hex_of_bytes_is_hex, bytes_of_hex_of_bytes.
Qed.

Lemma hexToBytes_hexlify (bs : list byte) : Viem.hexToBytes (hexlify bs) = Ok bs.
Proof.
  unfold Viem.hexToBytes. rewrite hexlify_cons. cbn [string_drop].
  rewrite length_hex_of_bytes.
  replace (Nat.odd (2 * length bs)) with false.
  - now rewrite bytes_of_hex_of_bytes.
  - symmetry. rewrite Nat.odd_mul. reflexivity.
Qed.

Lemma size_hex_hexlify (bs : list byte) : Viem.size_hex (hexlify bs) = byteLength bs.
Proof.
  unfold Viem.size_hex, byteLength. rewrite hexlify_cons. cbn [has_0x String.length].
  rewrite length_hex_of_bytes.
  replace (Z.of_nat (S (S (2 * length bs))) - 2 + 1) with (1 + Z.of_nat (length bs) * 2) by lia.
  rewrite Z.div_add by lia. reflexivity.
Qed.

(** ** Strings *)

Lemma app_cons (c : ascii) (p q : string) : String c p +:+ q = String c (p +:+ q).
Proof. reflexivity. Qed.

Lemma app_empty (q : string) : EmptyString +:+ q = q.
Proof. reflexivity. Qed.

Lemma string_length_app (p q : string) :
  String.length (p +:+ q) = (String.length p + String.length q)%nat.
Proof.
  induction p as [|c p IH]; [reflexivity|].
  rewrite app_cons. cbn [String.length]. now rewrite IH.
Qed.

Lemma string_app_assoc (p q r : string) : (p +:+ q) +:+ r = p +:+ (q +:+ r).
Proof.
  induction p as [|c p IH]; [reflexivity|]. rewrite !app_cons. now rewrite IH.
Qed.

Lemma substring_all (q : string) : String.substring 0 (String.length q) q = q.
Proof. induction q as [|c q IH]; cbn; [reflexivity|]. now rewrite IH. Qed.

Lemma substring_skip (p q : string) (n : nat) :
  String.substring (String.length p) n (p +:+ q) = String.substring 0 n q.
Proof.
  induction p as [|c p IH]; [reflexivity|].
  rewrite app_cons. cbn [String.length String.substring]. exact IH.
Qed.

Lemma slice_last_app (p q : string) (n : nat) :
  String.length q = n -> slice_last n (p +:+ q) = q.
Proof.
  intros <-. unfold slice_last. rewrite string_length_app.
  replace (String.length p + String.length q - String.length q)%nat
    with (String.length p) by lia.
  rewrite substring_skip. apply substring_all.
Qed.

(** ** Addresses *)

Lemma length_hexlify (bs : list byte) :
  String.length (hexlify bs) = (2 + 2 * length bs)%nat.
Proof. rewrite hexlify_cons. cbn [String.length]. now rewrite length_hex_of_bytes. Qed.

Lemma getChecksumAddress_hexlify (bs : list byte) :
  length bs = 20%nat ->
  Ethers.getChecksumAddress (hexlify bs) = Ok (checksum_address bs).
Proof.
  intros Hlen. unfold Ethers.getChecksumAddress, Ethers.isHexString.
  rewrite length_hexlify, Hlen, hexlify_cons. cbn [has_0x string_drop].
  rewrite hex_of_bytes_is_hex. cbn [andb Nat.eqb Nat.mul Nat.add].
  unfold toLowerCase. cbn [string_map].
  change (string_map lower_char (hex_of_bytes bs)) with (toLowerCase (hex_of_bytes bs)).
  rewrite toLowerCase_hex_of_bytes. reflexivity.
Qed.

Lemma mixed_case_hexlify (bs : list byte) : Ethers.mixed_case (hexlify bs) = false.
Proof.
  unfold Ethers.mixed_case. rewrite hexlify_cons. cbn [string_existsb].
  rewrite hex_of_bytes_no_upper. reflexivity.
Qed.

Lemma getAddress_hexlify_20 (bs : list byte) :
  length bs = 20%nat -> Ethers.getAddress (hexlify bs) = Ok (checksum_address bs).
Proof.
  intros Hlen. unfold Ethers.getAddress, Ethers.matches_hex40.
  replace (has_0x (hexlify bs)) with true by reflexivity.
  replace (string_drop 2 (hexlify bs)) with (hex_of_bytes bs) by reflexivity.
  rewrite length_hex_of_bytes, Hlen, hex_of_bytes_is_hex.
  cbn [andb Nat.eqb Nat.mul Nat.add].
  rewrite getChecksumAddress_hexlify by assumption.
  cbn [mbind exn_mbind exn_bind]. now rewrite mixed_case_hexlify.
Qed.

Lemma getAddress_hexlify_other (bs : list byte) :
  length bs <> 20%nat -> Ethers.getAddress (hexlify bs) = Throw "invalid address".
Proof.
  intros Hlen. unfold Ethers.getAddress, Ethers.matches_hex40.
  replace (has_0x (hexlify bs)) with true by reflexivity.
  replace (string_drop 2 (hexlify bs)) with (hex_of_bytes bs) by reflexivity.
  rewrite length_hex_of_bytes.
  replace (2 * length bs =? 40)%nat with false
    by (symmetry; apply Nat.eqb_neq; lia).
  reflexivity.
Qed.

Lemma checksumAddress_hexlify (bs : list byte) :
  Viem.checksumAddress (hexlify bs) = checksum_address bs.
Proof.
  unfold Viem.checksumAddress.
  replace (string_drop 2 (hexlify bs)) with (hex_of_bytes bs) by reflexivity.
  now rewrite toLowerCase_hex_of_bytes.
Qed.

(** ** The subject normaliser of [part_000] *)

Lemma hexlify_split (bs : list byte) (n : nat) :
  hexlify bs = ("0x" +:+ hex_of_bytes (firstn n bs)) +:+ hex_of_bytes (skipn n bs).
Proof.
  rewrite string_app_assoc, <- hex_of_bytes_app, firstn_skipn. reflexivity.
Qed.

Lemma parseSubjectAsAddress_20 (bs : list byte) :
  length bs = 20%nat ->
  Part0.parseSubjectAsAddress (hexlify bs) = Ok (checksum_address bs).
Proof.
  intros Hlen. unfold Part0.parseSubjectAsAddress.
  rewrite length_hexlify, Hlen. cbn [Nat.eqb Nat.mul Nat.add].
  now apply getAddress_hexlify_20.
Qed.

Lemma parseSubjectAsAddress_32 (bs : list byte) :
  length bs = 32%nat ->
  Part0.parseSubjectAsAddress (hexlify bs) = Ok (checksum_address (skipn 12 bs)).
Proof.
  intros Hlen. unfold Part0.parseSubjectAsAddress.
  rewrite length_hexlify, Hlen. cbn [Nat.eqb Nat.mul Nat.add].
  rewrite (hexlify_split bs 12), slice_last_app.
  - apply getAddress_hexlify_20. rewrite length_skipn. lia.
  - rewrite length_hex_of_bytes, length_skipn. lia.
Qed.

Lemma parseSubjectAsAddress_padded (pad a : list byte) :
  length pad = 12%nat -> length a = 20%nat ->
  Part0.parseSubjectAsAddress (hexlify (pad ++ a))
  = Part0.parseSubjectAsAddress (hexlify a).
Proof.
  intros Hp Ha.
  rewrite parseSubjectAsAddress_32 by (rewrite length_app; lia).
  rewrite parseSubjectAsAddress_20 by assumption.
  rewrite skipn_app, <- Hp, skipn_all, Nat.sub_diag. reflexivity.
Qed.

(** ** Big-endian numbers and slices *)

Lemma Z_of_byte_of_Z (z : Z) : Z_of_byte (byte_of_Z z) = z mod 256.
Proof.
  unfold byte_of_Z, Z_of_byte.
  pose proof (Z.mod_pos_bound z 256 ltac:(lia)) as Hr.
  destruct (Byte.of_N (Z.to_N (z mod 256))) as [b|] eqn:E.
  - apply Byte.to_of_N in E. rewrite E. lia.
  - pose proof (Byte.to_of_N_option_map (Z.to_N (z mod 256))) as H.
    rewrite E in H. cbn in H.
    destruct (N.leb_spec (Z.to_N (z mod 256)) 255); [discriminate|lia].
Qed.

Lemma byte_of_Z_mod (z : Z) : byte_of_Z z = byte_of_Z (z mod 256).
Proof. unfold byte_of_Z. now rewrite Z.mod_mod by lia. Qed.

Lemma Z_of_be_snoc (bs : list byte) (b : byte) :
  Z_of_be (bs ++ [b]) = 256 * Z_of_be bs + Z_of_byte b.
Proof. unfold Z_of_be. now rewrite fold_left_app. Qed.

Lemma length_be_of_Z (n : nat) (v : Z) : length (be_of_Z n v) = n.
Proof.
  revert v. induction n as [|n IH]; intros v; [reflexivity|].
  cbn [be_of_Z]. rewrite length_app, IH. cbn. lia.
Qed.

Lemma Z_of_be_range (bs : list byte) : 0 <= Z_of_be bs < 256 ^ Z.of_nat (length bs).
Proof.
  induction bs as [|b bs IH] using rev_ind; [cbn; lia|].
  rewrite Z_of_be_snoc, length_app. cbn [length].
  replace (Z.of_nat (length bs + 1)) with (Z.succ (Z.of_nat (length bs))) by lia.
  rewrite Z.pow_succ_r by lia.
  pose proof (Z_of_byte_range b). lia.
Qed.

Lemma Z_of_be_be_of_Z (n : nat) (v : Z) :
  0 <= v < 256 ^ Z.of_nat n -> Z_of_be (be_of_Z n v) = v.
Proof.
  revert v. induction n as [|n IH]; intros v Hv.
  - cbn in *. lia.
  - cbn [be_of_Z]. rewrite Z_of_be_snoc, Z_of_byte_of_Z, IH.
    + pose proof (Z.div_mod v 256). lia.
    + replace (Z.of_nat (S n)) with (Z.succ (Z.of_nat n)) in Hv by lia.
      rewrite Z.pow_succ_r in Hv by lia.
      split; [apply Z.div_pos; lia|].
      apply Z.div_lt_upper_bound; lia.
Qed.

Lemma be_of_Z_Z_of_be (bs : list byte) : be_of_Z (length bs) (Z_of_be bs) = bs.
Proof.
  induction bs as [|b bs IH] using rev_ind; [reflexivity|].
  rewrite length_app. cbn [length]. rewrite Nat.add_1_r. cbn [be_of_Z].
  rewrite Z_of_be_snoc.
  pose proof (Z_of_byte_range b) as Hb.
  replace ((256 * Z_of_be bs + Z_of_byte b) / 256) with (Z_of_be bs).
  - rewrite IH. f_equal. f_equal.
    rewrite byte_of_Z_mod, Z.add_comm, Z.mul_comm, Z.mod_add by lia.
    rewrite <- byte_of_Z_mod. apply byte_of_Z_of_byte.
  - symmetry. rewrite Z.add_comm, Z.mul_comm, Z.div_add by lia.
    rewrite Z.div_small by lia. lia.
Qed.

Lemma be_of_Z_zero (n : nat) : be_of_Z n 0 = repeat x00 n.
Proof.
  induction n as [|n IH]; [reflexivity|].
  cbn [be_of_Z]. rewrite Z.div_0_l, IH by lia.
  change (byte_of_Z 0) with x00.
  now rewrite <- repeat_cons.
Qed.

Lemma be_of_Z_add (m n : nat) (v : Z) :
  be_of_Z (m + n) v = be_of_Z m (v / 256 ^ Z.of_nat n) ++ be_of_Z n v.
Proof.
  revert v. induction n as [|n IH]; intros v.
  - rewrite Nat.add_0_r. cbn. now rewrite Z.div_1_r, app_nil_r.
  - rewrite Nat.add_succ_r. cbn [be_of_Z]. rewrite IH, app_assoc.
    do 3 f_equal.
    replace (Z.of_nat (S n)) with (Z.succ (Z.of_nat n)) by lia.
    rewrite Z.pow_succ_r by lia.
    rewrite Z.div_div by lia. f_equal; lia.
Qed.

Lemma byteLength_app (a b : list byte) :
  byteLength (a ++ b) = byteLength a + byteLength b.
Proof. unfold byteLength. rewrite length_app. lia. Qed.

Lemma byteLength_nonneg (a : list byte) : 0 <= byteLength a.
Proof. unfold byteLength. lia. Qed.

Lemma byteLength_word (v : Z) : byteLength (word v) = 32.
Proof. unfold byteLength, word. now rewrite length_be_of_Z. Qed.

Lemma Z_of_be_word (v : Z) : 0 <= v < 2 ^ 256 -> Z_of_be (word v) = v.
Proof. intros Hv. apply Z_of_be_be_of_Z. exact Hv. Qed.

Lemma word_address (a : list byte) :
  length a = 20%nat -> word (Z_of_be a) = repeat x00 12 ++ a.
Proof.
  intros Ha. unfold word. change 32%nat with (12 + 20)%nat.
  rewrite be_of_Z_add. f_equal.
  - rewrite Z.div_small, be_of_Z_zero; [reflexivity|].
    pose proof (Z_of_be_range a) as H. now rewrite Ha in H.
  - rewrite <- Ha. apply be_of_Z_Z_of_be.
Qed.

Lemma slice_at (data pre w post : list byte) (start len : Z) :
  data = pre ++ w ++ post -> start = byteLength pre -> len = byteLength w ->
  slice data start len = w.
Proof.
  intros -> -> ->. unfold slice, byteLength. rewrite !Nat2Z.id.
  rewrite skipn_app, skipn_all, Nat.sub_diag. cbn [app]. rewrite skipn_O.
  rewrite firstn_app, firstn_all, Nat.sub_diag, firstn_O. apply app_nil_r.
Qed.

Lemma slice_prefix (data w post : list byte) (len : Z) :
  data = w ++ post -> len = byteLength w -> slice data 0 len = w.
Proof. intros H1 H2. now apply (slice_at data [] w post). Qed.

(** ** UTF-8 on plain text *)

Lemma plain_text_bytes (s : string) :
  plain_text s = true -> plain_bytes (bytes_of_string s).
Proof.
  unfold plain_text, plain_bytes. generalize (bytes_of_string s) as bs.
  induction bs as [|b bs IH]; cbn [forallb]; intros H; constructor.
  - apply andb_true_iff in H as [[H1 H2]%andb_true_iff _]. lia.
  - apply IH. now apply andb_true_iff in H as [_ H].
Qed.

Lemma getUtf8CodePoints_plain (bs : list byte) :
  plain_bytes bs -> Ethers.getUtf8CodePoints bs = Ok (map Z_of_byte bs).
Proof.
  induction 1 as [|b bs Hb _ IH]; [reflexivity|].
  cbn [Ethers.getUtf8CodePoints map].
  replace (Z.shiftr (Z_of_byte b) 7 =? 0) with true.
  - now rewrite IH.
  - symmetry. apply Z.eqb_eq. rewrite Z.shiftr_div_pow2 by lia.
    apply Z.div_small. change (2 ^ 7) with 128. lia.
Qed.

Lemma string_of_code_points_plain (bs : list byte) :
  plain_bytes bs -> string_of_code_points (map Z_of_byte bs) = string_of_bytes bs.
Proof.
  intros H. unfold string_of_code_points. f_equal.
  induction H as [|b bs Hb _ IH]; [reflexivity|].
  cbn [map flat_map]. rewrite IH. unfold utf8_encode_cp.
  replace (Z_of_byte b <? 128) with true by (symmetry; apply Z.ltb_lt; lia).
  now rewrite byte_of_Z_of_byte.
Qed.

Lemma string_of_bytes_of_string (s : string) : string_of_bytes (bytes_of_string s) = s.
Proof. apply String.string_of_list_byte_of_string. Qed.

Lemma toUtf8String_plain (s : string) :
  plain_text s = true -> Ethers.toUtf8String (bytes_of_string s) = Ok s.
Proof.
  intros H%plain_text_bytes. unfold Ethers.toUtf8String.
  rewrite getUtf8CodePoints_plain by assumption. cbn [mbind exn_mbind exn_bind].
  now rewrite string_of_code_points_plain, string_of_bytes_of_string.
Qed.

Lemma utf8_run_plain (bs : list byte) :
  plain_bytes bs -> Viem.utf8_run Viem.utf8_initial bs = map Z_of_byte bs.
Proof.
  induction 1 as [|b bs Hb _ IH]; [reflexivity|].
  cbn [Viem.utf8_run map]. unfold Viem.utf8_step. cbn [Viem.bytes_needed Viem.utf8_initial].
  cbn [Z.eqb]. unfold Viem.utf8_lead.
  replace (Z_of_byte b <=? 127) with true by (symmetry; apply Z.leb_le; lia).
  now rewrite IH.
Qed.

Lemma drop_bom_plain (bs : list byte) :
  plain_bytes bs -> Viem.drop_bom (map Z_of_byte bs) = map Z_of_byte bs.
Proof.
  destruct 1 as [|b bs Hb _]; [reflexivity|]. cbn [map Viem.drop_bom].
  replace (Z_of_byte b =? 65279) with false; [reflexivity|].
  symmetry. apply Z.eqb_neq. lia.
Qed.

Lemma trim_plain (bs : list byte) : plain_bytes bs -> Viem.trim bs = bs.
Proof.
  destruct 1 as [|b bs Hb _]; [reflexivity|]. cbn [Viem.trim].
  destruct bs; [reflexivity|].
  replace (Z_of_byte b =? 0) with false; [reflexivity|].
  symmetry. apply Z.eqb_neq. lia.
Qed.

Lemma bytesToString_plain (s : string) :
  plain_text s = true ->
  Viem.bytesToString (Viem.trim (bytes_of_string s)) = s.
Proof.
  intros H%plain_text_bytes. rewrite trim_plain by assumption.
  unfold Viem.bytesToString, Viem.TextDecoder_decode.
  rewrite utf8_run_plain, drop_bom_plain by assumption.
  now rewrite string_of_code_points_plain, string_of_bytes_of_string.
Qed.

(** ** Padding *)

Lemma pad_length (n : Z) : 0 <= n -> n + (- n) mod 32 = (n + 31) / 32 * 32.
Proof.
  intros Hn.
  pose proof (Z.div_mod n 32 ltac:(lia)) as Hdm.
  pose proof (Z.mod_pos_bound n 32 ltac:(lia)) as Hr.
  destruct (Z.eq_dec (n mod 32) 0) as [E|E].
  - rewrite <- (Z.mod_unique (- n) 32 (- (n / 32)) 0) by lia.
    rewrite <- (Z.div_unique (n + 31) 32 (n / 32) 31) by lia. lia.
  - rewrite <- (Z.mod_unique (- n) 32 (- (n / 32) - 1) (32 - n mod 32)) by lia.
    rewrite <- (Z.div_unique (n + 31) 32 (n / 32 + 1) (n mod 32 - 1)) by lia. lia.
Qed.

Lemma byteLength_pad32 (bs : list byte) :
  byteLength (pad32 bs) = (byteLength bs + 31) / 32 * 32.
Proof.
  unfold pad32. rewrite byteLength_app. unfold byteLength at 2.
  rewrite repeat_length, Z2Nat.id.
  - apply pad_length, byteLength_nonneg.
  - apply Z.mod_pos_bound. lia.
Qed.

Lemma byteLength_pad32_ge (bs : list byte) : byteLength bs <= byteLength (pad32 bs).
Proof.
  unfold pad32. rewrite byteLength_app.
  pose proof (byteLength_nonneg (repeat x00 (Z.to_nat ((- byteLength bs) mod 32)))). lia.
Qed.

Lemma firstn_pad32 (bs : list byte) :
  firstn (Z.to_nat (byteLength bs)) (pad32 bs) = bs.
Proof.
  unfold pad32, byteLength. rewrite Nat2Z.id, firstn_app, firstn_all, Nat.sub_diag.
  rewrite firstn_O. apply app_nil_r.
Qed.

(** ** Reading words *)

Ltac exn_simpl := cbn [mbind mret exn_mbind exn_ret exn_bind].

Lemma viem_setPosition (data : list byte) (q p : Z) :
  0 <= p <= byteLength data - 1 ->
  Viem.setPosition {| Viem.bytes := data; Viem.position := q |} p
  = Ok {| Viem.bytes := data; Viem.position := p |}.
Proof.
  intros Hp. unfold Viem.setPosition, Viem.assertPosition. cbn [Viem.bytes].
  replace ((p <? 0) || (p >? byteLength data - 1)) with false; [reflexivity|].
  symmetry. apply orb_false_iff.
  split; [apply Z.ltb_ge|rewrite Z.gtb_ltb; apply Z.ltb_ge]; lia.
Qed.

Lemma viem_readBytes_at (data pre w post : list byte) (pos n : Z) :
  data = pre ++ w ++ post -> pos = byteLength pre -> n = byteLength w -> 0 < n ->
  Viem.readBytes {| Viem.bytes := data; Viem.position := pos |} n 32
  = Ok (w, {| Viem.bytes := data; Viem.position := pos + 32 |}).
Proof.
  intros Hd Hpos Hn Hpos'.
  unfold Viem.readBytes, Viem.inspectBytes, Viem.assertPosition.
  cbn [Viem.bytes Viem.position].
  assert (byteLength data = pos + n + byteLength post) as Hlen
    by (subst; rewrite !byteLength_app; lia).
  pose proof (byteLength_nonneg pre). pose proof (byteLength_nonneg post).
  replace ((pos + n - 1 <? 0) || (pos + n - 1 >? byteLength data - 1)) with false.
  - exn_simpl. now rewrite (slice_at data pre w post).
  - symmetry. apply orb_false_iff.
    split; [apply Z.ltb_ge|rewrite Z.gtb_ltb; apply Z.ltb_ge]; lia.
Qed.

Lemma ethers_readValue_at (data pre w post : list byte) (off : Z) :
  data = pre ++ w ++ post -> off = byteLength pre -> byteLength w = 32 ->
  Ethers.readValue {| Ethers._data := data; Ethers._offset := off |}
  = Ok (Z_of_be w, {| Ethers._data := data; Ethers._offset := off + 32 |}).
Proof.
  intros Hd Hoff Hw.
  unfold Ethers.readValue, Ethers.readBytes, Ethers._peekBytes.
  cbn [Ethers._data Ethers._offset].
  change ((32 + 31) / 32 * 32) with 32.
  assert (byteLength data = off + 32 + byteLength post) as Hlen
    by (subst; rewrite !byteLength_app; lia).
  pose proof (byteLength_nonneg post).
  replace (off + 32 >? byteLength data) with false
    by (symmetry; rewrite Z.gtb_ltb; apply Z.ltb_ge; lia).
  exn_simpl. rewrite (slice_at data pre w post) by (auto; lia).
  rewrite Hw. rewrite firstn_all2; [reflexivity|].
  unfold byteLength in Hw. lia.
Qed.

(** ** Round trips *)

Lemma hexlify_nonempty (b : byte) (bs : list byte) :
  String.eqb (hexlify (b :: bs)) "" = false
  /\ String.eqb (hexlify (b :: bs)) "0x" = false.
Proof. split; reflexivity. Qed.

Lemma word_cons (v : Z) : exists b bs, word v = b :: bs.
Proof.
  unfold word. change (be_of_Z 32 v) with (be_of_Z 31 (v / 256) ++ [byte_of_Z v]).
  destruct (be_of_Z 31 (v / 256)) as [|b bs]; cbn [app]; eauto.
Qed.

Lemma bytesToBool_word (b : bool) :
  Viem.bytesToBool (word (if b then 1 else 0)) = Ok b.
Proof. destruct b; reflexivity. Qed.

Lemma bytes_of_string_empty (s : string) : bytes_of_string s = [] -> s = "".
Proof.
  intros H. rewrite <- (string_of_bytes_of_string s), H. reflexivity.
Qed.

Section RoundTrip.

Variables (isPositive : bool) (articlePage : string) (submitter : list byte).
Hypothesis Hplain : plain_text articlePage = true.
Hypothesis Hsize : byteLength (bytes_of_string articlePage) < 2 ^ 53.
Hypothesis Hsubmitter : length submitter = 20%nat.

Let text := bytes_of_string articlePage.
Let len := byteLength text.
Let W0 := word (if isPositive then 1 else 0).
Let W1 := word 96.
Let W2 := word (Z_of_be submitter).
Let WL := word len.
Let padding := repeat x00 (Z.to_nat ((- len) mod 32)).

Local Lemma HW0 : byteLength W0 = 32. Proof. apply byteLength_word. Qed.
Local Lemma HW1 : byteLength W1 = 32. Proof. apply byteLength_word. Qed.
Local Lemma HW2 : byteLength W2 = 32. Proof. apply byteLength_word. Qed.
Local Lemma HWL : byteLength WL = 32. Proof. apply byteLength_word. Qed.

Lemma encode_parameters_eq :
  encode_parameters isPositive articlePage submitter
  = W0 ++ W1 ++ W2 ++ WL ++ text ++ padding.
Proof. reflexivity. Qed.

Lemma Scanner_roundtrip :
  Scanner.decodeAttestationData
    (hexlify (encode_tuple isPositive articlePage submitter))
  = Ok (Some {| Scanner.isPositive := isPositive;
                Scanner.articlePage := articlePage;
                Scanner.submitter := checksum_address submitter |}).
Proof.
  pose proof (byteLength_nonneg text) as Hlen0. fold len in Hlen0.
  pose proof (byteLength_nonneg padding) as Hpad0.
  set (data := encode_tuple isPositive articlePage submitter).
  assert (Hdata : data = word 32 ++ W0 ++ W1 ++ W2 ++ WL ++ text ++ padding)
    by reflexivity.
  assert (Hsz : byteLength data = 160 + len + byteLength padding).
  { rewrite Hdata, !byteLength_app, byteLength_word, HW0, HW1, HW2, HWL.
    fold len. lia. }
  unfold Scanner.decodeAttestationData. f_equal.
  destruct (word_cons 32) as (b0 & bs0 & Hw).
  assert (Hne : exists b bs, data = b :: bs).
  { rewrite Hdata, Hw. eauto. }
  destruct Hne as (b & bs & Hne).
  destruct (hexlify_nonempty b bs) as [E1 E2]. rewrite <- Hne in E1, E2.
  rewrite E1, E2. cbn [orb].
  unfold Viem.decodeAbiParameters.
  rewrite hexToBytes_hexlify, size_hex_hexlify. exn_simpl.
  replace (byteLength data =? 0) with false by (symmetry; apply Z.eqb_neq; lia).
  replace (byteLength data <? 32) with false by (symmetry; apply Z.ltb_ge; lia).
  rewrite viem_setPosition by lia. exn_simpl.
  unfold Viem.decodeTuple.
  rewrite (viem_readBytes_at data [] (word 32) (W0 ++ W1 ++ W2 ++ WL ++ text ++ padding))
    by (rewrite ?byteLength_word; reflexivity || lia).
  exn_simpl. unfold Viem.bytesToNumber.
  rewrite (Z_of_be_word 32) by (split; [lia|reflexivity]).
  change (0 + 32) with 32.
  cbn [Viem.decodeComponents Scanner.attestationDataSchema Viem.decodeParameter].
  (* isPositive *)
  rewrite viem_setPosition by lia. exn_simpl.
  unfold Viem.decodeBool.
  rewrite (viem_readBytes_at data (word 32) W0 (W1 ++ W2 ++ WL ++ text ++ padding))
    by (rewrite ?byteLength_word, ?HW0; reflexivity || lia).
  exn_simpl. unfold W0 at 1. rewrite bytesToBool_word. exn_simpl.
  (* articlePage *)
  rewrite viem_setPosition by lia. exn_simpl.
  unfold Viem.decodeString.
  rewrite (viem_readBytes_at data (word 32 ++ W0) W1 (W2 ++ WL ++ text ++ padding))
    by (rewrite <- ?app_assoc, ?byteLength_app, ?byteLength_word, ?HW0, ?HW1;
        reflexivity || lia).
  exn_simpl. unfold Viem.bytesToNumber, W1 at 1.
  rewrite (Z_of_be_word 96) by (split; [lia|reflexivity]).
  rewrite viem_setPosition by lia. exn_simpl.
  rewrite (viem_readBytes_at data (word 32 ++ W0 ++ W1 ++ W2) WL (text ++ padding))
    by (rewrite <- ?app_assoc, ?byteLength_app, ?byteLength_word, ?HW0, ?HW1, ?HW2, ?HWL;
        reflexivity || lia).
  exn_simpl.
  assert (HWLv : Z_of_be WL = len).
  { apply Z_of_be_word.
    split; [lia|apply Z.lt_trans with (2 ^ 53); [exact Hsize|reflexivity]]. }
  rewrite !HWLv.
  assert (Hstring :
    (if len =? 0
     then Viem.setPosition {| Viem.bytes := data; Viem.position := 32 + 96 + 32 |} (32 + 32)
          ≫= λ c4 : Viem.Cursor, Ok (Viem.v_string "", c4)
     else Viem.readBytes {| Viem.bytes := data; Viem.position := 32 + 96 + 32 |} len 32
          ≫= λ '(data0, c4),
               Viem.setPosition c4 (32 + 32)
               ≫= λ c5 : Viem.Cursor,
                    Ok (Viem.v_string (Viem.bytesToString (Viem.trim data0)), c5))
    = Ok (Viem.v_string articlePage, {| Viem.bytes := data; Viem.position := 64 |})).
  { destruct (Z.eqb_spec len 0) as [E0|E0].
    - rewrite viem_setPosition by lia. exn_simpl.
      assert (text = []) as Ht by (apply length_zero_iff_nil; unfold len, byteLength in E0; lia).
      now rewrite (bytes_of_string_empty articlePage Ht).
    - rewrite (viem_readBytes_at data (word 32 ++ W0 ++ W1 ++ W2 ++ WL) text padding)
        by (rewrite <- ?app_assoc, ?byteLength_app, ?byteLength_word, ?HW0, ?HW1, ?HW2, ?HWL;
            reflexivity || lia).
      exn_simpl. cbn [Viem.bytes Viem.position].
      rewrite viem_setPosition by lia. exn_simpl.
      unfold text. now rewrite bytesToString_plain. }
  rewrite Hstring. exn_simpl.
  (* submitter *)
  rewrite viem_setPosition by lia. exn_simpl.
  unfold Viem.decodeAddress.
  rewrite (viem_readBytes_at data (word 32 ++ W0 ++ W1) W2 (WL ++ text ++ padding))
    by (rewrite <- ?app_assoc, ?byteLength_app, ?byteLength_word, ?HW0, ?HW1, ?HW2;
        reflexivity || lia).
  exn_simpl. unfold W2 at 1. rewrite word_address by exact Hsubmitter.
  rewrite skipn_app, skipn_all2, repeat_length by (rewrite repeat_length; lia).
  rewrite Nat.sub_diag, skipn_O. cbn [app]. rewrite checksumAddress_hexlify.
  rewrite viem_setPosition by lia. exn_simpl. unfold try_catch.
  reflexivity.
Qed.

Local Lemma HWLv : Z_of_be WL = len.
Proof.
  apply Z_of_be_word. pose proof (byteLength_nonneg text).
  split; [unfold len; lia|apply Z.lt_trans with (2 ^ 53); [exact Hsize|reflexivity]].
Qed.

Lemma ethers_decode_string_tail :
  Ethers.coder_decode Ethers.t_string
    {| Ethers._data := WL ++ text ++ padding; Ethers._offset := 0 |}
  = Ok (Ethers.v_string articlePage,
        {| Ethers._data := WL ++ text ++ padding;
           Ethers._offset := 0 + 32 + byteLength (text ++ padding) |}).
Proof.
  pose proof (byteLength_nonneg text) as Hlen0. fold len in Hlen0.
  cbn [Ethers.coder_decode].
  rewrite (ethers_readValue_at (WL ++ text ++ padding) [] WL (text ++ padding))
    by (auto using HWL).
  rewrite HWLv. exn_simpl.
  replace (Ethers.toNumber len) with (Ok len : exn Z).
  2:{ unfold Ethers.toNumber.
      replace (len <=? 2 ^ 53 - 1) with true; [reflexivity|].
      symmetry. apply Z.leb_le. unfold len, text. lia. }
  exn_simpl.
  unfold Ethers.readBytes, Ethers._peekBytes. cbn [Ethers._data Ethers._offset].
  assert (Hal : (len + 31) / 32 * 32 = byteLength (text ++ padding))
    by (symmetry; apply (byteLength_pad32 text)).
  rewrite Hal, (byteLength_app WL), HWL.
  replace (0 + 32 + byteLength (text ++ padding) >? 32 + byteLength (text ++ padding))
    with false by (symmetry; rewrite Z.gtb_ltb; apply Z.ltb_ge; lia).
  exn_simpl.
  rewrite (slice_at (WL ++ text ++ padding) WL (text ++ padding) [])
    by (rewrite ?app_nil_r, ?HWL; reflexivity).
  rewrite (firstn_pad32 text : firstn (Z.to_nat len) (text ++ padding) = text).
  rewrite (toUtf8String_plain articlePage Hplain : Ethers.toUtf8String text = _).
  reflexivity.
Qed.

Local Lemma HW2v : Z_of_be W2 = Z_of_be submitter.
Proof.
  pose proof (Z_of_be_range submitter) as Hrange. rewrite Hsubmitter in Hrange.
  apply Z_of_be_word.
  split; [lia|apply Z.lt_trans with (256 ^ Z.of_nat 20); [lia|reflexivity]].
Qed.

Lemma ethers_decode_address (data pre post : list byte) (off : Z) :
  data = pre ++ W2 ++ post -> off = byteLength pre ->
  Ethers.coder_decode Ethers.t_address {| Ethers._data := data; Ethers._offset := off |}
  = Ok (Ethers.v_address (checksum_address submitter),
        {| Ethers._data := data; Ethers._offset := off + 32 |}).
Proof.
  intros Hd Hoff. cbn [Ethers.coder_decode].
  rewrite (ethers_readValue_at data pre W2 post) by (auto using HW2).
  rewrite HW2v. exn_simpl.
  pose proof (Z_of_be_range submitter) as Hrange. rewrite Hsubmitter in Hrange.
  unfold Ethers.hexZeroPad20.
  replace (Z_of_be submitter <? 2 ^ 160) with true
    by (symmetry; apply Z.ltb_lt; change (2 ^ 160) with (256 ^ Z.of_nat 20); lia).
  replace (be_of_Z 20 (Z_of_be submitter)) with submitter
    by (rewrite <- Hsubmitter; symmetry; apply be_of_Z_Z_of_be).
  exn_simpl.
  rewrite getAddress_hexlify_20 by exact Hsubmitter. reflexivity.
Qed.

Local Lemma HW0v : Z_of_be W0 = if isPositive then 1 else 0.
Proof. unfold W0. destruct isPositive; reflexivity. Qed.

Local Lemma HW1v : Z_of_be W1 = 96.
Proof. reflexivity. Qed.

Lemma ethers_decode_bool (data pre post : list byte) (off : Z) :
  data = pre ++ W0 ++ post -> off = byteLength pre ->
  Ethers.coder_decode Ethers.t_bool {| Ethers._data := data; Ethers._offset := off |}
  = Ok (Ethers.v_bool isPositive,
        {| Ethers._data := data; Ethers._offset := off + 32 |}).
Proof.
  intros Hd Hoff. cbn [Ethers.coder_decode].
  rewrite (ethers_readValue_at data pre W0 post) by (auto using HW0).
  rewrite HW0v. exn_simpl. now destruct isPositive.
Qed.

Lemma ethers_decode_parameters :
  Ethers.defaultAbiCoder_decode Part0.attestationDataTypes
    (hexlify (encode_parameters isPositive articlePage submitter))
  = Ok [Ethers.v_bool isPositive; Ethers.v_string articlePage;
        Ethers.v_address (checksum_address submitter)].
Proof.
  set (data := encode_parameters isPositive articlePage submitter).
  assert (Hdata : data = W0 ++ W1 ++ W2 ++ WL ++ text ++ padding) by reflexivity.
  clearbody data.
  unfold Ethers.defaultAbiCoder_decode. rewrite arrayify_hexlify. exn_simpl.
  unfold Ethers.unpack, Ethers.subReader. cbn [Ethers._data Ethers._offset].
  change (Z.to_nat (0 + 0)) with 0%nat. rewrite skipn_O.
  cbn [Ethers.unpack_from Part0.attestationDataTypes Ethers.dynamic].
  (* bool *)
  rewrite (ethers_decode_bool data [] (W1 ++ W2 ++ WL ++ text ++ padding)) by auto.
  exn_simpl.
  (* string *)
  rewrite (ethers_readValue_at data W0 W1 (W2 ++ WL ++ text ++ padding))
    by (rewrite ?HW0; auto using HW1).
  rewrite HW1v. exn_simpl.
  change (Ethers.toNumber 96) with (Ok 96 : exn Z). exn_simpl.
  unfold Ethers.subReader. cbn [Ethers._data Ethers._offset].
  replace (skipn (Z.to_nat (0 + 96)) data) with (WL ++ text ++ padding).
  2:{ rewrite Hdata.
      replace (W0 ++ W1 ++ W2 ++ WL ++ text ++ padding)
        with ((W0 ++ W1 ++ W2) ++ WL ++ text ++ padding) by (now rewrite <- !app_assoc).
      rewrite skipn_app, skipn_all2.
      - replace (Z.to_nat (0 + 96) - length (W0 ++ W1 ++ W2))%nat with 0%nat; [reflexivity|].
        pose proof HW0. pose proof HW1. pose proof HW2.
        rewrite !length_app. unfold byteLength in *. lia.
      - pose proof HW0. pose proof HW1. pose proof HW2.
        rewrite !length_app. unfold byteLength in *. lia. }
  rewrite ethers_decode_string_tail. exn_simpl.
  (* address *)
  rewrite (ethers_decode_address data (W0 ++ W1) (WL ++ text ++ padding))
    by (rewrite <- ?app_assoc, ?byteLength_app, ?HW0, ?HW1; auto).
  reflexivity.
Qed.

Lemma Part0_roundtrip :
  Part0.decodeAttestationData
    (hexlify (encode_parameters isPositive articlePage submitter))
  = Ok (Some {| Part0.isPositive := isPositive;
                Part0.articlePage := articlePage;
                Part0.submitter := checksum_address submitter |}).
Proof.
  unfold Part0.decodeAttestationData. rewrite ethers_decode_parameters.
  destruct (word_cons (if isPositive then 1 else 0)) as (b0 & bs0 & Hw).
  destruct (hexlify_nonempty b0 (bs0 ++ W1 ++ W2 ++ WL ++ text ++ padding)) as [E1 E2].
  replace (hexlify (encode_parameters isPositive articlePage submitter))
    with (hexlify (b0 :: bs0 ++ W1 ++ W2 ++ WL ++ text ++ padding)).
  - rewrite E1, E2. reflexivity.
  - unfold encode_parameters. fold text len W1 W2 WL. now rewrite Hw.
Qed.

End RoundTrip.

(** ** Malformed payloads are rejected by the ABI decoders *)

Lemma byteLength_slice (d : list byte) (start len : Z) :
  0 <= start -> 0 <= len -> start + len <= byteLength d ->
  byteLength (slice d start len) = len.
Proof.
  intros H1 H2 H3. unfold slice, byteLength in *.
  rewrite length_firstn, length_skipn. lia.
Qed.

Lemma ethers_readValue_throw (r : Ethers.Reader) :
  byteLength (Ethers._data r) < Ethers._offset r + 32 ->
  Ethers.readValue r = Throw "data out-of-bounds".
Proof.
  intros H. unfold Ethers.readValue, Ethers.readBytes, Ethers._peekBytes.
  change ((32 + 31) / 32 * 32) with 32.
  replace (Ethers._offset r + 32 >? byteLength (Ethers._data r)) with true;
    [reflexivity|].
  symmetry. rewrite Z.gtb_ltb. apply Z.ltb_lt. lia.
Qed.

Lemma ethers_readValue_ok (r : Ethers.Reader) :
  0 <= Ethers._offset r -> Ethers._offset r + 32 <= byteLength (Ethers._data r) ->
  Ethers.readValue r
  = Ok (Z_of_be (slice (Ethers._data r) (Ethers._offset r) 32),
        {| Ethers._data := Ethers._data r; Ethers._offset := Ethers._offset r + 32 |}).
Proof.
  intros H0 H. unfold Ethers.readValue, Ethers.readBytes, Ethers._peekBytes.
  change ((32 + 31) / 32 * 32) with 32.
  replace (Ethers._offset r + 32 >? byteLength (Ethers._data r)) with false
    by (symmetry; rewrite Z.gtb_ltb; apply Z.ltb_ge; lia).
  exn_simpl. rewrite byteLength_slice by lia.
  unfold slice. now rewrite firstn_firstn, Nat.min_id.
Qed.

Lemma aligned_ge (n : Z) : n <= (n + 31) / 32 * 32.
Proof.
  pose proof (Z.div_mod (n + 31) 32 ltac:(lia)).
  pose proof (Z.mod_pos_bound (n + 31) 32 ltac:(lia)). lia.
Qed.

Lemma ethers_readBytes_throw (r : Ethers.Reader) (n : Z) :
  byteLength (Ethers._data r) < Ethers._offset r + n ->
  Ethers.readBytes r n = Throw "data out-of-bounds".
Proof.
  intros H. unfold Ethers.readBytes, Ethers._peekBytes.
  pose proof (aligned_ge n).
  replace (Ethers._offset r + (n + 31) / 32 * 32 >? byteLength (Ethers._data r))
    with true; [reflexivity|].
  symmetry. rewrite Z.gtb_ltb. apply Z.ltb_lt. lia.
Qed.

Lemma is_throw_bind {A B} (m : exn A) (k : A -> exn B) :
  is_throw m = true -> is_throw (m ≫= k) = true.
Proof. destruct m; [discriminate|reflexivity]. Qed.

Ltac bind_head m :=
  lazymatch m with
  | mbind _ ?m' => bind_head m'
  | exn_bind ?m' _ => bind_head m'
  | _ => m
  end.

(** one step of a computation that is to end in a throw: look at the
    call that runs next *)
Ltac throw_step :=
  lazymatch goal with
  | |- is_throw ?m = true =>
      let h := bind_head m in
      let E := fresh "E" in
      lazymatch h with
      | (if ?c then _ else _) => destruct c eqn:E
      | _ =>
          destruct h eqn:E; exn_simpl; [|reflexivity];
          repeat match goal with p : (_ * _)%type |- _ => destruct p end
      end
  end.

Lemma byteLength_skipn (d : list byte) (n : Z) :
  0 <= n <= byteLength d -> byteLength (skipn (Z.to_nat n) d) = byteLength d - n.
Proof. intros H. unfold byteLength in *. rewrite length_skipn. lia. Qed.

Lemma slice_skipn (d : list byte) (off len : Z) :
  slice (skipn (Z.to_nat off) d) 0 len = slice d off len.
Proof. unfold slice. change (Z.to_nat 0) with 0%nat. now rewrite skipn_O. Qed.

Lemma Part0_rejects_short_head (d : list byte) :
  short_head_parameters d = true ->
  is_throw (Ethers.defaultAbiCoder_decode Part0.attestationDataTypes (hexlify d)) = true.
Proof.
  unfold short_head_parameters. intros H%Z.ltb_lt.
  unfold Ethers.defaultAbiCoder_decode. rewrite arrayify_hexlify. exn_simpl.
  unfold Ethers.unpack, Ethers.subReader. cbn [Ethers._data Ethers._offset].
  change (Z.to_nat (0 + 0)) with 0%nat. rewrite skipn_O.
  cbn [Ethers.unpack_from Part0.attestationDataTypes Ethers.dynamic Ethers.coder_decode].
  destruct (Z_lt_le_dec (byteLength d) 32) as [H1|H1].
  { rewrite ethers_readValue_throw by (cbn; lia). reflexivity. }
  rewrite ethers_readValue_ok by (cbn; lia). exn_simpl. cbn [Ethers._data Ethers._offset].
  destruct (Z_lt_le_dec (byteLength d) 64) as [H2|H2].
  { rewrite ethers_readValue_throw by (cbn; lia). reflexivity. }
  rewrite ethers_readValue_ok by (cbn; lia). exn_simpl. cbn [Ethers._data Ethers._offset].
  do 5 throw_step.
  rewrite ethers_readValue_throw by (cbn; lia). reflexivity.
Qed.

Lemma ethers_toNumber_inv (v n : Z) : Ethers.toNumber v = Ok n -> n = v.
Proof. unfold Ethers.toNumber. destruct (v <=? 2 ^ 53 - 1); congruence. Qed.

Lemma Part0_rejects_truncated_tail (d : list byte) :
  truncated_tail_parameters d = true ->
  is_throw (Ethers.defaultAbiCoder_decode Part0.attestationDataTypes (hexlify d)) = true.
Proof.
  unfold truncated_tail_parameters.
  intros [[H1%Z.leb_le H2%Z.leb_le]%andb_true_iff H3%Z.ltb_lt]%andb_true_iff.
  pose proof (Z_of_be_range (slice d 32 32)) as [Hoff _].
  unfold Ethers.defaultAbiCoder_decode. rewrite arrayify_hexlify. exn_simpl.
  unfold Ethers.unpack, Ethers.subReader. cbn [Ethers._data Ethers._offset].
  change (Z.to_nat (0 + 0)) with 0%nat. rewrite skipn_O.
  cbn [Ethers.unpack_from Part0.attestationDataTypes Ethers.dynamic Ethers.coder_decode].
  rewrite ethers_readValue_ok by (cbn; lia). exn_simpl. cbn [Ethers._data Ethers._offset].
  rewrite ethers_readValue_ok by (cbn; lia). exn_simpl. cbn [Ethers._data Ethers._offset].
  change (0 + 32) with 32.
  throw_step. apply ethers_toNumber_inv in E. subst a.
  unfold Ethers.subReader. cbn [Ethers._data Ethers._offset]. rewrite Z.add_0_l.
  rewrite ethers_readValue_ok
    by (cbn [Ethers._data Ethers._offset]; rewrite ?byteLength_skipn; lia).
  cbn [Ethers._data Ethers._offset]. rewrite slice_skipn. exn_simpl.
  throw_step. apply ethers_toNumber_inv in E. subst a.
  rewrite ethers_readBytes_throw; [reflexivity|].
  cbn [Ethers._data Ethers._offset]. rewrite byteLength_skipn by lia. lia.
Qed.

(** *** The tuple layout, decoded by viem *)

Lemma viem_readBytes_throw (c : Viem.Cursor) (n sz : Z) :
  byteLength (Viem.bytes c) < Viem.position c + n ->
  Viem.readBytes c n sz = Throw "PositionOutOfBoundsError".
Proof.
  intros H. unfold Viem.readBytes, Viem.inspectBytes, Viem.assertPosition.
  replace ((Viem.position c + n - 1 <? 0)
           || (Viem.position c + n - 1 >? byteLength (Viem.bytes c) - 1)) with true;
    [reflexivity|].
  symmetry. apply orb_true_iff. right. rewrite Z.gtb_ltb. apply Z.ltb_lt. lia.
Qed.

Lemma viem_readBytes_inv (c c' : Viem.Cursor) (n sz : Z) (v : list byte) :
  Viem.readBytes c n sz = Ok (v, c') ->
  v = slice (Viem.bytes c) (Viem.position c) n
  /\ c' = {| Viem.bytes := Viem.bytes c; Viem.position := Viem.position c + sz |}
  /\ 0 <= Viem.position c + n - 1 <= byteLength (Viem.bytes c) - 1.
Proof.
  unfold Viem.readBytes, Viem.inspectBytes, Viem.assertPosition.
  destruct (Z.ltb_spec (Viem.position c + n - 1) 0); [discriminate|].
  destruct (Z.gtb_spec (Viem.position c + n - 1) (byteLength (Viem.bytes c) - 1));
    [discriminate|].
  cbn. intros [= <- <-]. repeat split; lia.
Qed.

Lemma viem_setPosition_inv (c c' : Viem.Cursor) (p : Z) :
  Viem.setPosition c p = Ok c' ->
  c' = {| Viem.bytes := Viem.bytes c; Viem.position := p |}
  /\ 0 <= p <= byteLength (Viem.bytes c) - 1.
Proof.
  unfold Viem.setPosition, Viem.assertPosition.
  destruct (Z.ltb_spec p 0); [discriminate|].
  destruct (Z.gtb_spec p (byteLength (Viem.bytes c) - 1)); [discriminate|].
  cbn. intros [= <-]. split; [reflexivity|lia].
Qed.

Ltac viem_inv :=
  repeat match goal with
  | E : Viem.setPosition _ _ = Ok _ |- _ =>
      apply viem_setPosition_inv in E as [-> ?]; cbn [Viem.bytes Viem.position] in *
  | E : Viem.readBytes _ _ _ = Ok _ |- _ =>
      apply viem_readBytes_inv in E as (-> & -> & ?); cbn [Viem.bytes Viem.position] in *
  end.

Lemma Scanner_rejects_short_head (d : list byte) :
  short_head_tuple d = true ->
  is_throw (Viem.decodeAbiParameters Scanner.attestationDataSchema (hexlify d)) = true.
Proof.
  unfold short_head_tuple. intros H.
  unfold Viem.decodeAbiParameters.
  rewrite hexToBytes_hexlify, size_hex_hexlify. exn_simpl.
  destruct (byteLength d =? 0); [reflexivity|].
  destruct (Z.ltb_spec (byteLength d) 32) as [H1|H1]; [reflexivity|].
  cbn [orb] in H. apply Z.ltb_lt in H.
  unfold Viem.decodeTuple.
  cbn [Viem.decodeComponents Scanner.attestationDataSchema Viem.decodeParameter].
  unfold Viem.decodeBool, Viem.decodeString, Viem.decodeAddress, Viem.bytesToNumber.
  rewrite ?Z.add_0_l, ?Z.add_0_r. change (32 + 32) with 64.
  repeat (throw_step; viem_inv; try lia).
Qed.

Lemma Scanner_rejects_truncated_tail (d : list byte) :
  truncated_tail_tuple d = true ->
  is_throw (Viem.decodeAbiParameters Scanner.attestationDataSchema (hexlify d)) = true.
Proof.
  unfold truncated_tail_tuple.
  intros [[H1%Z.leb_le H2%Z.leb_le]%andb_true_iff H3%Z.ltb_lt]%andb_true_iff.
  unfold Viem.decodeAbiParameters.
  rewrite hexToBytes_hexlify, size_hex_hexlify. exn_simpl.
  destruct (byteLength d =? 0); [reflexivity|].
  destruct (Z.ltb_spec (byteLength d) 32) as [H0|H0]; [reflexivity|].
  unfold Viem.decodeTuple.
  cbn [Viem.decodeComponents Scanner.attestationDataSchema Viem.decodeParameter].
  unfold Viem.decodeBool, Viem.decodeString, Viem.decodeAddress, Viem.bytesToNumber.
  rewrite ?Z.add_0_l, ?Z.add_0_r. change (32 + 32) with 64.
  repeat (throw_step; viem_inv; rewrite ?Z.add_0_l, ?Z.add_0_r in *;
          try match goal with E : (_ =? 0) = true |- _ => apply Z.eqb_eq in E end;
          try lia).
Qed.

(** ** Rows of the tabular artifact *)

Lemma string_forallb_app (p : ascii -> bool) (a b : string) :
  string_forallb p (a +:+ b) = string_forallb p a && string_forallb p b.
Proof.
  induction a as [|c a IH]; [reflexivity|].
  rewrite app_cons. cbn [string_forallb]. now rewrite IH, andb_assoc.
Qed.

Lemma rows_line (line rest : string) :
  no_line_feed line = true ->
  rows (line +:+ str newline +:+ rest) = line :: rows rest.
Proof.
  unfold no_line_feed. induction line as [|c line IH]; intros H.
  - reflexivity.
  - cbn [string_forallb] in H. apply andb_true_iff in H as [Hc H].
    rewrite app_cons. cbn [rows].
    destruct (Ascii.eqb c newline); [discriminate|].
    now rewrite IH.
Qed.

(** ** Numbers and booleans as text *)

Lemma string_forallb_uint (p : ascii -> bool) (d : Decimal.uint) :
  (forall c, is_digit c = true -> p c = true) ->
  string_forallb p (DecimalString.NilEmpty.string_of_uint d) = true.
Proof.
  intros Hp. induction d; cbn [DecimalString.NilEmpty.string_of_uint string_forallb];
    [reflexivity|..]; rewrite IHd, andb_true_r; now apply Hp.
Qed.

Lemma string_forallb_number (p : ascii -> bool) (n : Z) :
  (forall c, is_digit c = true -> p c = true) -> p "-"%char = true ->
  string_forallb p (String_number n) = true.
Proof.
  intros Hp Hm. unfold String_number, DecimalString.NilZero.string_of_int.
  assert (Hu : forall d, string_forallb p (DecimalString.NilZero.string_of_uint d) = true).
  { intros d. unfold DecimalString.NilZero.string_of_uint.
    destruct d; try apply string_forallb_uint; auto.
    cbn. rewrite Hp; reflexivity. }
  destruct (Z.to_int n); cbn [string_forallb]; rewrite ?Hm, Hu; reflexivity.
Qed.

Lemma digit_not_newline (c : ascii) :
  is_digit c = true -> negb (Ascii.eqb c newline) = true.
Proof.
  destruct c as [[] [] [] [] [] [] [] []]; try discriminate; reflexivity.
Qed.

Lemma no_line_feed_number (n : Z) : no_line_feed (String_number n) = true.
Proof. apply string_forallb_number; [apply digit_not_newline|reflexivity]. Qed.

Lemma no_line_feed_bool (b : bool) : no_line_feed (String_bool b) = true.
Proof. now destruct b. Qed.

Lemma no_line_feed_app (a b : string) :
  no_line_feed (a +:+ b) = no_line_feed a && no_line_feed b.
Proof. apply string_forallb_app. Qed.

(** ** Entries of the structured artifact *)

Lemma scan_app (st : Scan) (a b : string) : scan st (a +:+ b) = scan (scan st a) b.
Proof.
  revert st. induction a as [|c a IH]; intros st; [reflexivity|].
  rewrite app_cons. cbn [scan]. apply IH.
Qed.

Lemma scan_plain (d n : nat) (s : string) :
  string_forallb (fun c => negb (structural c)) s = true ->
  scan (outside d n) s = outside d n.
Proof.
  induction s as [|c s IH]; [reflexivity|]. cbn [string_forallb scan].
  intros [Hc Hs]%andb_true_iff. rewrite <- IH at 2 by exact Hs. f_equal.
  unfold structural in Hc. apply negb_true_iff in Hc.
  apply orb_false_iff in Hc as [[H1 H2]%orb_false_iff H3].
  unfold scan_char, outside. cbn [in_string]. now rewrite H1, H2, H3.
Qed.

Lemma scan_escape_char (d n : nat) (c : ascii) :
  scan (inside d n) (JSON.escape_char c) = inside d n.
Proof. destruct c as [[] [] [] [] [] [] [] []]; reflexivity. Qed.

Lemma scan_escape (d n : nat) (s : string) :
  scan (inside d n) (JSON.escape s) = inside d n.
Proof.
  induction s as [|c s IH]; [reflexivity|]. cbn [JSON.escape].
  now rewrite scan_app, scan_escape_char.
Qed.

Lemma scan_quote_string (d n : nat) (s : string) :
  scan (outside d n) (JSON.quote_string s) = outside d n.
Proof.
  unfold JSON.quote_string. rewrite !scan_app.
  change (scan (outside d n) (str quote)) with (inside d n).
  now rewrite scan_escape.
Qed.

Lemma digit_not_structural (c : ascii) :
  is_digit c = true -> negb (structural c) = true.
Proof.
  destruct c as [[] [] [] [] [] [] [] []]; try discriminate; reflexivity.
Qed.

Lemma scan_value (d n : nat) (v : JSON.value) :
  scan (outside d n) (JSON.stringify_value v) = outside d n.
Proof.
  destruct v as [s|z|b]; cbn [JSON.stringify_value].
  - apply scan_quote_string.
  - apply scan_plain, string_forallb_number; [apply digit_not_structural|reflexivity].
  - now destruct b.
Qed.

Lemma scan_member (d n : nat) (kv : string * JSON.value) :
  scan (outside d n) (JSON.member kv) = outside d n.
Proof.
  unfold JSON.member. rewrite !scan_app.
  change (scan (outside d n) "  ") with (outside d n).
  rewrite scan_quote_string.
  change (scan (outside d n) ": ") with (outside d n).
  apply scan_value.
Qed.

Lemma scan_members (d n : nat) (kvs : list (string * JSON.value)) :
  scan (outside d n) (JSON.members kvs) = outside d n.
Proof.
  induction kvs as [|kv kvs IH]; [reflexivity|].
  destruct kvs as [|kv' kvs].
  - cbn [JSON.members]. rewrite scan_app, scan_member. reflexivity.
  - change (JSON.members (kv :: kv' :: kvs))
      with (JSON.member kv +:+ "," +:+ str newline +:+ JSON.members (kv' :: kvs)).
    rewrite !scan_app, scan_member.
    change (scan (outside d n) ",") with (outside d n).
    change (scan (outside d n) (str newline)) with (outside d n).
    exact IH.
Qed.

Lemma scan_stringify (n : nat) (kvs : list (string * JSON.value)) :
  kvs <> [] ->
  scan (outside 0 n) (JSON.stringify kvs +:+ str newline) = outside 0 (S n).
Proof.
  intros Hne. destruct kvs as [|kv kvs]; [congruence|].
  unfold JSON.stringify. rewrite !scan_app.
  change (scan (outside 0 n) "{") with (outside 1 (S n)).
  change (scan (outside 1 (S n)) (str newline)) with (outside 1 (S n)).
  rewrite scan_members. reflexivity.
Qed.

(** ** The computations of the program *)

Ltac M_unfold :=
  unfold mbind, mret, M_mbind, M_mret, M_bind, M_ret, M_try, lift, emit.

Lemma string_app_empty_r (s : string) : s +:+ "" = s.
Proof. induction s as [|c s IH]; [reflexivity|]. rewrite app_cons. now rewrite IH. Qed.

Lemma append_only_refl (w : World) : append_only w w.
Proof.
  split.
  - exists []. now rewrite app_nil_r.
  - intros path. exists "". now rewrite string_app_empty_r.
Qed.

Lemma append_only_trans (w1 w2 w3 : World) :
  append_only w1 w2 -> append_only w2 w3 -> append_only w1 w3.
Proof.
  intros [(e1 & T1 & F1) C1] [(e2 & T2 & F2) C2]. split.
  - exists (e1 ++ e2). rewrite T2, T1, app_assoc. split; [reflexivity|].
    rewrite forallb_app. now rewrite F1, F2.
  - intros path. destruct (C1 path) as [s1 E1]. destruct (C2 path) as [s2 E2].
    exists (s1 +:+ s2). now rewrite E2, E1, string_app_assoc.
Qed.

Lemma append_only_ret {A} (a : A) : append_only_M (mret a : M A).
Proof. intros w. apply append_only_refl. Qed.

Lemma append_only_lift {A} (m : exn A) : append_only_M (lift m).
Proof. intros w. apply append_only_refl. Qed.

Lemma append_only_emit (e : Event) : is_write e = false -> append_only_M (emit e).
Proof.
  intros He w. split; cbn.
  - exists [e]. cbn. now rewrite He.
  - intros path. exists "". now rewrite string_app_empty_r.
Qed.

Lemma append_only_new_Date (env : Env) : append_only_M (new_Date env).
Proof.
  intros w. split; cbn.
  - exists []. now rewrite app_nil_r.
  - intros path. exists "". now rewrite string_app_empty_r.
Qed.

Lemma file_content_append_eq (w : World) (path data : string) :
  file_content (appendFileSync path data w).1 path = file_content w path +:+ data.
Proof. unfold file_content at 1. cbn. now rewrite lookup_insert_eq. Qed.

Lemma file_content_append_ne (w : World) (path path' data : string) :
  path <> path' ->
  file_content (appendFileSync path data w).1 path' = file_content w path'.
Proof. intros H. unfold file_content. cbn. now rewrite lookup_insert_ne. Qed.

Lemma append_only_appendFileSync (path data : string) :
  append_only_M (appendFileSync path data).
Proof.
  intros w. split.
  - exists [ev_appendFileSync path data]. now cbn.
  - intros path'. destruct (decide (path = path')) as [<-|Hne].
    + exists data. apply file_content_append_eq.
    + exists "". rewrite file_content_append_ne by exact Hne.
      now rewrite string_app_empty_r.
Qed.

Lemma append_only_bind {A B} (m : M A) (k : A -> M B) :
  append_only_M m -> (forall a, append_only_M (k a)) -> append_only_M (m ≫= k).
Proof.
  intros Hm Hk w. M_unfold. specialize (Hm w).
  destruct (m w) as [w' [a|e]]; cbn in *; [|exact Hm].
  eapply append_only_trans; [exact Hm|apply Hk].
Qed.

Lemma append_only_try {A} (body : M A) (handler : string -> M A) :
  append_only_M body -> (forall e, append_only_M (handler e)) ->
  append_only_M (M_try body handler).
Proof.
  intros Hm Hk w. unfold M_try. specialize (Hm w).
  destruct (body w) as [w' [a|e]]; cbn in *; [exact Hm|].
  eapply append_only_trans; [exact Hm|apply Hk].
Qed.

Ltac append_only_tac :=
  repeat first
    [ apply append_only_ret
    | apply append_only_lift
    | apply append_only_new_Date
    | apply append_only_appendFileSync
    | apply append_only_emit; reflexivity
    | apply append_only_bind; [|intros ?]
    | apply append_only_try; [|intros ?]
    | match goal with
      | |- append_only_M (match ?x with _ => _ end) => destruct x
      end ].

Lemma Scanner_decodeAttestation_append_only env h bn :
  append_only_M (Scanner.decodeAttestation env h bn).
Proof.
  unfold Scanner.decodeAttestation, Scanner.assemble. append_only_tac.
Qed.

Lemma Part0_decodeAttestation_append_only env h bn :
  append_only_M (Part0.decodeAttestation env h bn).
Proof.
  unfold Part0.decodeAttestation, Part0.assemble. append_only_tac.
Qed.

Lemma Scanner_process_append_only env items :
  append_only_M (Scanner.process env items).
Proof.
  induction items as [|tx rest IH]; cbn [Scanner.process]; [apply append_only_ret|].
  apply append_only_bind; [|intros _; exact IH].
  destruct (String.eqb _ _);
    [apply Scanner_decodeAttestation_append_only|apply append_only_ret].
Qed.

Lemma Part0_process_append_only env items :
  append_only_M (Part0.process env items).
Proof.
  induction items as [|tx rest IH]; cbn [Part0.process]; [apply append_only_ret|].
  apply append_only_bind; [|intros _; exact IH].
  destruct (String.eqb _ _);
    [apply Part0_decodeAttestation_append_only|apply append_only_ret].
Qed.

Lemma Scanner_fetch_append_only env :
  append_only_M (Scanner.fetchTransactionsFromExplorer env).
Proof.
  unfold Scanner.fetchTransactionsFromExplorer.
  apply append_only_try; [|intros ?; apply append_only_ret].
  apply append_only_bind; [apply append_only_emit; reflexivity|intros _].
  apply append_only_bind; [apply append_only_lift|intros response].
  destruct (negb _); [apply append_only_ret|apply Scanner_process_append_only].
Qed.

Lemma Part0_fetch_append_only env :
  append_only_M (Part0.fetchTransactionsFromExplorer env).
Proof.
  unfold Part0.fetchTransactionsFromExplorer.
  apply append_only_try; [|intros ?; apply append_only_ret].
  apply append_only_bind; [apply append_only_emit; reflexivity|intros _].
  apply append_only_bind; [apply append_only_lift|intros response].
  destruct (negb _); [apply append_only_ret|apply Part0_process_append_only].
Qed.

(** ** Nothing escapes the [catch] blocks *)

Lemma M_try_returns (body : M unit) (w : World) :
  exists w', M_try body (fun _ => mret tt) w = (w', Ok tt).
Proof.
  unfold M_try. destruct (body w) as [w' [[]|e]]; eauto.
Qed.

Lemma Scanner_decodeAttestation_returns env h bn w :
  exists w', Scanner.decodeAttestation env h bn w = (w', Ok tt).
Proof. apply M_try_returns. Qed.

Lemma Part0_decodeAttestation_returns env h bn w :
  exists w', Part0.decodeAttestation env h bn w = (w', Ok tt).
Proof. apply M_try_returns. Qed.

Lemma M_bind_returns {A B} (m : M A) (k : A -> M B) (w w' : World) (a : A) :
  m w = (w', Ok a) -> (m ≫= k) w = k a w'.
Proof. intros E. M_unfold. now rewrite E. Qed.

Lemma Scanner_process_cons env tx rest w :
  exists w',
    (if String.eqb (toLowerCase (item_to tx)) (Scanner.CONTRACT_ADDRESS env)
     then Scanner.decodeAttestation env (item_hash tx) (item_blockNumber tx)
     else mret tt) w = (w', Ok tt)
    /\ Scanner.process env (tx :: rest) w = Scanner.process env rest w'.
Proof.
  cbn [Scanner.process].
  destruct (String.eqb _ _).
  - destruct (Scanner_decodeAttestation_returns env (item_hash tx) (item_blockNumber tx) w)
      as [w' E].
    exists w'. split; [exact E|].
    exact (M_bind_returns _ (fun _ => Scanner.process env rest) w w' tt E).
  - exists w. split; [reflexivity|]. reflexivity.
Qed.

Lemma Part0_process_cons env tx rest w :
  exists w',
    (if String.eqb (toLowerCase (item_to tx)) (Part0.CONTRACT_ADDRESS env)
     then Part0.decodeAttestation env (item_hash tx) (item_blockNumber tx)
     else mret tt) w = (w', Ok tt)
    /\ Part0.process env (tx :: rest) w = Part0.process env rest w'.
Proof.
  cbn [Part0.process].
  destruct (String.eqb _ _).
  - destruct (Part0_decodeAttestation_returns env (item_hash tx) (item_blockNumber tx) w)
      as [w' E].
    exists w'. split; [exact E|].
    exact (M_bind_returns _ (fun _ => Part0.process env rest) w w' tt E).
  - exists w. split; [reflexivity|]. reflexivity.
Qed.

Lemma Scanner_process_returns env items w :
  exists w', Scanner.process env items w = (w', Ok tt).
Proof.
  revert w. induction items as [|tx rest IH]; intros w; [now exists w|].
  destruct (Scanner_process_cons env tx rest w) as (w1 & _ & ->). apply IH.
Qed.

Lemma Part0_process_returns env items w :
  exists w', Part0.process env items w = (w', Ok tt).
Proof.
  revert w. induction items as [|tx rest IH]; intros w; [now exists w|].
  destruct (Part0_process_cons env tx rest w) as (w1 & _ & ->). apply IH.
Qed.

(** ** The payload decoders of the program *)

Lemma Scanner_decode_mismatch (d : list byte) :
  schema_mismatch_tuple d = true ->
  Scanner.decodeAttestationData (hexlify d) = Ok None.
Proof.
  unfold schema_mismatch_tuple, Scanner.decodeAttestationData. intros H.
  destruct (_ || _); [reflexivity|].
  destruct (Viem.decodeAbiParameters _ _); [discriminate|reflexivity].
Qed.

Lemma Part0_decode_mismatch (d : list byte) :
  schema_mismatch_parameters d = true ->
  Part0.decodeAttestationData (hexlify d) = Ok None.
Proof.
  unfold schema_mismatch_parameters, Part0.decodeAttestationData. intros H.
  destruct (_ || _); [reflexivity|].
  destruct (Ethers.defaultAbiCoder_decode _ _); [discriminate|reflexivity].
Qed.

Lemma Scanner_decode_never_throws (s : string) :
  is_throw (Scanner.decodeAttestationData s) = false.
Proof. reflexivity. Qed.

Lemma Part0_decode_never_throws (s : string) :
  is_throw (Part0.decodeAttestationData s) = false.
Proof. unfold Part0.decodeAttestationData. now destruct (_ || _). Qed.

(** ** Records that are not assembled *)

Lemma Scanner_assemble_none env h bn p w :
  Scanner.decodeAttestationData (payload_attestationData p) = Ok None ->
  Scanner.assemble env h bn p w = (w, Ok None).
Proof. intros H. unfold Scanner.assemble. now rewrite H. Qed.

Lemma Part0_assemble_none env h bn p w :
  Part0.decodeAttestationData (payload_attestationData p) = Ok None ->
  Part0.assemble env h bn p w = (w, Ok None).
Proof. intros H. unfold Part0.assemble. M_unfold. now rewrite H. Qed.

Lemma eqb_false_of_ne (a b : string) : a <> b -> String.eqb a b = false.
Proof. apply String.eqb_neq. Qed.

Lemma eqb_true_of_eq (a b : string) : a = b -> String.eqb a b = true.
Proof. apply String.eqb_eq. Qed.

Lemma after_events_snoc (w : World) (e1 e2 : Event) :
  {| files := files w; trace := (trace w ++ [e1]) ++ [e2]; clock_reads := clock_reads w |}
  = after_events w [e1; e2].
Proof. unfold after_events. now rewrite <- app_assoc. Qed.

(** a transaction that carries a payload gets as far as the assembler *)
Lemma Scanner_decodeAttestation_carries env tx t p bn w :
  carries env tx t p ->
  Scanner.decodeAttestation env (item_hash tx) bn w
  = M_try (attestation ← Scanner.assemble env (item_hash tx) bn p;
           match attestation with
           | None => mret tt
           | Some attestation =>
               _ ← Scanner.saveToJSON attestation; Scanner.saveToCSV attestation
           end)
      (fun _ => mret tt)
      (after_events w [ev_getTransaction (item_hash tx); ev_parseTransaction (tx_data t)]).
Proof.
  intros (_ & Hget & (a & Hto & Ha) & Hd1 & Hd2 & decoded & Hparse & <-).
  unfold Scanner.decodeAttestation. M_unfold. cbn [trace files clock_reads].
  rewrite Hget. unfold Scanner.to_differs, Scanner.CONTRACT_ADDRESS.
  rewrite Hto, (eqb_true_of_eq _ _ Ha).
  rewrite (eqb_false_of_ne _ _ Hd1), (eqb_false_of_ne _ _ Hd2).
  cbn [negb orb trace files clock_reads]. rewrite Hparse, after_events_snoc.
  reflexivity.
Qed.

Lemma Part0_decodeAttestation_carries env tx t p bn w :
  carries env tx t p ->
  Part0.decodeAttestation env (item_hash tx) bn w
  = M_try (attestation ← Part0.assemble env (item_hash tx) bn p;
           match attestation with
           | None => mret tt
           | Some attestation =>
               _ ← Part0.saveToJSON attestation; Part0.saveToCSV attestation
           end)
      (fun _ => mret tt)
      (after_events w [ev_getTransaction (item_hash tx); ev_parseTransaction (tx_data t)]).
Proof.
  intros (_ & Hget & (a & Hto & Ha) & Hd1 & Hd2 & decoded & Hparse & <-).
  unfold Part0.decodeAttestation. M_unfold. cbn [trace files clock_reads].
  rewrite Hget. unfold Part0.to_differs, Part0.CONTRACT_ADDRESS.
  rewrite Hto, (eqb_true_of_eq _ _ Ha).
  rewrite (eqb_false_of_ne _ _ Hd1), (eqb_false_of_ne _ _ Hd2).
  cbn [negb orb trace files clock_reads]. rewrite Hparse, after_events_snoc.
  reflexivity.
Qed.

Lemma Scanner_dropped env tx t p rest w :
  carries env tx t p ->
  Scanner.decodeAttestationData (payload_attestationData p) = Ok None ->
  Scanner.process env (tx :: rest) w
  = Scanner.process env rest
      (after_events w [ev_getTransaction (item_hash tx); ev_parseTransaction (tx_data t)]).
Proof.
  intros Hc Hd. cbn [Scanner.process].
  unfold Scanner.CONTRACT_ADDRESS at 1.
  rewrite (eqb_true_of_eq _ _ (proj1 Hc)).
  refine (M_bind_returns _ (fun _ => Scanner.process env rest) _ _ tt _).
  rewrite (Scanner_decodeAttestation_carries env tx t p) by exact Hc.
  unfold M_try. M_unfold. now rewrite Scanner_assemble_none.
Qed.

Lemma Part0_dropped env tx t p rest w :
  carries env tx t p ->
  Part0.decodeAttestationData (payload_attestationData p) = Ok None ->
  Part0.process env (tx :: rest) w
  = Part0.process env rest
      (after_events w [ev_getTransaction (item_hash tx); ev_parseTransaction (tx_data t)]).
Proof.
  intros Hc Hd. cbn [Part0.process].
  unfold Part0.CONTRACT_ADDRESS at 1.
  rewrite (eqb_true_of_eq _ _ (proj1 Hc)).
  refine (M_bind_returns _ (fun _ => Part0.process env rest) _ _ tt _).
  rewrite (Part0_decodeAttestation_carries env tx t p) by exact Hc.
  unfold M_try. M_unfold. now rewrite Part0_assemble_none.
Qed.

(** ** Transactions sent elsewhere *)

Lemma Scanner_process_skip env tx rest w :
  toLowerCase (item_to tx) <> toLowerCase (env_CONTRACT_ADDRESS env) ->
  Scanner.process env (tx :: rest) w = Scanner.process env rest w.
Proof.
  intros H. cbn [Scanner.process]. unfold Scanner.CONTRACT_ADDRESS at 1.
  now rewrite (eqb_false_of_ne _ _ H).
Qed.

Lemma Part0_process_skip env tx rest w :
  toLowerCase (item_to tx) <> toLowerCase (env_CONTRACT_ADDRESS env) ->
  Part0.process env (tx :: rest) w = Part0.process env rest w.
Proof.
  intros H. cbn [Part0.process]. unfold Part0.CONTRACT_ADDRESS at 1.
  now rewrite (eqb_false_of_ne _ _ H).
Qed.

Lemma to_differs_of_ne (contract : string) (to : option string) :
  (forall a, to = Some a -> toLowerCase a <> contract) ->
  match to with
  | Some a => negb (String.eqb (toLowerCase a) contract)
  | None => true
  end = true.
Proof.
  intros H. destruct to as [a|]; [|reflexivity].
  now rewrite (eqb_false_of_ne _ _ (H a eq_refl)).
Qed.

Lemma Scanner_decodeAttestation_elsewhere env h bn t w :
  provider_getTransaction env h = Ok (Some t) ->
  (forall a, tx_to t = Some a ->
             toLowerCase a <> toLowerCase (env_CONTRACT_ADDRESS env)) ->
  Scanner.decodeAttestation env h bn w = (after_events w [ev_getTransaction h], Ok tt).
Proof.
  intros Hget Hto. unfold Scanner.decodeAttestation. M_unfold.
  cbn [trace files clock_reads]. rewrite Hget.
  unfold Scanner.to_differs, Scanner.CONTRACT_ADDRESS.
  now rewrite (to_differs_of_ne _ _ Hto).
Qed.

Lemma Part0_decodeAttestation_elsewhere env h bn t w :
  provider_getTransaction env h = Ok (Some t) ->
  (forall a, tx_to t = Some a ->
             toLowerCase a <> toLowerCase (env_CONTRACT_ADDRESS env)) ->
  Part0.decodeAttestation env h bn w = (after_events w [ev_getTransaction h], Ok tt).
Proof.
  intros Hget Hto. unfold Part0.decodeAttestation. M_unfold.
  cbn [trace files clock_reads]. rewrite Hget.
  unfold Part0.to_differs, Part0.CONTRACT_ADDRESS.
  now rewrite (to_differs_of_ne _ _ Hto).
Qed.

(** ** The sink *)

Lemma files_differ_Scanner : Scanner.JSON_FILE <> Scanner.CSV_FILE.
Proof. discriminate. Qed.

Lemma files_differ_Part0 : Part0.JSON_FILE <> Part0.CSV_FILE.
Proof. discriminate. Qed.

Lemma file_content_write_eq (w : World) (path data : string) :
  file_content (writeFileSync path data w).1 path = data.
Proof. unfold file_content. cbn. now rewrite lookup_insert_eq. Qed.

Lemma file_content_write_ne (w : World) (path path' data : string) :
  path <> path' ->
  file_content (writeFileSync path data w).1 path' = file_content w path'.
Proof. intros H. unfold file_content. cbn. now rewrite lookup_insert_ne. Qed.

(** the text that a sequence of appended records adds to a file *)
Lemma appended_text {A} (path : string) (text : A -> string)
    (append_one : A -> M unit) (recs : list A) :
  (forall a w, file_content (append_one a w).1 path = file_content w path +:+ text a) ->
  (forall a w, (append_one a w).2 = Ok tt) ->
  forall (k : list A -> M unit),
  (forall w, k [] w = (w, Ok tt)) ->
  (forall a rest w, k (a :: rest) w = k rest (append_one a w).1) ->
  forall w,
    file_content (k recs w).1 path
    = file_content w path +:+ fold_right (fun a acc => text a +:+ acc) "" recs.
Proof.
  intros Hone Hok k Hnil Hcons.
  induction recs as [|a rest IH]; intros w.
  - rewrite Hnil. cbn. now rewrite string_app_empty_r.
  - rewrite Hcons, IH, Hone. cbn [fold_right]. now rewrite string_app_assoc.
Qed.

Lemma Scanner_append_all_cons a rest w :
  Scanner.append_all (a :: rest) w
  = Scanner.append_all rest
      (Scanner.saveToCSV a (Scanner.saveToJSON a w).1).1.
Proof. reflexivity. Qed.

Lemma Part0_append_all_cons a rest w :
  Part0.append_all (a :: rest) w
  = Part0.append_all rest (Part0.saveToCSV a (Part0.saveToJSON a w).1).1.
Proof. reflexivity. Qed.

Lemma rows_lines {A} (line : A -> string) (recs : list A) :
  Forall (fun a => no_line_feed (line a) = true) recs ->
  rows (fold_right (fun a acc => (line a +:+ str newline) +:+ acc) "" recs)
  = map line recs.
Proof.
  induction 1 as [|a rest Ha _ IH]; [reflexivity|].
  cbn [fold_right map]. rewrite string_app_assoc, rows_line by exact Ha.
  now rewrite IH.
Qed.

Lemma scan_objects {A} (object : A -> list (string * JSON.value)) (recs : list A) :
  (forall a, object a <> []) ->
  forall n,
    scan (outside 0 n)
      (fold_right (fun a acc => (JSON.stringify (object a) +:+ str newline) +:+ acc)
         "" recs)
    = outside 0 (n + length recs).
Proof.
  intros Hne. induction recs as [|a rest IH]; intros n.
  - cbn. now rewrite Nat.add_0_r.
  - cbn [fold_right length]. rewrite scan_app, scan_stringify by apply Hne.
    rewrite IH. f_equal. lia.
Qed.

Lemma Scanner_sink_contents (recs : list Scanner.Attestation) (w : World) :
  let w' := ((_ ← Scanner.initializeFiles; Scanner.append_all recs) w).1 in
  file_content w' Scanner.CSV_FILE
  = (Scanner.CSV_HEADER +:+ str newline)
    +:+ fold_right (fun a acc => (Scanner.csvRow a +:+ str newline) +:+ acc) "" recs
  /\ file_content w' Scanner.JSON_FILE
     = fold_right (fun a acc =>
                     (JSON.stringify (Scanner.to_object a) +:+ str newline) +:+ acc)
         "" recs.
Proof.
  cbn zeta.
  set (w0 := (Scanner.initializeFiles w).1).
  replace ((_ ← Scanner.initializeFiles; Scanner.append_all recs) w)
    with (Scanner.append_all recs w0) by reflexivity.
  pose proof files_differ_Scanner as Hne.
  split.
  - rewrite (appended_text Scanner.CSV_FILE
               (fun a => Scanner.csvRow a +:+ str newline)
               (fun a w => Scanner.saveToCSV a (Scanner.saveToJSON a w).1) recs).
    + f_equal.
      change w0 with (writeFileSync Scanner.CSV_FILE (Scanner.CSV_HEADER +:+ str newline)
                        (writeFileSync Scanner.JSON_FILE "" w).1).1.
      apply file_content_write_eq.
    + intros a w1. unfold Scanner.saveToCSV, Scanner.saveToJSON.
      rewrite file_content_append_eq, file_content_append_ne by exact Hne.
      reflexivity.
    + reflexivity.
    + reflexivity.
    + intros a rest w1. apply Scanner_append_all_cons.
  - rewrite (appended_text Scanner.JSON_FILE
               (fun a => JSON.stringify (Scanner.to_object a) +:+ str newline)
               (fun a w => Scanner.saveToCSV a (Scanner.saveToJSON a w).1) recs).
    + replace (file_content w0 Scanner.JSON_FILE) with "".
      * reflexivity.
      * change w0 with (writeFileSync Scanner.CSV_FILE (Scanner.CSV_HEADER +:+ str newline)
                          (writeFileSync Scanner.JSON_FILE "" w).1).1.
        rewrite file_content_write_ne by (intros E; apply Hne; now symmetry).
        now rewrite file_content_write_eq.
    + intros a w1. unfold Scanner.saveToCSV, Scanner.saveToJSON.
      rewrite file_content_append_ne by (intros E; apply Hne; now symmetry).
      now rewrite file_content_append_eq.
    + reflexivity.
    + reflexivity.
    + intros a rest w1. apply Scanner_append_all_cons.
Qed.

Lemma Part0_sink_contents (recs : list Part0.Attestation) (w : World) :
  let w' := ((_ ← Part0.initializeFiles; Part0.append_all recs) w).1 in
  file_content w' Part0.CSV_FILE
  = (Part0.CSV_HEADER +:+ str newline)
    +:+ fold_right (fun a acc => (Part0.csvRow a +:+ str newline) +:+ acc) "" recs
  /\ file_content w' Part0.JSON_FILE
     = fold_right (fun a acc =>
                     (JSON.stringify (Part0.to_object a) +:+ str newline) +:+ acc)
         "" recs.
Proof.
  cbn zeta.
  set (w0 := (Part0.initializeFiles w).1).
  replace ((_ ← Part0.initializeFiles; Part0.append_all recs) w)
    with (Part0.append_all recs w0) by reflexivity.
  pose proof files_differ_Part0 as Hne.
  split.
  - rewrite (appended_text Part0.CSV_FILE
               (fun a => Part0.csvRow a +:+ str newline)
               (fun a w => Part0.saveToCSV a (Part0.saveToJSON a w).1) recs).
    + f_equal.
      change w0 with (writeFileSync Part0.CSV_FILE (Part0.CSV_HEADER +:+ str newline)
                        (writeFileSync Part0.JSON_FILE "" w).1).1.
      apply file_content_write_eq.
    + intros a w1. unfold Part0.saveToCSV, Part0.saveToJSON.
      rewrite file_content_append_eq, file_content_append_ne by exact Hne.
      reflexivity.
    + reflexivity.
    + reflexivity.
    + intros a rest w1. apply Part0_append_all_cons.
  - rewrite (appended_text Part0.JSON_FILE
               (fun a => JSON.stringify (Part0.to_object a) +:+ str newline)
               (fun a w => Part0.saveToCSV a (Part0.saveToJSON a w).1) recs).
    + replace (file_content w0 Part0.JSON_FILE) with "".
      * reflexivity.
      * change w0 with (writeFileSync Part0.CSV_FILE (Part0.CSV_HEADER +:+ str newline)
                          (writeFileSync Part0.JSON_FILE "" w).1).1.
        rewrite file_content_write_ne by (intros E; apply Hne; now symmetry).
        now rewrite file_content_write_eq.
    + intros a w1. unfold Part0.saveToCSV, Part0.saveToJSON.
      rewrite file_content_append_ne by (intros E; apply Hne; now symmetry).
      now rewrite file_content_append_eq.
    + reflexivity.
    + reflexivity.
    + intros a rest w1. apply Part0_append_all_cons.
Qed.

Lemma Scanner_object_nonempty (a : Scanner.Attestation) : Scanner.to_object a <> [].
Proof. discriminate. Qed.

Lemma Part0_object_nonempty (a : Part0.Attestation) : Part0.to_object a <> [].
Proof. discriminate. Qed.

Lemma no_line_feed_header_Scanner : no_line_feed Scanner.CSV_HEADER = true.
Proof. reflexivity. Qed.

Lemma no_line_feed_header_Part0 : no_line_feed Part0.CSV_HEADER = true.
Proof. reflexivity. Qed.

Lemma Scanner_sink_rows (recs : list Scanner.Attestation) (w : World) :
  Forall (fun a => no_line_feed (Scanner.csvRow a) = true) recs ->
  rows (file_content ((_ ← Scanner.initializeFiles; Scanner.append_all recs) w).1
          Scanner.CSV_FILE)
  = Scanner.CSV_HEADER :: map Scanner.csvRow recs.
Proof.
  intros H. destruct (Scanner_sink_contents recs w) as [-> _].
  rewrite string_app_assoc, rows_line by apply no_line_feed_header_Scanner.
  now rewrite rows_lines.
Qed.

Lemma Part0_sink_rows (recs : list Part0.Attestation) (w : World) :
  Forall (fun a => no_line_feed (Part0.csvRow a) = true) recs ->
  rows (file_content ((_ ← Part0.initializeFiles; Part0.append_all recs) w).1
          Part0.CSV_FILE)
  = Part0.CSV_HEADER :: map Part0.csvRow recs.
Proof.
  intros H. destruct (Part0_sink_contents recs w) as [-> _].
  rewrite string_app_assoc, rows_line by apply no_line_feed_header_Part0.
  now rewrite rows_lines.
Qed.

Lemma Scanner_sink_entries (recs : list Scanner.Attestation) (w : World) :
  entries (file_content ((_ ← Scanner.initializeFiles; Scanner.append_all recs) w).1
             Scanner.JSON_FILE)
  = length recs.
Proof.
  destruct (Scanner_sink_contents recs w) as [_ ->]. unfold entries.
  change scan_start with (outside 0 0).
  now rewrite (scan_objects Scanner.to_object recs Scanner_object_nonempty).
Qed.

Lemma Part0_sink_entries (recs : list Part0.Attestation) (w : World) :
  entries (file_content ((_ ← Part0.initializeFiles; Part0.append_all recs) w).1
             Part0.JSON_FILE)
  = length recs.
Proof.
  destruct (Part0_sink_contents recs w) as [_ ->]. unfold entries.
  change scan_start with (outside 0 0).
  now rewrite (scan_objects Part0.to_object recs Part0_object_nonempty).
Qed.

(** ** Where the timestamp comes from *)

Lemma Scanner_assemble_timestamp env h bn p w w' a :
  Scanner.assemble env h bn p w = (w', Ok (Some a)) ->
  JSDate.toISOString (clock env (clock_reads w)) = Ok (Scanner.timestamp a).
Proof.
  unfold Scanner.assemble.
  destruct (Scanner.decodeAttestationData _) as [[d|]|]; try discriminate.
  M_unfold. unfold new_Date.
  destruct (Ethers.getAddress _) as [s|]; [|discriminate].
  destruct (JSDate.toISOString _) as [iso|]; [|discriminate].
  now intros [= <- <-].
Qed.

Lemma Part0_assemble_timestamp env h bn p w w' a :
  Part0.assemble env h bn p w = (w', Ok (Some a)) ->
  exists block,
    provider_getBlock env bn = Ok (Some block)
    /\ JSDate.toISOString (block_timestamp block * 1000) = Ok (Part0.timestamp a).
Proof.
  unfold Part0.assemble. M_unfold.
  destruct (Part0.decodeAttestationData _) as [[d|]|]; try discriminate.
  destruct (Part0.parseSubjectAsAddress _) as [s|]; [|discriminate].
  destruct (provider_getBlock env bn) as [[block|]|]; try discriminate.
  destruct (JSDate.toISOString _) as [iso|] eqn:E; [|discriminate].
  intros [= <- <-]. now exists block.
Qed.

(** * The claims *)

(** ** C1: the subject normaliser *)

(** The normaliser of [part_000] does what the claim says, for every
    byte string: 20 bytes are returned checksummed, 32 bytes give the
    checksum of the last 20, and a padded subject and the bare address
    give the same result. *)
Lemma Part0_subject_normalizer (bs : list byte) :
  (length bs = 20%nat ->
   Part0.parseSubjectAsAddress (hexlify bs) = Ok (checksum_address bs))
  /\ (length bs = 32%nat ->
      Part0.parseSubjectAsAddress (hexlify bs) = Ok (checksum_address (skipn 12 bs)))
  /\ (length bs = 20%nat ->
      Part0.parseSubjectAsAddress (hexlify (repeat x00 12 ++ bs))
      = Part0.parseSubjectAsAddress (hexlify bs)).
Proof.
  split; [apply parseSubjectAsAddress_20|].
  split; [apply parseSubjectAsAddress_32|].
  intros H. apply parseSubjectAsAddress_padded; [apply repeat_length|exact H].
Qed.

(** [attestation-scanner.js] passes the subject to [getAddress] as it
    is: a subject of 32 bytes, whatever its bytes, is not normalised but
    thrown out. *)
Lemma Scanner_subject_32_rejected (bs : list byte) :
  length bs = 32%nat -> Ethers.getAddress (hexlify bs) = Throw "invalid address".
Proof. intros H. apply getAddress_hexlify_other. lia. Qed.

(** C1.  At the subject of the spec's example,
    0xAbCdEf0123456789AbCdEf0123456789AbCdEf01 left-padded with zeros to
    32 bytes: [part_000] normalises it to the checksummed address, the
    same as for the bare 20 bytes; [attestation-scanner.js] accepts the
    bare 20 bytes but throws on the padded subject, and its assembler
    then produces no record for a transaction whose payload decodes. *)
Theorem C1_scanner_rejects_padded_subject :
  let padded := repeat x00 12 ++ sample_address in
  Part0.parseSubjectAsAddress (hexlify padded) = Ok (checksum_address sample_address)
  /\ Part0.parseSubjectAsAddress (hexlify sample_address)
     = Ok (checksum_address sample_address)
  /\ Ethers.getAddress (hexlify sample_address) = Ok (checksum_address sample_address)
  /\ Ethers.getAddress (hexlify padded) = Throw "invalid address"
  /\ forall env txHash blockNumber w,
       Scanner.assemble env txHash blockNumber
         (sample_payload (hexlify padded)
            (hexlify (encode_tuple true "page-3" address_aa))) w
       = (w, Throw "invalid address").
Proof.
  cbn zeta.
  assert (H20 : length sample_address = 20%nat) by reflexivity.
  assert (H32 : length (repeat x00 12 ++ sample_address) = 32%nat) by reflexivity.
  split; [now rewrite parseSubjectAsAddress_32|].
  split; [now apply parseSubjectAsAddress_20|].
  split; [now apply getAddress_hexlify_20|].
  split; [now apply Scanner_subject_32_rejected|].
  intros env txHash blockNumber w. unfold Scanner.assemble, sample_payload.
  cbn [payload_attestationData payload_subject payload_schemaId].
  rewrite Scanner_roundtrip by reflexivity.
  M_unfold. now rewrite Scanner_subject_32_rejected.
Qed.

(** ** C2: the two payload decoders *)

(** C2, counterexample.  On the three-parameter encoding of
    [(true, "page-3", 0xAAAA...AAAA)] the decoder of [part_000] returns
    the triple and the decoder of [attestation-scanner.js] returns
    nothing: the two are not equal as functions. *)
Lemma C2_counterexample :
  let d := encode_parameters true "page-3" address_aa in
  Part0_triple (hexlify d)
  = Ok (Some (true, "page-3", "0xaAaAaAaaAaAaAaaAaAAAAAAAAaaaAaAaAaaAaaAa"))
  /\ Scanner_triple (hexlify d) = Ok None
  /\ Scanner_triple (hexlify d) <> Part0_triple (hexlify d).
Proof.
  cbn zeta.
  assert (H1 : Part0_triple (hexlify (encode_parameters true "page-3" address_aa))
               = Ok (Some (true, "page-3", "0xaAaAaAaaAaAaAaaAaAAAAAAAAaaaAaAaAaaAaaAa")))
    by (vm_compute; reflexivity).
  assert (H2 : Scanner_triple (hexlify (encode_parameters true "page-3" address_aa))
               = Ok None)
    by (vm_compute; reflexivity).
  split; [exact H1|]. split; [exact H2|].
  rewrite H1, H2. discriminate.
Qed.

(** C2, amended.  The two decoders agree on the empty input, and each
    decodes the encoding of a payload in its own layout (one tuple
    parameter for [attestation-scanner.js], three parameters for
    [part_000]) to the same triple, for every payload whose text is
    plain ASCII. *)
Theorem C2_decoders_agree_on_their_layouts :
  Scanner_triple "" = Part0_triple ""
  /\ Scanner_triple "0x" = Part0_triple "0x"
  /\ forall (isPositive : bool) (articlePage : string) (submitter : list byte),
       plain_text articlePage = true ->
       byteLength (bytes_of_string articlePage) < 2 ^ 53 ->
       length submitter = 20%nat ->
       Scanner_triple (hexlify (encode_tuple isPositive articlePage submitter))
       = Ok (Some (isPositive, articlePage, checksum_address submitter))
       /\ Part0_triple (hexlify (encode_parameters isPositive articlePage submitter))
          = Ok (Some (isPositive, articlePage, checksum_address submitter)).
Proof.
  split; [reflexivity|]. split; [reflexivity|].
  intros isPositive articlePage submitter Hp Hs Ha.
  unfold Scanner_triple, Part0_triple.
  rewrite Scanner_roundtrip, Part0_roundtrip by assumption.
  split; reflexivity.
Qed.

Lemma C2_witness :
  plain_text "page-3" = true
  /\ byteLength (bytes_of_string "page-3") < 2 ^ 53
  /\ length address_aa = 20%nat
  /\ Scanner_triple (hexlify (encode_tuple true "page-3" address_aa))
     = Ok (Some (true, "page-3", checksum_address address_aa))
  /\ Part0_triple (hexlify (encode_parameters true "page-3" address_aa))
     = Ok (Some (true, "page-3", checksum_address address_aa)).
Proof.
  split; [reflexivity|]. split; [reflexivity|]. split; [reflexivity|].
  apply (proj2 (proj2 C2_decoders_agree_on_their_layouts) true "page-3" address_aa);
    reflexivity.
Defined.

(** ** C3: malformed payloads *)

Lemma malformed_tuple_rejected (d : list byte) :
  short_head_tuple d || truncated_tail_tuple d = true ->
  schema_mismatch_tuple d = true.
Proof.
  intros [H|H]%orb_true_iff;
    [now apply Scanner_rejects_short_head|now apply Scanner_rejects_truncated_tail].
Qed.

Lemma malformed_parameters_rejected (d : list byte) :
  short_head_parameters d || truncated_tail_parameters d = true ->
  schema_mismatch_parameters d = true.
Proof.
  intros [H|H]%orb_true_iff;
    [now apply Part0_rejects_short_head|now apply Part0_rejects_truncated_tail].
Qed.


Lemma sample_carries (status subject data : string) (tx : ExplorerItem) :
  toLowerCase (item_to tx) = toLowerCase sample_contract ->
  carries (sample_env status (sample_payload subject data)) tx
    {| tx_to := Some sample_contract; tx_data := "0x12345678" |}
    (sample_payload subject data).
Proof.
  intros H. split; [exact H|]. split; [reflexivity|].
  split; [now exists sample_contract|].
  split; [discriminate|]. split; [discriminate|].
  now eexists.
Qed.


(** ** C4: the empty payload *)

(** C4.  For the empty string and for the zero-length marker [0x] (the
    text of the empty byte string) both Payload Decoders return [null];
    they throw on no input at all; and the assembler returns without a
    record, leaving the world as it was. *)
Theorem C4_empty_attestation_data :
  hexlify [] = "0x"
  /\ Scanner.decodeAttestationData "" = Ok None
  /\ Scanner.decodeAttestationData "0x" = Ok None
  /\ Part0.decodeAttestationData "" = Ok None
  /\ Part0.decodeAttestationData "0x" = Ok None
  /\ (forall s, is_throw (Scanner.decodeAttestationData s) = false
                /\ is_throw (Part0.decodeAttestationData s) = false)
  /\ forall env txHash blockNumber subject w,
       Scanner.assemble env txHash blockNumber (sample_payload subject "") w
       = (w, Ok None)
       /\ Scanner.assemble env txHash blockNumber (sample_payload subject "0x") w
          = (w, Ok None)
       /\ Part0.assemble env txHash blockNumber (sample_payload subject "") w
          = (w, Ok None)
       /\ Part0.assemble env txHash blockNumber (sample_payload subject "0x") w
          = (w, Ok None).
Proof.
  repeat (split; [reflexivity|]).
  split.
  - intros s. split; [apply Scanner_decode_never_throws|apply Part0_decode_never_throws].
  - intros. repeat split.
Qed.

(** ** C5: rows and entries of the sink *)

(** C5, counterexample.  A payload whose [articlePage] holds a line
    feed decodes, and each variant assembles a record from it.  That
    one record, appended after initialisation, leaves three rows in the
    tabular artifact (the header and two rows), not two. *)
Lemma C5_counterexample :
  let p := sample_payload (hexlify sample_address)
             (hexlify (encode_tuple true two_line_page address_aa)) in
  let q := sample_payload (hexlify sample_address)
             (hexlify (encode_parameters true two_line_page address_aa)) in
  let w' := ((_ ← Scanner.initializeFiles;
              Scanner.append_all [Scanner_sample_record two_line_page]) empty_world).1 in
  let v' := ((_ ← Part0.initializeFiles;
              Part0.append_all [Part0_sample_record two_line_page]) empty_world).1 in
  (Scanner.assemble (sample_env "1" p) "0x01" 100 p empty_world).2
  = Ok (Some (Scanner_sample_record two_line_page))
  /\ (Part0.assemble (sample_env "1" q) "0x01" 100 q empty_world).2
     = Ok (Some (Part0_sample_record two_line_page))
  /\ length (rows (file_content w' Scanner.CSV_FILE)) = 3%nat
  /\ length (rows (file_content w' Scanner.CSV_FILE))
     <> S (length [Scanner_sample_record two_line_page])
  /\ length (rows (file_content v' Part0.CSV_FILE))
     <> S (length [Part0_sample_record two_line_page]).
Proof.
  cbn zeta.
  split; [vm_compute; reflexivity|]. split; [vm_compute; reflexivity|].
  split; [|split]; vm_compute; congruence.
Qed.

(** C5, amended.  Whatever the files held before: after initialisation
    and the appending of N records, the structured artifact has exactly
    N entries; and if no row text holds a line feed, the tabular
    artifact has exactly the header row followed by the N rows of the
    records, in order. *)
Theorem C5_sink_rows_and_entries (w : World) :
  (forall recs : list Scanner.Attestation,
     let w' := ((_ ← Scanner.initializeFiles; Scanner.append_all recs) w).1 in
     entries (file_content w' Scanner.JSON_FILE) = length recs
     /\ (Forall (fun a => no_line_feed (Scanner.csvRow a) = true) recs ->
         rows (file_content w' Scanner.CSV_FILE)
         = Scanner.CSV_HEADER :: map Scanner.csvRow recs
         /\ length (rows (file_content w' Scanner.CSV_FILE)) = S (length recs)))
  /\ (forall recs : list Part0.Attestation,
        let w' := ((_ ← Part0.initializeFiles; Part0.append_all recs) w).1 in
        entries (file_content w' Part0.JSON_FILE) = length recs
        /\ (Forall (fun a => no_line_feed (Part0.csvRow a) = true) recs ->
            rows (file_content w' Part0.CSV_FILE)
            = Part0.CSV_HEADER :: map Part0.csvRow recs
            /\ length (rows (file_content w' Part0.CSV_FILE)) = S (length recs))).
Proof.
  split; intros recs; cbn zeta.
  - split; [apply Scanner_sink_entries|]. intros H.
    rewrite Scanner_sink_rows by exact H.
    split; [reflexivity|]. cbn [length]. now rewrite length_map.
  - split; [apply Part0_sink_entries|]. intros H.
    rewrite Part0_sink_rows by exact H.
    split; [reflexivity|]. cbn [length]. now rewrite length_map.
Qed.

Lemma C5_witness :
  let recs := [Scanner_sample_record "page-3"; Scanner_sample_record "page-4"] in
  let w' := ((_ ← Scanner.initializeFiles; Scanner.append_all recs) empty_world).1 in
  Forall (fun a => no_line_feed (Scanner.csvRow a) = true) recs
  /\ length (rows (file_content w' Scanner.CSV_FILE)) = 3%nat
  /\ entries (file_content w' Scanner.JSON_FILE) = 2%nat.
Proof.
  cbn zeta.
  assert (H : Forall (fun a => no_line_feed (Scanner.csvRow a) = true)
                [Scanner_sample_record "page-3"; Scanner_sample_record "page-4"])
    by (repeat (apply Forall_cons_2; [vm_compute; reflexivity|]); apply Forall_nil_2).
  split; [exact H|].
  destruct (proj1 (C5_sink_rows_and_entries empty_world)
              [Scanner_sample_record "page-3"; Scanner_sample_record "page-4"])
    as [He Hr].
  split; [exact (proj2 (Hr H))|exact He].
Defined.

(** ** C6: transactions sent elsewhere *)

(** C6.  A transaction whose [to] differs from the contract address,
    both in lower case, causes nothing at all when the difference shows
    in the explorer's list (the loop goes on in the same world), and
    causes only the provider lookup when it shows in the provider's
    answer: in neither case is the call data decoded or a file touched. *)
Theorem C6_other_destination_not_decoded (env : Env) :
  (forall tx rest w,
     toLowerCase (item_to tx) <> toLowerCase (env_CONTRACT_ADDRESS env) ->
     Scanner.process env (tx :: rest) w = Scanner.process env rest w
     /\ Part0.process env (tx :: rest) w = Part0.process env rest w)
  /\ (forall txHash blockNumber t w,
        provider_getTransaction env txHash = Ok (Some t) ->
        (forall a, tx_to t = Some a ->
                   toLowerCase a <> toLowerCase (env_CONTRACT_ADDRESS env)) ->
        Scanner.decodeAttestation env txHash blockNumber w
        = (after_events w [ev_getTransaction txHash], Ok tt)
        /\ Part0.decodeAttestation env txHash blockNumber w
           = (after_events w [ev_getTransaction txHash], Ok tt)).
Proof.
  split.
  - intros tx rest w H.
    split; [now apply Scanner_process_skip|now apply Part0_process_skip].
  - intros txHash blockNumber t w Hget Hto.
    split; [now apply (Scanner_decodeAttestation_elsewhere env txHash blockNumber t)
           |now apply (Part0_decodeAttestation_elsewhere env txHash blockNumber t)].
Qed.

Lemma C6_witness :
  let env := sample_env "1" (sample_payload (hexlify sample_address)
                               (hexlify (encode_tuple true "page-3" address_aa))) in
  toLowerCase (item_to other_item) <> toLowerCase (env_CONTRACT_ADDRESS env)
  /\ Scanner.process env [other_item] empty_world = (empty_world, Ok tt).
Proof.
  cbn zeta.
  assert (H : toLowerCase (item_to other_item) <> toLowerCase sample_contract)
    by (vm_compute; discriminate).
  split; [exact H|].
  exact (proj1 (proj1 (C6_other_destination_not_decoded
                         (sample_env "1" (sample_payload (hexlify sample_address)
                            (hexlify (encode_tuple true "page-3" address_aa)))))
                  other_item [] empty_world H)).
Defined.

(** ** C7: an error status of the explorer *)

(** C7.  When the status of the explorer's response is not ["1"], the
    fetch ends at once: the query is the only event, no item of the
    result is looked up or decoded, no file is touched, and nothing is
    thrown. *)
Theorem C7_explorer_error_aborts_fetch (env : Env) (response : Response) (w : World) :
  axios_get env = Ok response ->
  response_status response <> "1" ->
  Scanner.fetchTransactionsFromExplorer env w = (after_events w [ev_axios_get], Ok tt)
  /\ Part0.fetchTransactionsFromExplorer env w = (after_events w [ev_axios_get], Ok tt).
Proof.
  intros Hget Hstatus.
  unfold Scanner.fetchTransactionsFromExplorer, Part0.fetchTransactionsFromExplorer.
  M_unfold. cbn [trace files clock_reads].
  rewrite Hget, (eqb_false_of_ne _ _ Hstatus). split; reflexivity.
Qed.

Lemma C7_witness :
  let env := sample_env "0" (sample_payload (hexlify sample_address)
                               (hexlify (encode_tuple true "page-3" address_aa))) in
  let response := {| response_status := "0"; response_message := "OK";
                     response_result := [sample_item; other_item] |} in
  axios_get env = Ok response
  /\ response_status response <> "1"
  /\ Scanner.fetchTransactionsFromExplorer env empty_world
     = (after_events empty_world [ev_axios_get], Ok tt)
  /\ Part0.fetchTransactionsFromExplorer env empty_world
     = (after_events empty_world [ev_axios_get], Ok tt).
Proof.
  cbn zeta. split; [reflexivity|]. split; [discriminate|].
  apply (C7_explorer_error_aborts_fetch
           (sample_env "0" (sample_payload (hexlify sample_address)
                              (hexlify (encode_tuple true "page-3" address_aa))))
           {| response_status := "0"; response_message := "OK";
              response_result := [sample_item; other_item] |} empty_world).
  - reflexivity.
  - discriminate.
Defined.

(** ** C8: initialisation, then appends only *)

Lemma Scanner_startup_eq env w :
  Scanner.startup env w
  = Scanner.fetchTransactionsFromExplorer env (Scanner.initializeFiles w).1.
Proof. reflexivity. Qed.

Lemma Part0_startup_eq env w :
  Part0.startup env w
  = Part0.fetchTransactionsFromExplorer env (Part0.initializeFiles w).1.
Proof. reflexivity. Qed.

Lemma rows_header (header : string) :
  no_line_feed header = true -> rows (header +:+ str newline) = [header].
Proof.
  intros H. rewrite <- (string_app_empty_r (header +:+ str newline)).
  rewrite string_app_assoc. now rewrite rows_line.
Qed.

(** C8.  Whatever the two files held before, initialisation leaves the
    structured artifact empty and the tabular artifact with the header
    row alone, by two [writeFileSync] events; the rest of the startup
    sequence throws nothing and only appends: no later event writes a
    file anew, and every file keeps what it held after initialisation
    as the beginning of its content. *)
Theorem C8_sink_initialised_then_append_only (env : Env) (w : World) :
  (let w0 := (Scanner.initializeFiles w).1 in
   file_content w0 Scanner.JSON_FILE = ""
   /\ rows (file_content w0 Scanner.CSV_FILE) = [Scanner.CSV_HEADER]
   /\ trace w0
      = trace w ++ [ev_writeFileSync Scanner.JSON_FILE "";
                    ev_writeFileSync Scanner.CSV_FILE (Scanner.CSV_HEADER +:+ str newline)]
   /\ exists w', Scanner.startup env w = (w', Ok tt) /\ append_only w0 w')
  /\ (let w0 := (Part0.initializeFiles w).1 in
      file_content w0 Part0.JSON_FILE = ""
      /\ rows (file_content w0 Part0.CSV_FILE) = [Part0.CSV_HEADER]
      /\ trace w0
         = trace w ++ [ev_writeFileSync Part0.JSON_FILE "";
                       ev_writeFileSync Part0.CSV_FILE (Part0.CSV_HEADER +:+ str newline)]
      /\ exists w', Part0.startup env w = (w', Ok tt) /\ append_only w0 w').
Proof.
  split; cbn zeta.
  - split.
    { change (Scanner.initializeFiles w).1
        with (writeFileSync Scanner.CSV_FILE (Scanner.CSV_HEADER +:+ str newline)
                (writeFileSync Scanner.JSON_FILE "" w).1).1.
      rewrite file_content_write_ne
        by (intros E; apply files_differ_Scanner; now symmetry).
      apply file_content_write_eq. }
    split.
    { change (Scanner.initializeFiles w).1
        with (writeFileSync Scanner.CSV_FILE (Scanner.CSV_HEADER +:+ str newline)
                (writeFileSync Scanner.JSON_FILE "" w).1).1.
      rewrite file_content_write_eq. now apply rows_header. }
    split.
    { change (trace (Scanner.initializeFiles w).1)
        with ((trace w ++ [ev_writeFileSync Scanner.JSON_FILE ""])
              ++ [ev_writeFileSync Scanner.CSV_FILE (Scanner.CSV_HEADER +:+ str newline)]).
      now rewrite <- app_assoc. }
    rewrite Scanner_startup_eq.
    destruct (M_try_returns
                (_ ← emit ev_axios_get;
                 response ← lift (axios_get env);
                 if negb (String.eqb (response_status response) "1") then mret tt
                 else Scanner.process env (response_result response))
                (Scanner.initializeFiles w).1) as [w' E].
    exists w'. split; [exact E|].
    pose proof (Scanner_fetch_append_only env (Scanner.initializeFiles w).1) as H.
    unfold Scanner.fetchTransactionsFromExplorer in H. now rewrite E in H.
  - split.
    { change (Part0.initializeFiles w).1
        with (writeFileSync Part0.CSV_FILE (Part0.CSV_HEADER +:+ str newline)
                (writeFileSync Part0.JSON_FILE "" w).1).1.
      rewrite file_content_write_ne
        by (intros E; apply files_differ_Part0; now symmetry).
      apply file_content_write_eq. }
    split.
    { change (Part0.initializeFiles w).1
        with (writeFileSync Part0.CSV_FILE (Part0.CSV_HEADER +:+ str newline)
                (writeFileSync Part0.JSON_FILE "" w).1).1.
      rewrite file_content_write_eq. now apply rows_header. }
    split.
    { change (trace (Part0.initializeFiles w).1)
        with ((trace w ++ [ev_writeFileSync Part0.JSON_FILE ""])
              ++ [ev_writeFileSync Part0.CSV_FILE (Part0.CSV_HEADER +:+ str newline)]).
      now rewrite <- app_assoc. }
    rewrite Part0_startup_eq.
    destruct (M_try_returns
                (_ ← emit ev_axios_get;
                 response ← lift (axios_get env);
                 if negb (String.eqb (response_status response) "1") then mret tt
                 else Part0.process env (response_result response))
                (Part0.initializeFiles w).1) as [w' E].
    exists w'. split; [exact E|].
    pose proof (Part0_fetch_append_only env (Part0.initializeFiles w).1) as H.
    unfold Part0.fetchTransactionsFromExplorer in H. now rewrite E in H.
Qed.

(** ** C9: the timestamp of a record *)

(** C9.  Every record that [attestation-scanner.js] assembles carries
    the ISO text of the clock reading taken while assembling; every
    record that [part_000] assembles carries the ISO text of the
    timestamp of the block, in seconds, times 1000.  On one and the same
    transaction the two variants assemble records with different
    timestamps. *)
Theorem C9_timestamp_sources :
  (forall env txHash blockNumber p w w' a,
     Scanner.assemble env txHash blockNumber p w = (w', Ok (Some a)) ->
     JSDate.toISOString (clock env (clock_reads w)) = Ok (Scanner.timestamp a))
  /\ (forall env txHash blockNumber p w w' a,
        Part0.assemble env txHash blockNumber p w = (w', Ok (Some a)) ->
        exists block,
          provider_getBlock env blockNumber = Ok (Some block)
          /\ JSDate.toISOString (block_timestamp block * 1000) = Ok (Part0.timestamp a))
  /\ (let p := sample_payload (hexlify sample_address)
                 (hexlify (encode_parameters false "page-3" address_aa)) in
      exists a b,
        (Scanner.assemble (sample_env "1" p) "0x01" 100 p empty_world).2 = Ok (Some a)
        /\ (Part0.assemble (sample_env "1" p) "0x01" 100 p empty_world).2 = Ok (Some b)
        /\ Scanner.timestamp a = "2023-11-14T22:13:20.000Z"
        /\ Part0.timestamp b = "2020-09-13T12:26:40.000Z"
        /\ Scanner.timestamp a <> Part0.timestamp b).
Proof.
  split; [exact Scanner_assemble_timestamp|].
  split; [exact Part0_assemble_timestamp|].
  cbn zeta. eexists. eexists.
  split; [vm_compute; reflexivity|].
  split; [vm_compute; reflexivity|].
  split; [reflexivity|]. split; [reflexivity|]. discriminate.
Qed.

Lemma C9_witness :
  let p := sample_payload (hexlify sample_address)
             (hexlify (encode_tuple true "page-3" address_aa)) in
  let a := Scanner_sample_record "page-3" in
  let w' := {| files := ∅; trace := []; clock_reads := 1 |} in
  Scanner.assemble (sample_env "1" p) "0x01" 100 p empty_world = (w', Ok (Some a))
  /\ JSDate.toISOString 1700000000000 = Ok (Scanner.timestamp a).
Proof.
  cbn zeta.
  assert (H : Scanner.assemble
                (sample_env "1" (sample_payload (hexlify sample_address)
                                   (hexlify (encode_tuple true "page-3" address_aa))))
                "0x01" 100
                (sample_payload (hexlify sample_address)
                   (hexlify (encode_tuple true "page-3" address_aa))) empty_world
              = ({| files := ∅; trace := []; clock_reads := 1 |},
                 Ok (Some (Scanner_sample_record "page-3"))))
    by (vm_compute; reflexivity).
  split; [exact H|].
  exact (proj1 C9_timestamp_sources _ _ _ _ _ _ _ H).
Defined.

(** ** C10: the round trip of a known payload *)

(** C10.  The payload [(true, "page-3", 0xAAAA...AAAA)], encoded in the
    layout of a variant and decoded by the Payload Decoder of that
    variant, comes back as the same triple; the address comes back in
    its checksummed text, which denotes the same 20 bytes. *)
Theorem C10_roundtrip_page_3 :
  Scanner.decodeAttestationData (hexlify (encode_tuple true "page-3" address_aa))
  = Ok (Some {| Scanner.isPositive := true;
                Scanner.articlePage := "page-3";
                Scanner.submitter := "0xaAaAaAaaAaAaAaaAaAAAAAAAAaaaAaAaAaaAaaAa" |})
  /\ Part0.decodeAttestationData (hexlify (encode_parameters true "page-3" address_aa))
     = Ok (Some {| Part0.isPositive := true;
                   Part0.articlePage := "page-3";
                   Part0.submitter := "0xaAaAaAaaAaAaAaaAaAAAAAAAAaaaAaAaAaaAaaAa" |})
  /\ checksum_address address_aa = "0xaAaAaAaaAaAaAaaAaAAAAAAAAaaaAaAaAaaAaaAa"
  /\ Ethers.arrayify "0xaAaAaAaaAaAaAaaAaAAAAAAAAaaaAaAaAaaAaaAa" = Ok address_aa.
Proof. split; [|split; [|split]]; vm_compute; reflexivity. Qed.

(** The round trip holds for every payload with plain ASCII text, in
    both variants. *)
Lemma roundtrip_plain_text (isPositive : bool) (articlePage : string)
    (submitter : list byte) :
  plain_text articlePage = true ->
  byteLength (bytes_of_string articlePage) < 2 ^ 53 ->
  length submitter = 20%nat ->
  Scanner.decodeAttestationData (hexlify (encode_tuple isPositive articlePage submitter))
  = Ok (Some {| Scanner.isPositive := isPositive;
                Scanner.articlePage := articlePage;
                Scanner.submitter := checksum_address submitter |})
  /\ Part0.decodeAttestationData
       (hexlify (encode_parameters isPositive articlePage submitter))
     = Ok (Some {| Part0.isPositive := isPositive;
                   Part0.articlePage := articlePage;
                   Part0.submitter := checksum_address submitter |}).
Proof. intros. split; [now apply Scanner_roundtrip|now apply Part0_roundtrip]. Qed.

(** * Further properties of the two decoders *)

(** ** Payloads with arbitrary head words *)

Lemma skipn_word (a : Z) : skipn 12 (word a) = be_of_Z 20 a.
Proof.
  unfold word. change (be_of_Z 32 a) with (be_of_Z (12 + 20) a).
  rewrite (be_of_Z_add 12 20 a).
  rewrite skipn_app, skipn_all2 by (rewrite length_be_of_Z; lia).
  rewrite length_be_of_Z. reflexivity.
Qed.

Lemma encode_parameters_layout (b : bool) (s : string) (sub : list byte) :
  encode_parameters b s sub = layout_parameters (if b then 1 else 0) s (Z_of_be sub).
Proof. reflexivity. Qed.

Lemma encode_tuple_layout (b : bool) (s : string) (sub : list byte) :
  encode_tuple b s sub = layout_tuple (if b then 1 else 0) s (Z_of_be sub).
Proof. reflexivity. Qed.

Section Layout.

(** the words of the head, the text, and bytes that follow the payload *)
Variables (v a : Z) (articlePage : string) (extra : list byte).
Hypothesis Hv : 0 <= v < 2 ^ 256.
Hypothesis Ha : 0 <= a < 2 ^ 256.
Hypothesis Hsize : byteLength (bytes_of_string articlePage) < 2 ^ 53.

Let text := bytes_of_string articlePage.
Let len := byteLength text.
Let W0 := word v.
Let W1 := word 96.
Let W2 := word a.
Let WL := word len.
Let padding := repeat x00 (Z.to_nat ((- len) mod 32)).

Local Lemma LW0 : byteLength W0 = 32. Proof. apply byteLength_word. Qed.
Local Lemma LW1 : byteLength W1 = 32. Proof. apply byteLength_word. Qed.
Local Lemma LW2 : byteLength W2 = 32. Proof. apply byteLength_word. Qed.
Local Lemma LWL : byteLength WL = 32. Proof. apply byteLength_word. Qed.

Local Lemma LWLv : Z_of_be WL = len.
Proof.
  apply Z_of_be_word. pose proof (byteLength_nonneg text).
  split; [unfold len; lia|apply Z.lt_trans with (2 ^ 53); [exact Hsize|reflexivity]].
Qed.

Local Lemma LW0v : Z_of_be W0 = v.
Proof. now apply Z_of_be_word. Qed.

Local Lemma LW2v : Z_of_be W2 = a.
Proof. now apply Z_of_be_word. Qed.

Local Lemma LW1v : Z_of_be W1 = 96.
Proof. reflexivity. Qed.

Lemma layout_parameters_eq :
  layout_parameters v articlePage a ++ extra
  = W0 ++ W1 ++ W2 ++ WL ++ text ++ padding ++ extra.
Proof.
  unfold layout_parameters, encode_string, pad32. fold text len W0 W1 W2 WL padding.
  now rewrite <- !app_assoc.
Qed.

Lemma layout_tuple_eq :
  layout_tuple v articlePage a ++ extra
  = word 32 ++ W0 ++ W1 ++ W2 ++ WL ++ text ++ padding ++ extra.
Proof.
  unfold layout_tuple. rewrite <- app_assoc. now rewrite layout_parameters_eq.
Qed.

(** the string component, read by viem at the place the offset names *)
Lemma viem_decode_string_at (data : list byte) :
  data = word 32 ++ W0 ++ W1 ++ W2 ++ WL ++ text ++ padding ++ extra ->
  Viem.decodeString {| Viem.bytes := data; Viem.position := 64 |} 32
  = Ok (Viem.v_string (Viem.bytesToString (Viem.trim text)),
        {| Viem.bytes := data; Viem.position := 64 |}).
Proof.
  intros Hdata.
  pose proof (byteLength_nonneg text) as Hlen0. fold len in Hlen0.
  pose proof (byteLength_nonneg padding) as Hpad0.
  pose proof (byteLength_nonneg extra) as Hextra0.
  assert (Hsz : byteLength data = 160 + len + byteLength padding + byteLength extra).
  { rewrite Hdata, !byteLength_app, byteLength_word, LW0, LW1, LW2, LWL.
    fold len. lia. }
  unfold Viem.decodeString.
  rewrite (viem_readBytes_at data (word 32 ++ W0) W1
             (W2 ++ WL ++ text ++ padding ++ extra))
    by (rewrite ?Hdata, <- ?app_assoc, ?byteLength_app, ?byteLength_word, ?LW0, ?LW1;
        reflexivity || lia).
  exn_simpl. unfold Viem.bytesToNumber. rewrite LW1v.
  rewrite viem_setPosition by lia. exn_simpl.
  rewrite (viem_readBytes_at data (word 32 ++ W0 ++ W1 ++ W2) WL
             (text ++ padding ++ extra))
    by (rewrite ?Hdata, <- ?app_assoc, ?byteLength_app, ?byteLength_word,
          ?LW0, ?LW1, ?LW2, ?LWL; reflexivity || lia).
  exn_simpl. rewrite !LWLv.
  destruct (Z.eqb_spec len 0) as [E0|E0].
  - rewrite viem_setPosition by lia. exn_simpl.
    assert (text = []) as Ht by (apply length_zero_iff_nil; unfold len, byteLength in E0; lia).
    rewrite Ht. reflexivity.
  - rewrite (viem_readBytes_at data (word 32 ++ W0 ++ W1 ++ W2 ++ WL) text
               (padding ++ extra))
      by (rewrite ?Hdata, <- ?app_assoc, ?byteLength_app, ?byteLength_word,
            ?LW0, ?LW1, ?LW2, ?LWL; reflexivity || lia).
    exn_simpl. cbn [Viem.bytes Viem.position].
    rewrite viem_setPosition by lia. exn_simpl. reflexivity.
Qed.

(** What viem makes of the tuple layout, whatever the words and the
    text are and whatever follows the payload: the boolean word has to
    be 0 or 1, the text is decoded leniently after its leading zero
    bytes are dropped, and the address is the low 20 bytes of its
    word. *)
Lemma viem_decode_layout :
  Viem.decodeAbiParameters Scanner.attestationDataSchema
    (hexlify (layout_tuple v articlePage a ++ extra))
  = b ← Viem.bytesToBool (word v);
    Ok [[("isPositive", Viem.v_bool b);
         ("articlePage", Viem.v_string (Viem.bytesToString (Viem.trim text)));
         ("submitter", Viem.v_address (checksum_address (be_of_Z 20 a)))]].
Proof.
  pose proof (byteLength_nonneg text) as Hlen0. fold len in Hlen0.
  pose proof (byteLength_nonneg padding) as Hpad0.
  pose proof (byteLength_nonneg extra) as Hextra0.
  pose proof layout_tuple_eq as Hdata.
  set (data := layout_tuple v articlePage a ++ extra) in *.
  assert (Hsz : byteLength data = 160 + len + byteLength padding + byteLength extra).
  { rewrite Hdata, !byteLength_app, byteLength_word, LW0, LW1, LW2, LWL.
    fold len. lia. }
  clearbody data.
  unfold Viem.decodeAbiParameters.
  rewrite hexToBytes_hexlify, size_hex_hexlify. exn_simpl.
  replace (byteLength data =? 0) with false by (symmetry; apply Z.eqb_neq; lia).
  replace (byteLength data <? 32) with false by (symmetry; apply Z.ltb_ge; lia).
  rewrite viem_setPosition by lia. exn_simpl.
  unfold Viem.decodeTuple.
  rewrite (viem_readBytes_at data [] (word 32)
             (W0 ++ W1 ++ W2 ++ WL ++ text ++ padding ++ extra))
    by (rewrite ?byteLength_word; assumption || reflexivity || lia).
  exn_simpl. unfold Viem.bytesToNumber.
  rewrite (Z_of_be_word 32) by (split; [lia|reflexivity]).
  change (0 + 32) with 32.
  cbn [Viem.decodeComponents Scanner.attestationDataSchema Viem.decodeParameter].
  rewrite viem_setPosition by lia. exn_simpl.
  unfold Viem.decodeBool.
  rewrite (viem_readBytes_at data (word 32) W0
             (W1 ++ W2 ++ WL ++ text ++ padding ++ extra))
    by (rewrite ?byteLength_word, ?LW0; assumption || reflexivity || lia).
  exn_simpl. fold W0.
  destruct (Viem.bytesToBool W0) as [b|e]; exn_simpl; [|reflexivity].
  rewrite viem_setPosition by lia. exn_simpl.
  change (32 + (0 + 32)) with 64.
  rewrite (viem_decode_string_at data Hdata). exn_simpl.
  rewrite viem_setPosition by lia. exn_simpl.
  unfold Viem.decodeAddress.
  rewrite (viem_readBytes_at data (word 32 ++ W0 ++ W1) W2
             (WL ++ text ++ padding ++ extra))
    by (rewrite ?Hdata, <- ?app_assoc, ?byteLength_app, ?byteLength_word,
          ?LW0, ?LW1, ?LW2; reflexivity || lia).
  exn_simpl. unfold W2 at 1. rewrite skipn_word, checksumAddress_hexlify.
  rewrite viem_setPosition by lia. exn_simpl.
  reflexivity.
Qed.

(** the string coder of ethers on the tail of the layout *)
Lemma ethers_decode_string_layout :
  Ethers.coder_decode Ethers.t_string
    {| Ethers._data := WL ++ text ++ padding ++ extra; Ethers._offset := 0 |}
  = s ← Ethers.toUtf8String text;
    Ok (Ethers.v_string s,
        {| Ethers._data := WL ++ text ++ padding ++ extra;
           Ethers._offset := 0 + 32 + byteLength (text ++ padding) |}).
Proof.
  pose proof (byteLength_nonneg text) as Hlen0. fold len in Hlen0.
  pose proof (byteLength_nonneg extra) as Hextra0.
  cbn [Ethers.coder_decode].
  rewrite (ethers_readValue_at (WL ++ text ++ padding ++ extra) [] WL
             (text ++ padding ++ extra))
    by (auto using LWL).
  rewrite LWLv. exn_simpl.
  replace (Ethers.toNumber len) with (Ok len : exn Z).
  2:{ unfold Ethers.toNumber.
      replace (len <=? 2 ^ 53 - 1) with true; [reflexivity|].
      symmetry. apply Z.leb_le. unfold len, text. lia. }
  exn_simpl.
  unfold Ethers.readBytes, Ethers._peekBytes. cbn [Ethers._data Ethers._offset].
  assert (Hal : (len + 31) / 32 * 32 = byteLength (text ++ padding))
    by (symmetry; apply (byteLength_pad32 text)).
  rewrite Hal.
  replace (byteLength (WL ++ text ++ padding ++ extra))
    with (32 + byteLength (text ++ padding) + byteLength extra)
    by (rewrite !byteLength_app, LWL; lia).
  replace (0 + 32 + byteLength (text ++ padding)
           >? 32 + byteLength (text ++ padding) + byteLength extra)
    with false by (symmetry; rewrite Z.gtb_ltb; apply Z.ltb_ge; lia).
  exn_simpl.
  rewrite (slice_at (WL ++ text ++ padding ++ extra) WL (text ++ padding) extra)
    by (rewrite <- ?app_assoc, ?LWL; reflexivity).
  rewrite (firstn_pad32 text : firstn (Z.to_nat len) (text ++ padding) = text).
  reflexivity.
Qed.

Lemma ethers_decode_bool_layout (data pre post : list byte) (off : Z) :
  data = pre ++ W0 ++ post -> off = byteLength pre ->
  Ethers.coder_decode Ethers.t_bool {| Ethers._data := data; Ethers._offset := off |}
  = Ok (Ethers.v_bool (negb (v =? 0)),
        {| Ethers._data := data; Ethers._offset := off + 32 |}).
Proof.
  intros Hd Hoff. cbn [Ethers.coder_decode].
  rewrite (ethers_readValue_at data pre W0 post) by (auto using LW0).
  rewrite LW0v. reflexivity.
Qed.

Lemma ethers_decode_address_layout (data pre post : list byte) (off : Z) :
  data = pre ++ W2 ++ post -> off = byteLength pre ->
  Ethers.coder_decode Ethers.t_address {| Ethers._data := data; Ethers._offset := off |}
  = padded ← Ethers.hexZeroPad20 a;
    addr ← Ethers.getAddress padded;
    Ok (Ethers.v_address addr, {| Ethers._data := data; Ethers._offset := off + 32 |}).
Proof.
  intros Hd Hoff. cbn [Ethers.coder_decode].
  rewrite (ethers_readValue_at data pre W2 post) by (auto using LW2).
  rewrite LW2v. reflexivity.
Qed.

(** What ethers makes of the parameter layout, whatever the words and
    the text are and whatever follows the payload: every non-zero
    boolean word is [true], the text has to be well-formed UTF-8, and
    the address word has to fit 20 bytes. *)
Lemma ethers_decode_layout :
  Ethers.defaultAbiCoder_decode Part0.attestationDataTypes
    (hexlify (layout_parameters v articlePage a ++ extra))
  = s ← Ethers.toUtf8String text;
    padded ← Ethers.hexZeroPad20 a;
    addr ← Ethers.getAddress padded;
    Ok [Ethers.v_bool (negb (v =? 0)); Ethers.v_string s; Ethers.v_address addr].
Proof.
  pose proof layout_parameters_eq as Hdata.
  set (data := layout_parameters v articlePage a ++ extra) in *.
  clearbody data.
  unfold Ethers.defaultAbiCoder_decode. rewrite arrayify_hexlify. exn_simpl.
  unfold Ethers.unpack, Ethers.subReader. cbn [Ethers._data Ethers._offset].
  change (Z.to_nat (0 + 0)) with 0%nat. rewrite skipn_O.
  cbn [Ethers.unpack_from Part0.attestationDataTypes Ethers.dynamic].
  (* bool *)
  rewrite (ethers_decode_bool_layout data []
             (W1 ++ W2 ++ WL ++ text ++ padding ++ extra)) by auto.
  exn_simpl.
  (* string *)
  rewrite (ethers_readValue_at data W0 W1 (W2 ++ WL ++ text ++ padding ++ extra))
    by (rewrite ?LW0; auto using LW1).
  rewrite LW1v. exn_simpl.
  change (Ethers.toNumber 96) with (Ok 96 : exn Z). exn_simpl.
  unfold Ethers.subReader. cbn [Ethers._data Ethers._offset].
  replace (skipn (Z.to_nat (0 + 96)) data) with (WL ++ text ++ padding ++ extra).
  2:{ rewrite Hdata.
      replace (W0 ++ W1 ++ W2 ++ WL ++ text ++ padding ++ extra)
        with ((W0 ++ W1 ++ W2) ++ WL ++ text ++ padding ++ extra)
        by (now rewrite <- !app_assoc).
      rewrite skipn_app, skipn_all2.
      - replace (Z.to_nat (0 + 96) - length (W0 ++ W1 ++ W2))%nat with 0%nat; [reflexivity|].
        pose proof LW0. pose proof LW1. pose proof LW2.
        rewrite !length_app. unfold byteLength in *. lia.
      - pose proof LW0. pose proof LW1. pose proof LW2.
        rewrite !length_app. unfold byteLength in *. lia. }
  rewrite ethers_decode_string_layout.
  destruct (Ethers.toUtf8String text) as [s|e]; exn_simpl; [|reflexivity].
  (* address *)
  rewrite (ethers_decode_address_layout data (W0 ++ W1)
             (WL ++ text ++ padding ++ extra))
    by (rewrite <- ?app_assoc, ?byteLength_app, ?LW0, ?LW1; auto).
  exn_simpl.
  destruct (Ethers.hexZeroPad20 a) as [padded|e]; exn_simpl; [|reflexivity].
  destruct (Ethers.getAddress padded) as [addr|e]; exn_simpl; reflexivity.
Qed.

End Layout.

Lemma hexlify_word_nonempty (v : Z) (rest : list byte) :
  String.eqb (hexlify (word v ++ rest)) "" = false
  /\ String.eqb (hexlify (word v ++ rest)) "0x" = false.
Proof.
  destruct (word_cons v) as (b & bs & ->). apply hexlify_nonempty.
Qed.

(** The Payload Decoder of [attestation-scanner.js] on the tuple
    layout, followed by any bytes *)
Lemma Scanner_decode_layout_extra (v a : Z) (articlePage : string) (extra : list byte) :
  0 <= v < 2 ^ 256 -> 0 <= a < 2 ^ 256 ->
  byteLength (bytes_of_string articlePage) < 2 ^ 53 ->
  Scanner.decodeAttestationData (hexlify (layout_tuple v articlePage a ++ extra))
  = Ok (match Viem.bytesToBool (word v) with
        | Ok b =>
            Some {| Scanner.isPositive := b;
                    Scanner.articlePage :=
                      Viem.bytesToString (Viem.trim (bytes_of_string articlePage));
                    Scanner.submitter := checksum_address (be_of_Z 20 a) |}
        | Throw _ => None
        end).
Proof.
  intros Hv Ha Hsize. unfold Scanner.decodeAttestationData.
  destruct (hexlify_word_nonempty 32 (layout_parameters v articlePage a ++ extra))
    as [E1 E2].
  replace (word 32 ++ layout_parameters v articlePage a ++ extra)
    with (layout_tuple v articlePage a ++ extra) in E1, E2
    by (unfold layout_tuple; now rewrite <- app_assoc).
  rewrite E1, E2. cbn [orb].
  rewrite viem_decode_layout by assumption.
  destruct (Viem.bytesToBool (word v)); reflexivity.
Qed.

Lemma Scanner_decode_layout (v a : Z) (articlePage : string) :
  0 <= v < 2 ^ 256 -> 0 <= a < 2 ^ 256 ->
  byteLength (bytes_of_string articlePage) < 2 ^ 53 ->
  Scanner.decodeAttestationData (hexlify (layout_tuple v articlePage a))
  = Ok (match Viem.bytesToBool (word v) with
        | Ok b =>
            Some {| Scanner.isPositive := b;
                    Scanner.articlePage :=
                      Viem.bytesToString (Viem.trim (bytes_of_string articlePage));
                    Scanner.submitter := checksum_address (be_of_Z 20 a) |}
        | Throw _ => None
        end).
Proof.
  intros Hv Ha Hsize. rewrite <- (app_nil_r (layout_tuple v articlePage a)).
  now apply Scanner_decode_layout_extra.
Qed.

(** The Payload Decoder of [part_000] on the parameter layout, followed
    by any bytes *)
Lemma Part0_decode_layout_extra (v a : Z) (articlePage : string) (extra : list byte) :
  0 <= v < 2 ^ 256 -> 0 <= a < 2 ^ 256 ->
  byteLength (bytes_of_string articlePage) < 2 ^ 53 ->
  Part0.decodeAttestationData (hexlify (layout_parameters v articlePage a ++ extra))
  = Ok (match Ethers.toUtf8String (bytes_of_string articlePage),
              Ethers.hexZeroPad20 a ≫= Ethers.getAddress with
        | Ok s, Ok addr =>
            Some {| Part0.isPositive := negb (v =? 0);
                    Part0.articlePage := s;
                    Part0.submitter := addr |}
        | _, _ => None
        end).
Proof.
  intros Hv Ha Hsize. unfold Part0.decodeAttestationData.
  destruct (hexlify_word_nonempty v
              (word 96 ++ word a ++ encode_string articlePage ++ extra)) as [E1 E2].
  replace (word v ++ word 96 ++ word a ++ encode_string articlePage ++ extra)
    with (layout_parameters v articlePage a ++ extra) in E1, E2
    by (unfold layout_parameters; now rewrite <- !app_assoc).
  rewrite E1, E2. cbn [orb].
  rewrite ethers_decode_layout by assumption.
  destruct (Ethers.toUtf8String _) as [s|e]; exn_simpl; [|reflexivity].
  destruct (Ethers.hexZeroPad20 a) as [padded|e]; exn_simpl; [|reflexivity].
  destruct (Ethers.getAddress padded) as [addr|e]; reflexivity.
Qed.

Lemma Part0_decode_layout (v a : Z) (articlePage : string) :
  0 <= v < 2 ^ 256 -> 0 <= a < 2 ^ 256 ->
  byteLength (bytes_of_string articlePage) < 2 ^ 53 ->
  Part0.decodeAttestationData (hexlify (layout_parameters v articlePage a))
  = Ok (match Ethers.toUtf8String (bytes_of_string articlePage),
              Ethers.hexZeroPad20 a ≫= Ethers.getAddress with
        | Ok s, Ok addr =>
            Some {| Part0.isPositive := negb (v =? 0);
                    Part0.articlePage := s;
                    Part0.submitter := addr |}
        | _, _ => None
        end).
Proof.
  intros Hv Ha Hsize. rewrite <- (app_nil_r (layout_parameters v articlePage a)).
  now apply Part0_decode_layout_extra.
Qed.

(** ** The words of the head *)

Lemma Z_of_be_cons_zero (b : byte) (bs : list byte) :
  Z_of_byte b = 0 -> Z_of_be (b :: bs) = Z_of_be bs.
Proof. intros H. unfold Z_of_be. cbn [fold_left]. now rewrite H. Qed.

Lemma Z_of_be_trim (bs : list byte) : Z_of_be (Viem.trim bs) = Z_of_be bs.
Proof.
  induction bs as [|b bs IH]; [reflexivity|].
  cbn [Viem.trim]. destruct bs as [|b' bs]; [reflexivity|].
  destruct (Z.eqb_spec (Z_of_byte b) 0) as [E|E]; [|reflexivity].
  now rewrite IH, (Z_of_be_cons_zero b).
Qed.

Lemma Z_of_be_single (b : byte) : Z_of_be [b] = Z_of_byte b.
Proof. unfold Z_of_be. cbn [fold_left]. lia. Qed.

(** viem accepts the words 0 and 1 as booleans and no other *)
Lemma bytesToBool_noncanonical (v : Z) :
  2 <= v < 2 ^ 256 -> Viem.bytesToBool (word v) = Throw "InvalidBytesBooleanError".
Proof.
  intros Hv. unfold Viem.bytesToBool.
  pose proof (Z_of_be_trim (word v)) as Ht.
  rewrite Z_of_be_word in Ht by lia.
  destruct (Viem.trim (word v)) as [|b [|b' l]]; try reflexivity.
  rewrite Z_of_be_single in Ht.
  replace (Z_of_byte b >? 1) with true; [reflexivity|].
  symmetry. rewrite Z.gtb_ltb. apply Z.ltb_lt. lia.
Qed.

Lemma hexZeroPad20_address (sub : list byte) :
  length sub = 20%nat ->
  Ethers.hexZeroPad20 (Z_of_be sub) ≫= Ethers.getAddress = Ok (checksum_address sub).
Proof.
  intros Hsub. pose proof (Z_of_be_range sub) as Hrange. rewrite Hsub in Hrange.
  unfold Ethers.hexZeroPad20.
  replace (Z_of_be sub <? 2 ^ 160) with true
    by (symmetry; apply Z.ltb_lt; change (2 ^ 160) with (256 ^ Z.of_nat 20); lia).
  replace (be_of_Z 20 (Z_of_be sub)) with sub
    by (rewrite <- Hsub; symmetry; apply be_of_Z_Z_of_be).
  exn_simpl. now apply getAddress_hexlify_20.
Qed.

Lemma address_word_range (sub : list byte) :
  length sub = 20%nat -> 0 <= Z_of_be sub < 2 ^ 256.
Proof.
  intros Hsub. pose proof (Z_of_be_range sub) as Hrange. rewrite Hsub in Hrange.
  split; [lia|]. apply Z.lt_trans with (256 ^ Z.of_nat 20); [lia|reflexivity].
Qed.

Lemma be_of_Z_address (sub : list byte) :
  length sub = 20%nat -> be_of_Z 20 (Z_of_be sub) = sub.
Proof. intros Hsub. rewrite <- Hsub. apply be_of_Z_Z_of_be. Qed.

(** X1.  A boolean word other than 0 and 1.  The Payload Decoder of
    [attestation-scanner.js] returns [null]: viem accepts the words 0
    and 1 only.  The Payload Decoder of [part_000] returns the record
    with [isPositive] true: ethers takes every non-zero word for
    [true]. *)
Theorem X1_noncanonical_boolean (v : Z) (articlePage : string) (submitter : list byte) :
  2 <= v < 2 ^ 256 ->
  plain_text articlePage = true ->
  byteLength (bytes_of_string articlePage) < 2 ^ 53 ->
  length submitter = 20%nat ->
  Scanner.decodeAttestationData
    (hexlify (layout_tuple v articlePage (Z_of_be submitter))) = Ok None
  /\ Part0.decodeAttestationData
       (hexlify (layout_parameters v articlePage (Z_of_be submitter)))
     = Ok (Some {| Part0.isPositive := true;
                   Part0.articlePage := articlePage;
                   Part0.submitter := checksum_address submitter |}).
Proof.
  intros Hv Hplain Hsize Hsub.
  pose proof (address_word_range submitter Hsub) as Ha.
  split.
  - rewrite Scanner_decode_layout by (assumption || lia).
    now rewrite bytesToBool_noncanonical.
  - rewrite Part0_decode_layout by (assumption || lia).
    rewrite toUtf8String_plain by assumption.
    rewrite hexZeroPad20_address by assumption.
    replace (v =? 0) with false by (symmetry; apply Z.eqb_neq; lia).
    reflexivity.
Qed.

(** X2.  An address word whose value does not fit 20 bytes.  The
    Payload Decoder of [attestation-scanner.js] returns the record with
    the low 20 bytes of the word as [submitter]; the Payload Decoder of
    [part_000] returns [null]. *)
Theorem X2_address_word_high_bytes (isPositive : bool) (articlePage : string) (a : Z) :
  2 ^ 160 <= a < 2 ^ 256 ->
  plain_text articlePage = true ->
  byteLength (bytes_of_string articlePage) < 2 ^ 53 ->
  Scanner.decodeAttestationData
    (hexlify (layout_tuple (if isPositive then 1 else 0) articlePage a))
  = Ok (Some {| Scanner.isPositive := isPositive;
                Scanner.articlePage := articlePage;
                Scanner.submitter := checksum_address (be_of_Z 20 a) |})
  /\ Part0.decodeAttestationData
       (hexlify (layout_parameters (if isPositive then 1 else 0) articlePage a))
     = Ok None.
Proof.
  intros Ha Hplain Hsize.
  assert (Hv : 0 <= (if isPositive then 1 else 0) < 2 ^ 256)
    by (destruct isPositive; split; (lia || reflexivity)).
  split.
  - rewrite Scanner_decode_layout by (assumption || lia).
    rewrite bytesToBool_word, bytesToString_plain by assumption. reflexivity.
  - rewrite Part0_decode_layout by (assumption || lia).
    rewrite toUtf8String_plain by assumption.
    unfold Ethers.hexZeroPad20.
    replace (a <? 2 ^ 160) with false by (symmetry; apply Z.ltb_ge; lia).
    reflexivity.
Qed.

Lemma X1_witness :
  Scanner.decodeAttestationData
    (hexlify (layout_tuple 2 "page-3" (Z_of_be address_aa))) = Ok None
  /\ Part0.decodeAttestationData
       (hexlify (layout_parameters 2 "page-3" (Z_of_be address_aa)))
     = Ok (Some {| Part0.isPositive := true;
                   Part0.articlePage := "page-3";
                   Part0.submitter := checksum_address address_aa |}).
Proof.
  apply (X1_noncanonical_boolean 2 "page-3" address_aa); [|reflexivity..].
  split; [discriminate|reflexivity].
Defined.

Lemma X2_witness :
  Part0.decodeAttestationData
    (hexlify (layout_parameters 1 "page-3" (2 ^ 160 + Z_of_be address_aa)))
  = Ok None.
Proof.
  apply (X2_address_word_high_bytes true "page-3" (2 ^ 160 + Z_of_be address_aa));
    [|reflexivity..].
  split; [discriminate|reflexivity].
Defined.

(** ** Bytes after the payload *)

(** X3.  Bytes that follow a well-formed payload change nothing: both
    Payload Decoders return the payload, whatever the bytes are. *)
Theorem X3_trailing_bytes_ignored (isPositive : bool) (articlePage : string)
    (submitter extra : list byte) :
  plain_text articlePage = true ->
  byteLength (bytes_of_string articlePage) < 2 ^ 53 ->
  length submitter = 20%nat ->
  Scanner.decodeAttestationData
    (hexlify (encode_tuple isPositive articlePage submitter ++ extra))
  = Ok (Some {| Scanner.isPositive := isPositive;
                Scanner.articlePage := articlePage;
                Scanner.submitter := checksum_address submitter |})
  /\ Part0.decodeAttestationData
       (hexlify (encode_parameters isPositive articlePage submitter ++ extra))
     = Ok (Some {| Part0.isPositive := isPositive;
                   Part0.articlePage := articlePage;
                   Part0.submitter := checksum_address submitter |}).
Proof.
  intros Hplain Hsize Hsub.
  pose proof (address_word_range submitter Hsub) as Ha.
  assert (Hv : 0 <= (if isPositive then 1 else 0) < 2 ^ 256)
    by (destruct isPositive; split; (lia || reflexivity)).
  rewrite encode_tuple_layout, encode_parameters_layout.
  split.
  - rewrite Scanner_decode_layout_extra by assumption.
    rewrite bytesToBool_word, bytesToString_plain, be_of_Z_address by assumption.
    reflexivity.
  - rewrite Part0_decode_layout_extra by assumption.
    rewrite toUtf8String_plain, hexZeroPad20_address by assumption.
    now destruct isPositive.
Qed.

Lemma X3_witness :
  Scanner.decodeAttestationData
    (hexlify (encode_tuple true "page-3" address_aa ++ [xff; xff; xff]))
  = Ok (Some {| Scanner.isPositive := true;
                Scanner.articlePage := "page-3";
                Scanner.submitter := checksum_address address_aa |}).
Proof.
  exact (proj1 (X3_trailing_bytes_ignored true "page-3" address_aa [xff; xff; xff]
                  eq_refl eq_refl eq_refl)).
Defined.

(** ** Text that is not plain *)

Lemma bytes_of_string_of_bytes (bs : list byte) : bytes_of_string (string_of_bytes bs) = bs.
Proof. apply String.list_byte_of_string_of_list_byte. Qed.

Lemma string_of_bytes_app (a b : list byte) :
  string_of_bytes (a ++ b) = string_of_bytes a +:+ string_of_bytes b.
Proof.
  induction a as [|x a IH]; [reflexivity|].
  unfold string_of_bytes, String.string_of_list_byte in *.
  cbn [app map String.string_of_list_ascii]. now rewrite IH.
Qed.

Lemma bytes_of_string_app (a b : string) :
  bytes_of_string (a +:+ b) = bytes_of_string a ++ bytes_of_string b.
Proof.
  rewrite <- (bytes_of_string_of_bytes (bytes_of_string a ++ bytes_of_string b)).
  now rewrite string_of_bytes_app, !string_of_bytes_of_string.
Qed.

Lemma getUtf8CodePoints_app_plain (pre rest : list byte) :
  plain_bytes pre ->
  Ethers.getUtf8CodePoints (pre ++ rest)
  = cps ← Ethers.getUtf8CodePoints rest; Ok (map Z_of_byte pre ++ cps).
Proof.
  induction 1 as [|b bs Hb _ IH].
  - cbn [app map]. now destruct (Ethers.getUtf8CodePoints rest).
  - cbn [app Ethers.getUtf8CodePoints map].
    replace (Z.shiftr (Z_of_byte b) 7 =? 0) with true.
    + rewrite IH. now destruct (Ethers.getUtf8CodePoints rest).
    + symmetry. apply Z.eqb_eq. rewrite Z.shiftr_div_pow2 by lia.
      apply Z.div_small. change (2 ^ 7) with 128. lia.
Qed.

Lemma getUtf8CodePoints_nul (rest : list byte) :
  Ethers.getUtf8CodePoints (x00 :: rest)
  = cps ← Ethers.getUtf8CodePoints rest; Ok (0 :: cps).
Proof. reflexivity. Qed.

Lemma getUtf8CodePoints_stray (c : byte) (rest : list byte) :
  stray c = true -> is_throw (Ethers.getUtf8CodePoints (c :: rest)) = true.
Proof. destruct c; intros H; try discriminate H; reflexivity. Qed.

Lemma utf8_run_app_plain (pre rest : list byte) :
  plain_bytes pre ->
  Viem.utf8_run Viem.utf8_initial (pre ++ rest)
  = map Z_of_byte pre ++ Viem.utf8_run Viem.utf8_initial rest.
Proof.
  induction 1 as [|b bs Hb _ IH]; [reflexivity|].
  cbn [app Viem.utf8_run map]. unfold Viem.utf8_step.
  cbn [Viem.bytes_needed Viem.utf8_initial]. cbn [Z.eqb]. unfold Viem.utf8_lead.
  replace (Z_of_byte b <=? 127) with true by (symmetry; apply Z.leb_le; lia).
  now rewrite IH.
Qed.

Lemma utf8_run_stray (c : byte) (rest : list byte) :
  stray c = true ->
  Viem.utf8_run Viem.utf8_initial (c :: rest)
  = 0xFFFD :: Viem.utf8_run Viem.utf8_initial rest.
Proof. destruct c; intros H; try discriminate H; reflexivity. Qed.

Lemma string_of_code_points_app (a b : list Z) :
  string_of_code_points (a ++ b) = string_of_code_points a +:+ string_of_code_points b.
Proof. unfold string_of_code_points. now rewrite flat_map_app, string_of_bytes_app. Qed.

Lemma plain_bytes_nonzero_head (b : byte) (bs rest : list byte) :
  plain_bytes (b :: bs) -> Viem.trim ((b :: bs) ++ rest) = (b :: bs) ++ rest.
Proof.
  intros H. inversion H as [|? ? Hb _]; subst. cbn [app Viem.trim].
  destruct (bs ++ rest); [reflexivity|].
  replace (Z_of_byte b =? 0) with false; [reflexivity|].
  symmetry. apply Z.eqb_neq. lia.
Qed.

Lemma trim_stray (c : byte) (rest : list byte) :
  stray c = true -> Viem.trim (c :: rest) = c :: rest.
Proof.
  intros H. cbn [Viem.trim]. destruct rest; [reflexivity|].
  replace (Z_of_byte c =? 0) with false; [reflexivity|].
  destruct c; try discriminate H; reflexivity.
Qed.

Lemma trim_nuls (n : nat) (bs : list byte) :
  plain_bytes bs -> bs <> [] -> Viem.trim (repeat x00 n ++ bs) = bs.
Proof.
  intros Hp Hne. induction n as [|n IH]; [now apply trim_plain|].
  cbn [repeat app Viem.trim].
  destruct (repeat x00 n ++ bs) eqn:E.
  - apply app_eq_nil in E as [_ ->]. contradiction.
  - exact IH.
Qed.

Lemma drop_bom_not_bom (c : Z) (cps : list Z) :
  c <> 0xFEFF -> Viem.drop_bom (c :: cps) = c :: cps.
Proof.
  intros H. cbn [Viem.drop_bom].
  now replace (c =? 65279) with false by (symmetry; now apply Z.eqb_neq).
Qed.

(** a stray byte between two plain texts, read by the decoder of the
    Encoding standard *)
Lemma bytesToString_stray (pre post : string) (c : byte) :
  plain_text pre = true -> plain_text post = true -> stray c = true ->
  Viem.bytesToString
    (Viem.trim (bytes_of_string (pre +:+ string_of_bytes [c] +:+ post)))
  = pre +:+ replacement +:+ post.
Proof.
  intros Hpre%plain_text_bytes Hpost%plain_text_bytes Hc.
  rewrite !bytes_of_string_app, bytes_of_string_of_bytes.
  assert (Ht : Viem.trim (bytes_of_string pre ++ [c] ++ bytes_of_string post)
               = bytes_of_string pre ++ [c] ++ bytes_of_string post).
  { destruct (bytes_of_string pre) as [|b bs] eqn:E.
    - cbn [app]. now apply trim_stray.
    - now apply plain_bytes_nonzero_head. }
  rewrite Ht. unfold Viem.bytesToString, Viem.TextDecoder_decode.
  rewrite utf8_run_app_plain by assumption. cbn [app].
  rewrite utf8_run_stray by assumption.
  rewrite utf8_run_plain by assumption.
  assert (Hb : Viem.drop_bom (map Z_of_byte (bytes_of_string pre)
                              ++ 65533 :: map Z_of_byte (bytes_of_string post))
               = map Z_of_byte (bytes_of_string pre)
                 ++ 65533 :: map Z_of_byte (bytes_of_string post)).
  { destruct Hpre as [|b bs Hb _]; cbn [map app].
    - now apply drop_bom_not_bom.
    - apply drop_bom_not_bom. lia. }
  rewrite Hb.
  change (65533 :: map Z_of_byte (bytes_of_string post))
    with ([65533] ++ map Z_of_byte (bytes_of_string post)).
  rewrite !string_of_code_points_app.
  rewrite !string_of_code_points_plain by assumption.
  now rewrite !string_of_bytes_of_string.
Qed.

Lemma toUtf8String_stray (pre post : string) (c : byte) :
  plain_text pre = true -> stray c = true ->
  is_throw (Ethers.toUtf8String
              (bytes_of_string (pre +:+ string_of_bytes [c] +:+ post))) = true.
Proof.
  intros Hpre%plain_text_bytes Hc.
  rewrite !bytes_of_string_app, bytes_of_string_of_bytes.
  unfold Ethers.toUtf8String.
  rewrite getUtf8CodePoints_app_plain by assumption. cbn [app].
  pose proof (getUtf8CodePoints_stray c (bytes_of_string post) Hc) as H.
  destruct (Ethers.getUtf8CodePoints (c :: bytes_of_string post)); [discriminate H|].
  reflexivity.
Qed.

Lemma toUtf8String_nuls (n : nat) (page : string) :
  plain_text page = true ->
  Ethers.toUtf8String (bytes_of_string (nuls n +:+ page)) = Ok (nuls n +:+ page).
Proof.
  intros Hp. pose proof (toUtf8String_plain page Hp) as H.
  rewrite bytes_of_string_app. unfold nuls. rewrite bytes_of_string_of_bytes.
  unfold Ethers.toUtf8String in *.
  destruct (Ethers.getUtf8CodePoints (bytes_of_string page)) as [cps|] eqn:E;
    [|discriminate H].
  cbn [mbind exn_mbind exn_bind] in H. injection H as H.
  induction n as [|n IH].
  - cbn [repeat app]. rewrite E. cbn [mbind exn_mbind exn_bind]. now rewrite H.
  - cbn [repeat app]. rewrite getUtf8CodePoints_nul.
    destruct (Ethers.getUtf8CodePoints (repeat x00 n ++ bytes_of_string page))
      as [cps'|]; [|discriminate IH].
    cbn [mbind exn_mbind exn_bind] in *. injection IH as IH.
    change (0 :: cps') with ([0] ++ cps'). rewrite string_of_code_points_app, IH.
    reflexivity.
Qed.

Lemma byteLength_nuls (n : nat) (page : string) :
  byteLength (bytes_of_string (nuls n +:+ page))
  = Z.of_nat n + byteLength (bytes_of_string page).
Proof.
  rewrite bytes_of_string_app. unfold nuls. rewrite bytes_of_string_of_bytes.
  rewrite byteLength_app. unfold byteLength at 1. now rewrite repeat_length.
Qed.

Lemma bool_word_range (b : bool) : 0 <= (if b then 1 else 0) < 2 ^ 256.
Proof. destruct b; split; (lia || reflexivity). Qed.


(** X5.  A byte that cannot start a UTF-8 sequence, between two plain
    texts.  The Payload Decoder of [attestation-scanner.js] returns the
    record, with U+FFFD in the place of the byte; the Payload Decoder of
    [part_000] returns [null]. *)
Theorem X5_stray_byte_in_text (isPositive : bool) (pre post : string) (c : byte)
    (submitter : list byte) :
  plain_text pre = true -> plain_text post = true -> stray c = true ->
  byteLength (bytes_of_string (pre +:+ string_of_bytes [c] +:+ post)) < 2 ^ 53 ->
  length submitter = 20%nat ->
  Scanner.decodeAttestationData
    (hexlify (encode_tuple isPositive (pre +:+ string_of_bytes [c] +:+ post) submitter))
  = Ok (Some {| Scanner.isPositive := isPositive;
                Scanner.articlePage := pre +:+ replacement +:+ post;
                Scanner.submitter := checksum_address submitter |})
  /\ Part0.decodeAttestationData
       (hexlify (encode_parameters isPositive
                   (pre +:+ string_of_bytes [c] +:+ post) submitter))
     = Ok None.
Proof.
  intros Hpre Hpost Hc Hsize Hsub.
  pose proof (address_word_range submitter Hsub) as Ha.
  pose proof (bool_word_range isPositive) as Hv.
  rewrite encode_tuple_layout, encode_parameters_layout.
  split.
  - rewrite Scanner_decode_layout by assumption.
    rewrite bytesToBool_word, be_of_Z_address by assumption.
    now rewrite bytesToString_stray.
  - rewrite Part0_decode_layout by assumption.
    pose proof (toUtf8String_stray pre post c Hpre Hc) as H.
    destruct (Ethers.toUtf8String _); [discriminate H|reflexivity].
Qed.


Lemma X5_witness :
  Part0.decodeAttestationData
    (hexlify (encode_parameters true ("page" +:+ string_of_bytes [xff] +:+ "3")
                address_aa))
  = Ok None.
Proof.
  apply (X5_stray_byte_in_text true "page" "3" xff address_aa); reflexivity.
Defined.

(** ** Each decoder on the layout of the other *)

Section Crossed.

Variables (articlePage : string) (submitter : list byte).
Hypothesis Hplain : plain_text articlePage = true.
Hypothesis Hsize : byteLength (bytes_of_string articlePage) < 2 ^ 53.
Hypothesis Hsubmitter : length submitter = 20%nat.

Let text := bytes_of_string articlePage.
Let len := byteLength text.
Let W2 := word (Z_of_be submitter).
Let WL := word len.
Let padding := repeat x00 (Z.to_nat ((- len) mod 32)).

Local Lemma CW2 : byteLength W2 = 32. Proof. apply byteLength_word. Qed.
Local Lemma CWL : byteLength WL = 32. Proof. apply byteLength_word. Qed.

Local Lemma CWLv : Z_of_be WL = len.
Proof.
  apply Z_of_be_word. pose proof (byteLength_nonneg text).
  split; [unfold len; lia|apply Z.lt_trans with (2 ^ 53); [exact Hsize|reflexivity]].
Qed.

(** viem reads the zero word of a negative payload as the offset of the
    tuple, and so finds the three components where they are *)
Lemma Scanner_on_negative_parameters :
  Scanner.decodeAttestationData
    (hexlify (encode_parameters false articlePage submitter))
  = Ok (Some {| Scanner.isPositive := false;
                Scanner.articlePage := articlePage;
                Scanner.submitter := checksum_address submitter |}).
Proof.
  pose proof (byteLength_nonneg text) as Hlen0. fold len in Hlen0.
  pose proof (byteLength_nonneg padding) as Hpad0.
  set (data := encode_parameters false articlePage submitter).
  assert (Hdata : data = word 0 ++ word 96 ++ W2 ++ WL ++ text ++ padding)
    by reflexivity.
  assert (Hsz : byteLength data = 128 + len + byteLength padding).
  { rewrite Hdata, !byteLength_app, !byteLength_word, CW2, CWL. fold len. lia. }
  unfold Scanner.decodeAttestationData. f_equal.
  destruct (hexlify_word_nonempty 0 (word 96 ++ W2 ++ WL ++ text ++ padding)) as [E1 E2].
  change (word 0 ++ word 96 ++ W2 ++ WL ++ text ++ padding) with data in E1, E2.
  rewrite E1, E2. cbn [orb].
  clearbody data.
  unfold Viem.decodeAbiParameters.
  rewrite hexToBytes_hexlify, size_hex_hexlify. exn_simpl.
  replace (byteLength data =? 0) with false by (symmetry; apply Z.eqb_neq; lia).
  replace (byteLength data <? 32) with false by (symmetry; apply Z.ltb_ge; lia).
  rewrite viem_setPosition by lia. exn_simpl.
  unfold Viem.decodeTuple.
  rewrite (viem_readBytes_at data [] (word 0) (word 96 ++ W2 ++ WL ++ text ++ padding))
    by (rewrite ?byteLength_word; assumption || reflexivity || lia).
  exn_simpl. unfold Viem.bytesToNumber.
  rewrite (Z_of_be_word 0) by (split; [lia|reflexivity]).
  change (0 + 0) with 0.
  cbn [Viem.decodeComponents Scanner.attestationDataSchema Viem.decodeParameter].
  (* isPositive, at the start of the data *)
  rewrite viem_setPosition by lia. exn_simpl.
  unfold Viem.decodeBool.
  rewrite (viem_readBytes_at data [] (word 0) (word 96 ++ W2 ++ WL ++ text ++ padding))
    by (rewrite ?byteLength_word; assumption || reflexivity || lia).
  exn_simpl. rewrite (bytesToBool_word false). exn_simpl.
  (* articlePage *)
  rewrite viem_setPosition by lia. exn_simpl.
  unfold Viem.decodeString.
  rewrite (viem_readBytes_at data (word 0) (word 96) (W2 ++ WL ++ text ++ padding))
    by (rewrite ?byteLength_word; assumption || reflexivity || lia).
  exn_simpl. unfold Viem.bytesToNumber.
  rewrite (Z_of_be_word 96) by (split; [lia|reflexivity]).
  rewrite viem_setPosition by lia. exn_simpl.
  rewrite (viem_readBytes_at data (word 0 ++ word 96 ++ W2) WL (text ++ padding))
    by (rewrite ?Hdata, <- ?app_assoc, ?byteLength_app, ?byteLength_word, ?CW2, ?CWL;
        reflexivity || lia).
  exn_simpl. rewrite !CWLv.
  assert (Hstring :
    (if len =? 0
     then Viem.setPosition {| Viem.bytes := data; Viem.position := 0 + 96 + 32 |} (0 + 32)
          ≫= λ c4 : Viem.Cursor, Ok (Viem.v_string "", c4)
     else Viem.readBytes {| Viem.bytes := data; Viem.position := 0 + 96 + 32 |} len 32
          ≫= λ '(data0, c4),
               Viem.setPosition c4 (0 + 32)
               ≫= λ c5 : Viem.Cursor,
                    Ok (Viem.v_string (Viem.bytesToString (Viem.trim data0)), c5))
    = Ok (Viem.v_string articlePage, {| Viem.bytes := data; Viem.position := 32 |})).
  { destruct (Z.eqb_spec len 0) as [E0|E0].
    - rewrite viem_setPosition by lia. exn_simpl.
      assert (text = []) as Ht by (apply length_zero_iff_nil; unfold len, byteLength in E0; lia).
      now rewrite (bytes_of_string_empty articlePage Ht).
    - rewrite (viem_readBytes_at data (word 0 ++ word 96 ++ W2 ++ WL) text padding)
        by (rewrite ?Hdata, <- ?app_assoc, ?byteLength_app, ?byteLength_word, ?CW2, ?CWL;
            reflexivity || lia).
      exn_simpl. cbn [Viem.bytes Viem.position].
      rewrite viem_setPosition by lia. exn_simpl.
      unfold text. now rewrite bytesToString_plain. }
  rewrite Hstring. exn_simpl.
  (* submitter *)
  rewrite viem_setPosition by lia. exn_simpl.
  unfold Viem.decodeAddress.
  rewrite (viem_readBytes_at data (word 0 ++ word 96) W2 (WL ++ text ++ padding))
    by (rewrite ?Hdata, <- ?app_assoc, ?byteLength_app, ?byteLength_word, ?CW2;
        reflexivity || lia).
  exn_simpl. unfold W2 at 1. rewrite skipn_word, checksumAddress_hexlify.
  rewrite be_of_Z_address by assumption.
  rewrite viem_setPosition by lia. exn_simpl. unfold try_catch.
  reflexivity.
Qed.

(** viem reads the word 1 of a positive payload as the offset of the
    tuple; the boolean it then finds one byte further is not 0 or 1 *)
Lemma Scanner_on_positive_parameters :
  Scanner.decodeAttestationData
    (hexlify (encode_parameters true articlePage submitter))
  = Ok None.
Proof.
  pose proof (byteLength_nonneg text) as Hlen0. fold len in Hlen0.
  pose proof (byteLength_nonneg padding) as Hpad0.
  set (data := encode_parameters true articlePage submitter).
  assert (Hdata : data = word 1 ++ word 96 ++ W2 ++ WL ++ text ++ padding)
    by reflexivity.
  assert (Hsz : byteLength data = 128 + len + byteLength padding).
  { rewrite Hdata, !byteLength_app, !byteLength_word, CW2, CWL. fold len. lia. }
  unfold Scanner.decodeAttestationData. f_equal.
  destruct (hexlify_word_nonempty 1 (word 96 ++ W2 ++ WL ++ text ++ padding)) as [E1 E2].
  change (word 1 ++ word 96 ++ W2 ++ WL ++ text ++ padding) with data in E1, E2.
  rewrite E1, E2. cbn [orb].
  unfold Viem.decodeAbiParameters.
  rewrite hexToBytes_hexlify, size_hex_hexlify. exn_simpl.
  replace (byteLength data =? 0) with false by (symmetry; apply Z.eqb_neq; lia).
  replace (byteLength data <? 32) with false by (symmetry; apply Z.ltb_ge; lia).
  rewrite viem_setPosition by lia. exn_simpl.
  unfold Viem.decodeTuple.
  rewrite (viem_readBytes_at data [] (word 1) (word 96 ++ W2 ++ WL ++ text ++ padding))
    by (rewrite ?byteLength_word; assumption || reflexivity || lia).
  exn_simpl. unfold Viem.bytesToNumber.
  rewrite (Z_of_be_word 1) by (split; [lia|reflexivity]).
  change (0 + 1) with 1.
  cbn [Viem.decodeComponents Scanner.attestationDataSchema Viem.decodeParameter].
  rewrite viem_setPosition by lia. exn_simpl.
  unfold Viem.decodeBool.
  rewrite (viem_readBytes_at data [x00] (skipn 1 (word 1) ++ firstn 1 (word 96))
             (skipn 1 (word 96) ++ W2 ++ WL ++ text ++ padding))
    by (reflexivity || lia).
  reflexivity.
Qed.

(** ethers reads the offset word of the tuple layout as the boolean,
    the zero word of a negative payload as the offset of the string,
    and so takes the 32 zero bytes behind the first word for the text
    and the word 96 for the address *)
Lemma Part0_on_negative_tuple :
  Part0.decodeAttestationData
    (hexlify (encode_tuple false articlePage submitter))
  = Ok (Some {| Part0.isPositive := true;
                Part0.articlePage := nuls 32;
                Part0.submitter := checksum_address (be_of_Z 20 96) |}).
Proof.
  pose proof (byteLength_nonneg text) as Hlen0. fold len in Hlen0.
  set (rest := W2 ++ WL ++ text ++ padding).
  set (data := encode_tuple false articlePage submitter).
  assert (Hdata : data = word 32 ++ word 0 ++ word 96 ++ rest) by reflexivity.
  unfold Part0.decodeAttestationData.
  destruct (hexlify_word_nonempty 32 (word 0 ++ word 96 ++ rest)) as [E1 E2].
  change (word 32 ++ word 0 ++ word 96 ++ rest) with data in E1, E2.
  rewrite E1, E2. cbn [orb]. f_equal.
  clearbody data rest.
  unfold Ethers.defaultAbiCoder_decode. rewrite arrayify_hexlify. exn_simpl.
  unfold Ethers.unpack, Ethers.subReader. cbn [Ethers._data Ethers._offset].
  change (Z.to_nat (0 + 0)) with 0%nat. rewrite skipn_O.
  cbn [Ethers.unpack_from Part0.attestationDataTypes Ethers.dynamic Ethers.coder_decode].
  rewrite !(ethers_readValue_at data [] (word 32) (word 0 ++ word 96 ++ rest))
    by (rewrite ?byteLength_word; auto).
  rewrite (Z_of_be_word 32) by (split; [lia|reflexivity]). exn_simpl.
  change (0 + 32) with 32.
  rewrite (ethers_readValue_at data (word 32) (word 0) (word 96 ++ rest))
    by (rewrite ?byteLength_word; auto).
  rewrite (Z_of_be_word 0) by (split; [lia|reflexivity]). exn_simpl.
  change (Ethers.toNumber 0) with (Ok 0 : exn Z). exn_simpl.
  unfold Ethers.subReader. cbn [Ethers._data Ethers._offset].
  change (Z.to_nat (0 + 0)) with 0%nat. rewrite skipn_O.
  rewrite (ethers_readValue_at data [] (word 32) (word 0 ++ word 96 ++ rest))
    by (rewrite ?byteLength_word; auto).
  rewrite (Z_of_be_word 32) by (split; [lia|reflexivity]). exn_simpl.
  change (Ethers.toNumber 32) with (Ok 32 : exn Z). exn_simpl.
  unfold Ethers.readBytes, Ethers._peekBytes. cbn [Ethers._data Ethers._offset].
  change ((32 + 31) / 32 * 32) with 32.
  assert (Hsz : byteLength data = 96 + byteLength rest).
  { rewrite Hdata, !byteLength_app, !byteLength_word. lia. }
  pose proof (byteLength_nonneg rest) as Hrest0.
  replace (0 + 32 + 32 >? byteLength data) with false
    by (symmetry; rewrite Z.gtb_ltb; apply Z.ltb_ge; lia).
  exn_simpl.
  rewrite (slice_at data (word 32) (word 0) (word 96 ++ rest))
    by (rewrite ?byteLength_word; auto).
  change (firstn (Z.to_nat 32) (word 0)) with (repeat x00 32).
  change (Ethers.toUtf8String (repeat x00 32)) with (Ok (nuls 32) : exn string).
  exn_simpl. change (byteLength (word 0)) with 32. change (0 + 32 + 32) with 64.
  rewrite (ethers_readValue_at data (word 32 ++ word 0) (word 96) rest)
    by (rewrite <- ?app_assoc, ?byteLength_app, ?byteLength_word; auto).
  rewrite (Z_of_be_word 96) by (split; [lia|reflexivity]). exn_simpl.
  change (Ethers.hexZeroPad20 96) with (Ok (hexlify (be_of_Z 20 96)) : exn string).
  exn_simpl. rewrite getAddress_hexlify_20 by reflexivity.
  reflexivity.
Qed.

(** with the word 1 of a positive payload as the offset of the string,
    ethers finds the length 8192 one byte into the data, which is more
    than a payload with a text of less than 8000 bytes holds *)
Lemma Part0_on_positive_tuple :
  byteLength (bytes_of_string articlePage) < 8000 ->
  Part0.decodeAttestationData
    (hexlify (encode_tuple true articlePage submitter))
  = Ok None.
Proof.
  intros Hshort. fold text len in Hshort.
  pose proof (byteLength_nonneg text) as Hlen0. fold len in Hlen0.
  set (rest := W2 ++ WL ++ text ++ padding).
  set (data := encode_tuple true articlePage submitter).
  assert (Hdata : data = word 32 ++ word 1 ++ word 96 ++ rest) by reflexivity.
  assert (Hrest : byteLength rest < 8100).
  { unfold rest. rewrite !byteLength_app, CW2, CWL.
    pose proof (byteLength_pad32 text) as Hp. unfold pad32 in Hp. fold len padding in Hp.
    rewrite byteLength_app in Hp. fold len in Hp.
    assert ((len + 31) / 32 * 32 <= len + 31).
    { pose proof (Z.mul_div_le (len + 31) 32). lia. }
    lia. }
  unfold Part0.decodeAttestationData.
  destruct (hexlify_word_nonempty 32 (word 1 ++ word 96 ++ rest)) as [E1 E2].
  change (word 32 ++ word 1 ++ word 96 ++ rest) with data in E1, E2.
  rewrite E1, E2. cbn [orb]. f_equal.
  clearbody data rest.
  assert (Hsz : byteLength data = 96 + byteLength rest).
  { rewrite Hdata, !byteLength_app, !byteLength_word. lia. }
  pose proof (byteLength_nonneg rest) as Hrest0.
  unfold Ethers.defaultAbiCoder_decode. rewrite arrayify_hexlify. exn_simpl.
  unfold Ethers.unpack, Ethers.subReader. cbn [Ethers._data Ethers._offset].
  change (Z.to_nat (0 + 0)) with 0%nat. rewrite skipn_O.
  cbn [Ethers.unpack_from Part0.attestationDataTypes Ethers.dynamic Ethers.coder_decode].
  rewrite (ethers_readValue_at data [] (word 32) (word 1 ++ word 96 ++ rest))
    by (rewrite ?byteLength_word; auto).
  rewrite (Z_of_be_word 32) by (split; [lia|reflexivity]). exn_simpl.
  change (0 + 32) with 32.
  rewrite (ethers_readValue_at data (word 32) (word 1) (word 96 ++ rest))
    by (rewrite ?byteLength_word; auto).
  rewrite (Z_of_be_word 1) by (split; [lia|reflexivity]). exn_simpl.
  change (Ethers.toNumber 1) with (Ok 1 : exn Z). exn_simpl.
  unfold Ethers.subReader. cbn [Ethers._data Ethers._offset].
  change (Z.to_nat (0 + 1)) with 1%nat.
  rewrite (ethers_readValue_at (skipn 1 data) []
             (skipn 1 (word 32) ++ firstn 1 (word 1))
             (skipn 1 (word 1) ++ word 96 ++ rest))
    by (rewrite ?Hdata; reflexivity).
  change (Z_of_be (skipn 1 (word 32) ++ firstn 1 (word 1))) with 8192. exn_simpl.
  change (Ethers.toNumber 8192) with (Ok 8192 : exn Z). exn_simpl.
  rewrite ethers_readBytes_throw; [reflexivity|].
  cbn [Ethers._data Ethers._offset].
  replace (byteLength (skipn 1 data)) with (byteLength data - 1); [lia|].
  symmetry. apply (byteLength_skipn data 1). lia.
Qed.

End Crossed.

(** X6.  The Payload Decoder of [attestation-scanner.js] on the layout
    that [part_000] decodes (three parameters, no offset word in
    front).  A negative payload is returned as it is, because its zero
    boolean word also reads as the offset of the tuple; a positive
    payload gives [null]. *)
Theorem X6_tuple_decoder_on_parameter_layout (articlePage : string)
    (submitter : list byte) :
  plain_text articlePage = true ->
  byteLength (bytes_of_string articlePage) < 2 ^ 53 ->
  length submitter = 20%nat ->
  Scanner.decodeAttestationData
    (hexlify (encode_parameters false articlePage submitter))
  = Ok (Some {| Scanner.isPositive := false;
                Scanner.articlePage := articlePage;
                Scanner.submitter := checksum_address submitter |})
  /\ Scanner.decodeAttestationData
       (hexlify (encode_parameters true articlePage submitter))
     = Ok None.
Proof.
  intros Hplain Hsize Hsub.
  split; [now apply Scanner_on_negative_parameters
         |now apply Scanner_on_positive_parameters].
Qed.

Lemma X6_witness :
  Scanner.decodeAttestationData (hexlify (encode_parameters false "page-3" address_aa))
  = Ok (Some {| Scanner.isPositive := false;
                Scanner.articlePage := "page-3";
                Scanner.submitter := checksum_address address_aa |}).
Proof.
  exact (proj1 (X6_tuple_decoder_on_parameter_layout "page-3" address_aa
                  eq_refl eq_refl eq_refl)).
Defined.

(** X7.  The Payload Decoder of [part_000] on the layout that
    [attestation-scanner.js] decodes (one tuple, its offset word in
    front), for a text of less than 8000 bytes.  A negative payload
    gives a record that is not the payload: [isPositive] true, 32 NUL
    characters as text, and the address 0x00...60.  A positive payload
    gives [null]. *)
Theorem X7_parameter_decoder_on_tuple_layout (articlePage : string)
    (submitter : list byte) :
  byteLength (bytes_of_string articlePage) < 8000 ->
  length submitter = 20%nat ->
  Part0.decodeAttestationData
    (hexlify (encode_tuple false articlePage submitter))
  = Ok (Some {| Part0.isPositive := true;
                Part0.articlePage := nuls 32;
                Part0.submitter := checksum_address (be_of_Z 20 96) |})
  /\ Part0.decodeAttestationData
       (hexlify (encode_tuple true articlePage submitter))
     = Ok None.
Proof.
  intros Hshort Hsub.
  assert (Hsize : byteLength (bytes_of_string articlePage) < 2 ^ 53)
    by (apply Z.lt_trans with 8000; [exact Hshort|reflexivity]).
  split; [now apply Part0_on_negative_tuple|now apply Part0_on_positive_tuple].
Qed.

Lemma X7_witness :
  Part0.decodeAttestationData (hexlify (encode_tuple true "page-3" address_aa))
  = Ok None.
Proof.
  exact (proj2 (X7_parameter_decoder_on_tuple_layout "page-3" address_aa
                  eq_refl eq_refl)).
Defined.

(** * Further properties of the pipeline *)

(** ** A transaction that passes every gate *)

(** X8.  [decodeAttestation] of [attestation-scanner.js] on a
    transaction that is a call to the contract, whose payload is the
    tuple layout of [(isPositive, articlePage, submitter)] with plain
    text and whose subject has 20 bytes, at a valid time of the clock:
    it returns normally, after the lookup and the decoding of the call
    it appends one entry to the structured artifact and then one row to
    the tabular artifact, and the record holds the hash, the block
    number, the schema id, the checksummed subject, the three decoded
    members and the ISO text of the clock reading. *)
Theorem X8_scanner_persists_decoded_record (env : Env) (tx : ExplorerItem)
    (t : Transaction) (p : AttestationPayload) (blockNumber : Z) (w : World)
    (isPositive : bool) (articlePage : string) (submitter subject : list byte)
    (iso : string) :
  carries env tx t p ->
  payload_attestationData p = hexlify (encode_tuple isPositive articlePage submitter) ->
  plain_text articlePage = true ->
  byteLength (bytes_of_string articlePage) < 2 ^ 53 ->
  length submitter = 20%nat ->
  payload_subject p = hexlify subject ->
  length subject = 20%nat ->
  JSDate.toISOString (clock env (clock_reads w)) = Ok iso ->
  let a := {| Scanner.txHash := item_hash tx;
              Scanner.blockNumber := blockNumber;
              Scanner.schemaId := payload_schemaId p;
              Scanner.subject := checksum_address subject;
              Scanner.att_isPositive := isPositive;
              Scanner.att_articlePage := articlePage;
              Scanner.att_submitter := checksum_address submitter;
              Scanner.timestamp := iso |} in
  let entry := JSON.stringify (Scanner.to_object a) +:+ str newline in
  let row := Scanner.csvRow a +:+ str newline in
  exists w',
    Scanner.decodeAttestation env (item_hash tx) blockNumber w = (w', Ok tt)
    /\ trace w'
       = trace w ++ [ev_getTransaction (item_hash tx); ev_parseTransaction (tx_data t);
                     ev_appendFileSync Scanner.JSON_FILE entry;
                     ev_appendFileSync Scanner.CSV_FILE row]
    /\ file_content w' Scanner.JSON_FILE = file_content w Scanner.JSON_FILE +:+ entry
    /\ file_content w' Scanner.CSV_FILE = file_content w Scanner.CSV_FILE +:+ row.
Proof.
  intros Hc Hdata Hplain Hsize Hsub Hsubject Hsubj Hiso a entry row.
  rewrite (Scanner_decodeAttestation_carries env tx t p blockNumber w Hc).
  unfold Scanner.assemble. rewrite Hdata, Scanner_roundtrip by assumption.
  rewrite Hsubject.
  M_unfold. rewrite getAddress_hexlify_20 by assumption.
  unfold new_Date. cbn [after_events clock_reads]. rewrite Hiso.
  cbn [Scanner.isPositive Scanner.articlePage Scanner.submitter].
  fold a.
  unfold Scanner.saveToCSV, Scanner.saveToJSON. fold entry row.
  set (w1 := {| files := files w;
                trace := trace w ++ [ev_getTransaction (item_hash tx);
                                     ev_parseTransaction (tx_data t)];
                clock_reads := S (clock_reads w) |}).
  exists (appendFileSync Scanner.CSV_FILE row
            (appendFileSync Scanner.JSON_FILE entry w1).1).1.
  split; [reflexivity|].
  split; [|split].
  - cbn [appendFileSync trace fst w1]. now rewrite <- !app_assoc.
  - rewrite file_content_append_ne
      by (intros E; apply files_differ_Scanner; now symmetry).
    rewrite file_content_append_eq. reflexivity.
  - rewrite file_content_append_eq.
    rewrite file_content_append_ne by apply files_differ_Scanner.
    reflexivity.
Qed.

Lemma X8_witness :
  let p := sample_payload (hexlify sample_address)
             (hexlify (encode_tuple true "page-3" address_aa)) in
  exists w',
    Scanner.decodeAttestation (sample_env "1" p) "0x01" 100 empty_world = (w', Ok tt)
    /\ file_content w' Scanner.CSV_FILE
       = "" +:+ (Scanner.csvRow (Scanner_sample_record "page-3") +:+ str newline).
Proof.
  cbn zeta.
  destruct (X8_scanner_persists_decoded_record
              (sample_env "1" (sample_payload (hexlify sample_address)
                                 (hexlify (encode_tuple true "page-3" address_aa))))
              sample_item
              {| tx_to := Some sample_contract; tx_data := "0x12345678" |}
              (sample_payload (hexlify sample_address)
                 (hexlify (encode_tuple true "page-3" address_aa)))
              100 empty_world true "page-3" address_aa sample_address
              "2023-11-14T22:13:20.000Z"
              (sample_carries "1" _ _ sample_item eq_refl)
              eq_refl eq_refl eq_refl eq_refl eq_refl eq_refl eq_refl)
    as (w' & Hrun & _ & _ & Hcsv).
  exists w'. split; [exact Hrun|exact Hcsv].
Defined.

(** X9.  [decodeAttestation] of [part_000] on a transaction that is a
    call to the contract, whose payload is the parameter layout of
    [(isPositive, articlePage, submitter)] with plain text and whose
    subject has 20 or 32 bytes, in a block that the provider knows and
    whose timestamp is a valid date: it returns normally, after the
    lookups it appends one entry to the structured artifact and then
    one row to the tabular artifact, and the record holds the hash, the
    block number, the checksummed submitter as [from], the ISO text of
    the block time, the text, and 1 and 0 (or 0 and 1) as the two
    feedback counters. *)
Theorem X9_part0_persists_decoded_record (env : Env) (tx : ExplorerItem)
    (t : Transaction) (p : AttestationPayload) (blockNumber : Z) (w : World)
    (isPositive : bool) (articlePage : string) (submitter subject : list byte)
    (block : Block) (iso : string) :
  carries env tx t p ->
  payload_attestationData p
  = hexlify (encode_parameters isPositive articlePage submitter) ->
  plain_text articlePage = true ->
  byteLength (bytes_of_string articlePage) < 2 ^ 53 ->
  length submitter = 20%nat ->
  payload_subject p = hexlify subject ->
  length subject = 20%nat \/ length subject = 32%nat ->
  provider_getBlock env blockNumber = Ok (Some block) ->
  JSDate.toISOString (block_timestamp block * 1000) = Ok iso ->
  let a := {| Part0.txHash := item_hash tx;
              Part0.blockNumber := blockNumber;
              Part0.from := checksum_address submitter;
              Part0.timestamp := iso;
              Part0.att_articlePage := articlePage;
              Part0.positiveFeedback := if isPositive then 1 else 0;
              Part0.negativeFeedback := if isPositive then 0 else 1 |} in
  let entry := JSON.stringify (Part0.to_object a) +:+ str newline in
  let row := Part0.csvRow a +:+ str newline in
  exists w',
    Part0.decodeAttestation env (item_hash tx) blockNumber w = (w', Ok tt)
    /\ trace w'
       = trace w ++ [ev_getTransaction (item_hash tx); ev_parseTransaction (tx_data t);
                     ev_getBlock blockNumber;
                     ev_appendFileSync Part0.JSON_FILE entry;
                     ev_appendFileSync Part0.CSV_FILE row]
    /\ file_content w' Part0.JSON_FILE = file_content w Part0.JSON_FILE +:+ entry
    /\ file_content w' Part0.CSV_FILE = file_content w Part0.CSV_FILE +:+ row.
Proof.
  intros Hc Hdata Hplain Hsize Hsub Hsubject Hsubj Hblock Hiso a entry row.
  rewrite (Part0_decodeAttestation_carries env tx t p blockNumber w Hc).
  unfold Part0.assemble. rewrite Hdata, Part0_roundtrip by assumption.
  rewrite Hsubject.
  assert (Hs : exists s, Part0.parseSubjectAsAddress (hexlify subject) = Ok s).
  { destruct Hsubj as [H|H];
      [rewrite parseSubjectAsAddress_20|rewrite parseSubjectAsAddress_32]; eauto. }
  destruct Hs as [s ->].
  M_unfold. rewrite Hblock, Hiso.
  cbn [Part0.isPositive Part0.articlePage Part0.submitter].
  fold a.
  unfold Part0.saveToCSV, Part0.saveToJSON. fold entry row.
  set (w1 := {| files := files w;
                trace := trace w ++ [ev_getTransaction (item_hash tx);
                                     ev_parseTransaction (tx_data t);
                                     ev_getBlock blockNumber];
                clock_reads := clock_reads w |}).
  exists (appendFileSync Part0.CSV_FILE row
            (appendFileSync Part0.JSON_FILE entry w1).1).1.
  split.
  { cbn [after_events trace files clock_reads]. rewrite <- app_assoc. reflexivity. }
  split; [|split].
  - cbn [appendFileSync trace fst w1]. now rewrite <- !app_assoc.
  - rewrite file_content_append_ne
      by (intros E; apply files_differ_Part0; now symmetry).
    rewrite file_content_append_eq. reflexivity.
  - rewrite file_content_append_eq.
    rewrite file_content_append_ne by apply files_differ_Part0.
    reflexivity.
Qed.

Lemma X9_witness :
  let p := sample_payload (hexlify (repeat x00 12 ++ sample_address))
             (hexlify (encode_parameters true "page-3" address_aa)) in
  exists w',
    Part0.decodeAttestation (sample_env "1" p) "0x01" 100 empty_world = (w', Ok tt)
    /\ file_content w' Part0.CSV_FILE
       = "" +:+ (Part0.csvRow (Part0_sample_record "page-3") +:+ str newline).
Proof.
  cbn zeta.
  destruct (X9_part0_persists_decoded_record
              (sample_env "1" (sample_payload (hexlify (repeat x00 12 ++ sample_address))
                                 (hexlify (encode_parameters true "page-3" address_aa))))
              sample_item
              {| tx_to := Some sample_contract; tx_data := "0x12345678" |}
              (sample_payload (hexlify (repeat x00 12 ++ sample_address))
                 (hexlify (encode_parameters true "page-3" address_aa)))
              100 empty_world true "page-3" address_aa
              (repeat x00 12 ++ sample_address)
              {| block_timestamp := 1600000000 |}
              "2020-09-13T12:26:40.000Z"
              (sample_carries "1" _ _ sample_item eq_refl)
              eq_refl eq_refl eq_refl eq_refl eq_refl (or_intror eq_refl) eq_refl eq_refl)
    as (w' & Hrun & _ & _ & Hcsv).
  exists w'. split; [exact Hrun|exact Hcsv].
Defined.

(** ** What one call of [decodeAttestation] can do to the files *)

Lemma Scanner_decodeAttestation_outcome (env : Env) (h : string) (bn : Z) (w : World) :
  exists w',
    Scanner.decodeAttestation env h bn w = (w', Ok tt)
    /\ (files w' = files w
        \/ exists t decoded d subject' iso,
             provider_getTransaction env h = Ok (Some t)
             /\ Scanner.to_differs env (tx_to t) = false
             /\ tx_data t <> "" /\ tx_data t <> "0x"
             /\ interface_parseTransaction env (tx_data t) = Ok (Some decoded)
             /\ Scanner.decodeAttestationData
                  (payload_attestationData (args_attestationPayload decoded))
                = Ok (Some d)
             /\ Ethers.getAddress (payload_subject (args_attestationPayload decoded))
                = Ok subject'
             /\ JSDate.toISOString (clock env (clock_reads w)) = Ok iso
             /\ let a := {| Scanner.txHash := h;
                            Scanner.blockNumber := bn;
                            Scanner.schemaId :=
                              payload_schemaId (args_attestationPayload decoded);
                            Scanner.subject := subject';
                            Scanner.att_isPositive := Scanner.isPositive d;
                            Scanner.att_articlePage := Scanner.articlePage d;
                            Scanner.att_submitter := Scanner.submitter d;
                            Scanner.timestamp := iso |} in
                files w' = files (Scanner.saveToCSV a (Scanner.saveToJSON a w).1).1).
Proof.
  unfold Scanner.decodeAttestation, Scanner.assemble. M_unfold.
  cbn [trace files clock_reads].
  destruct (provider_getTransaction env h) as [[t|]|e] eqn:Et;
    try (eexists; split; [reflexivity|left; reflexivity]).
  destruct (Scanner.to_differs env (tx_to t)) eqn:Eto;
    try (eexists; split; [reflexivity|left; reflexivity]).
  destruct (String.eqb (tx_data t) "") eqn:Ed1; cbn [orb];
    try (eexists; split; [reflexivity|left; reflexivity]).
  destruct (String.eqb (tx_data t) "0x") eqn:Ed2;
    try (eexists; split; [reflexivity|left; reflexivity]).
  cbn [trace files clock_reads].
  destruct (interface_parseTransaction env (tx_data t)) as [[decoded|]|e] eqn:Ep;
    try (eexists; split; [reflexivity|left; reflexivity]).
  destruct (Scanner.decodeAttestationData _) as [[d|]|e] eqn:Edec;
    try (eexists; split; [reflexivity|left; reflexivity]).
  destruct (Ethers.getAddress _) as [subject'|e] eqn:Esub;
    try (eexists; split; [reflexivity|left; reflexivity]).
  unfold new_Date. cbn [trace files clock_reads].
  destruct (JSDate.toISOString _) as [iso|e] eqn:Eiso;
    try (eexists; split; [reflexivity|left; reflexivity]).
  eexists; split; [reflexivity|right].
  exists t, decoded, d, subject', iso.
  repeat (split; [first [reflexivity | assumption | now apply String.eqb_neq]|]).
  reflexivity.
Qed.

Lemma Part0_decodeAttestation_outcome (env : Env) (h : string) (bn : Z) (w : World) :
  exists w',
    Part0.decodeAttestation env h bn w = (w', Ok tt)
    /\ (files w' = files w
        \/ exists t decoded d subject' block iso,
             provider_getTransaction env h = Ok (Some t)
             /\ Part0.to_differs env (tx_to t) = false
             /\ tx_data t <> "" /\ tx_data t <> "0x"
             /\ interface_parseTransaction env (tx_data t) = Ok (Some decoded)
             /\ Part0.decodeAttestationData
                  (payload_attestationData (args_attestationPayload decoded))
                = Ok (Some d)
             /\ Part0.parseSubjectAsAddress
                  (payload_subject (args_attestationPayload decoded))
                = Ok subject'
             /\ provider_getBlock env bn = Ok (Some block)
             /\ JSDate.toISOString (block_timestamp block * 1000) = Ok iso
             /\ let a := {| Part0.txHash := h;
                            Part0.blockNumber := bn;
                            Part0.from := Part0.submitter d;
                            Part0.timestamp := iso;
                            Part0.att_articlePage := Part0.articlePage d;
                            Part0.positiveFeedback :=
                              if Part0.isPositive d then 1 else 0;
                            Part0.negativeFeedback :=
                              if Part0.isPositive d then 0 else 1 |} in
                files w' = files (Part0.saveToCSV a (Part0.saveToJSON a w).1).1).
Proof.
  unfold Part0.decodeAttestation, Part0.assemble. M_unfold.
  cbn [trace files clock_reads].
  destruct (provider_getTransaction env h) as [[t|]|e] eqn:Et;
    try (eexists; split; [reflexivity|left; reflexivity]).
  destruct (Part0.to_differs env (tx_to t)) eqn:Eto;
    try (eexists; split; [reflexivity|left; reflexivity]).
  destruct (String.eqb (tx_data t) "") eqn:Ed1; cbn [orb];
    try (eexists; split; [reflexivity|left; reflexivity]).
  destruct (String.eqb (tx_data t) "0x") eqn:Ed2;
    try (eexists; split; [reflexivity|left; reflexivity]).
  cbn [trace files clock_reads].
  destruct (interface_parseTransaction env (tx_data t)) as [[decoded|]|e] eqn:Ep;
    try (eexists; split; [reflexivity|left; reflexivity]).
  destruct (Part0.decodeAttestationData _) as [[d|]|e] eqn:Edec;
    try (eexists; split; [reflexivity|left; reflexivity]).
  destruct (Part0.parseSubjectAsAddress _) as [subject'|e] eqn:Esub;
    try (eexists; split; [reflexivity|left; reflexivity]).
  cbn [trace files clock_reads].
  destruct (provider_getBlock env bn) as [[block|]|e] eqn:Eb;
    try (eexists; split; [reflexivity|left; reflexivity]).
  destruct (JSDate.toISOString _) as [iso|e] eqn:Eiso;
    try (eexists; split; [reflexivity|left; reflexivity]).
  eexists; split; [reflexivity|right].
  exists t, decoded, d, subject', block, iso.
  repeat (split; [first [reflexivity | assumption | now apply String.eqb_neq]|]).
  reflexivity.
Qed.

(** X10.  One call of [decodeAttestation] changes a file only if the
    transaction passed every gate: the provider returned it, its [to]
    is the contract, it has call data, the call decoded, the Payload
    Decoder returned a payload, the subject is an address, and the time
    is a valid date (in [part_000] also: the provider returned the
    block).  In every other case, errors of the provider and of the
    decoders included, the files are as they were. *)
Theorem X10_files_change_only_through_every_gate (env : Env) (txHash : string)
    (blockNumber : Z) (w : World) :
  (files (Scanner.decodeAttestation env txHash blockNumber w).1 <> files w ->
   exists t decoded d subject' iso,
     provider_getTransaction env txHash = Ok (Some t)
     /\ Scanner.to_differs env (tx_to t) = false
     /\ tx_data t <> "" /\ tx_data t <> "0x"
     /\ interface_parseTransaction env (tx_data t) = Ok (Some decoded)
     /\ Scanner.decodeAttestationData
          (payload_attestationData (args_attestationPayload decoded)) = Ok (Some d)
     /\ Ethers.getAddress (payload_subject (args_attestationPayload decoded))
        = Ok subject'
     /\ JSDate.toISOString (clock env (clock_reads w)) = Ok iso)
  /\ (files (Part0.decodeAttestation env txHash blockNumber w).1 <> files w ->
      exists t decoded d subject' block iso,
        provider_getTransaction env txHash = Ok (Some t)
        /\ Part0.to_differs env (tx_to t) = false
        /\ tx_data t <> "" /\ tx_data t <> "0x"
        /\ interface_parseTransaction env (tx_data t) = Ok (Some decoded)
        /\ Part0.decodeAttestationData
             (payload_attestationData (args_attestationPayload decoded)) = Ok (Some d)
        /\ Part0.parseSubjectAsAddress
             (payload_subject (args_attestationPayload decoded)) = Ok subject'
        /\ provider_getBlock env blockNumber = Ok (Some block)
        /\ JSDate.toISOString (block_timestamp block * 1000) = Ok iso).
Proof.
  split; intros Hne.
  - destruct (Scanner_decodeAttestation_outcome env txHash blockNumber w)
      as (w' & Hrun & [Hsame|Hrec]).
    + rewrite Hrun in Hne. contradiction.
    + destruct Hrec as (t & decoded & d & subject' & iso & H).
      exists t, decoded, d, subject', iso. tauto.
  - destruct (Part0_decodeAttestation_outcome env txHash blockNumber w)
      as (w' & Hrun & [Hsame|Hrec]).
    + rewrite Hrun in Hne. contradiction.
    + destruct Hrec as (t & decoded & d & subject' & block & iso & H).
      exists t, decoded, d, subject', block, iso. tauto.
Qed.

Lemma X10_witness :
  let p := sample_payload (hexlify sample_address)
             (hexlify (encode_tuple true "page-3" address_aa)) in
  exists d,
    Scanner.decodeAttestationData (payload_attestationData p) = Ok (Some d).
Proof.
  cbn zeta.
  destruct (proj1 (X10_files_change_only_through_every_gate
                     (sample_env "1" (sample_payload (hexlify sample_address)
                        (hexlify (encode_tuple true "page-3" address_aa))))
                     "0x01" 100 empty_world))
    as (t & decoded & d & subject' & iso & _ & _ & _ & _ & Hp & Hd & _).
  - intros E.
    apply (f_equal (fun m : gmap string string => m !! Scanner.JSON_FILE)) in E.
    vm_compute in E. discriminate E.
  - injection Hp as <-. exists d. exact Hd.
Defined.

(** ** The two artifacts hold the same records *)

Lemma file_content_files (w1 w2 : World) (path : string) :
  files w1 = files w2 -> file_content w1 path = file_content w2 path.
Proof. intros H. unfold file_content. now rewrite H. Qed.

Lemma appendFileSync_files (path data : string) (w1 w2 : World) :
  files w1 = files w2 ->
  files (appendFileSync path data w1).1 = files (appendFileSync path data w2).1.
Proof.
  intros H. unfold appendFileSync, file_content. cbn [fst files]. now rewrite H.
Qed.

Lemma Scanner_append_all_files (recs : list Scanner.Attestation) (w1 w2 : World) :
  files w1 = files w2 ->
  files (Scanner.append_all recs w1).1 = files (Scanner.append_all recs w2).1.
Proof.
  revert w1 w2. induction recs as [|a recs IH]; intros w1 w2 H; [exact H|].
  rewrite !Scanner_append_all_cons. apply IH.
  unfold Scanner.saveToCSV, Scanner.saveToJSON. now do 2 apply appendFileSync_files.
Qed.

Lemma Part0_append_all_files (recs : list Part0.Attestation) (w1 w2 : World) :
  files w1 = files w2 ->
  files (Part0.append_all recs w1).1 = files (Part0.append_all recs w2).1.
Proof.
  revert w1 w2. induction recs as [|a recs IH]; intros w1 w2 H; [exact H|].
  rewrite !Part0_append_all_cons. apply IH.
  unfold Part0.saveToCSV, Part0.saveToJSON. now do 2 apply appendFileSync_files.
Qed.

Lemma Scanner_process_files (env : Env) (items : list ExplorerItem) (w : World) :
  exists recs,
    files (Scanner.process env items w).1 = files (Scanner.append_all recs w).1
    /\ (length recs
        <= length (List.filter (fun tx => String.eqb (toLowerCase (item_to tx))
                                       (Scanner.CONTRACT_ADDRESS env)) items))%nat.
Proof.
  revert w. induction items as [|tx rest IH]; intros w.
  { exists []. split; [reflexivity|cbn; lia]. }
  destruct (Scanner_process_cons env tx rest w) as (w' & Hstep & ->).
  destruct (IH w') as (recs & Hrecs & Hlen). rewrite Hrecs.
  cbn [List.filter]. destruct (String.eqb _ _).
  - destruct (Scanner_decodeAttestation_outcome env (item_hash tx) (item_blockNumber tx) w)
      as (w'' & Hrun & Hout).
    rewrite Hrun in Hstep. injection Hstep as <-.
    destruct Hout as [Hsame|(t & decoded & d & subject' & iso & H)].
    + exists recs. split; [now apply Scanner_append_all_files|cbn [length]; lia].
    + destruct H as (_ & _ & _ & _ & _ & _ & _ & _ & H). cbn zeta in H.
      eexists (_ :: recs). split; [|cbn [length]; lia].
      rewrite Scanner_append_all_cons.
      apply Scanner_append_all_files. exact H.
  - injection Hstep as <-. now exists recs.
Qed.

Lemma Part0_process_files (env : Env) (items : list ExplorerItem) (w : World) :
  exists recs,
    files (Part0.process env items w).1 = files (Part0.append_all recs w).1
    /\ (length recs
        <= length (List.filter (fun tx => String.eqb (toLowerCase (item_to tx))
                                       (Part0.CONTRACT_ADDRESS env)) items))%nat.
Proof.
  revert w. induction items as [|tx rest IH]; intros w.
  { exists []. split; [reflexivity|cbn; lia]. }
  destruct (Part0_process_cons env tx rest w) as (w' & Hstep & ->).
  destruct (IH w') as (recs & Hrecs & Hlen). rewrite Hrecs.
  cbn [List.filter]. destruct (String.eqb _ _).
  - destruct (Part0_decodeAttestation_outcome env (item_hash tx) (item_blockNumber tx) w)
      as (w'' & Hrun & Hout).
    rewrite Hrun in Hstep. injection Hstep as <-.
    destruct Hout as [Hsame|(t & decoded & d & subject' & block & iso & H)].
    + exists recs. split; [now apply Part0_append_all_files|cbn [length]; lia].
    + destruct H as (_ & _ & _ & _ & _ & _ & _ & _ & _ & H). cbn zeta in H.
      eexists (_ :: recs). split; [|cbn [length]; lia].
      rewrite Part0_append_all_cons.
      apply Part0_append_all_files. exact H.
  - injection Hstep as <-. now exists recs.
Qed.

Lemma Scanner_fetch_files (env : Env) (w : World) :
  exists recs,
    files (Scanner.fetchTransactionsFromExplorer env w).1
    = files (Scanner.append_all recs w).1
    /\ forall response,
         axios_get env = Ok response ->
         (length recs
          <= length (List.filter (fun tx => String.eqb (toLowerCase (item_to tx))
                                         (Scanner.CONTRACT_ADDRESS env))
                       (response_result response)))%nat.
Proof.
  unfold Scanner.fetchTransactionsFromExplorer. M_unfold.
  destruct (axios_get env) as [response|e];
    [|exists []; split; [reflexivity|discriminate]].
  destruct (negb _);
    [exists []; split; [reflexivity|intros ? _; cbn [length]; lia]|].
  destruct (Scanner_process_files env (response_result response)
              {| files := files w; trace := trace w ++ [ev_axios_get];
                 clock_reads := clock_reads w |}) as (recs & H & Hlen).
  destruct (Scanner_process_returns env (response_result response)
              {| files := files w; trace := trace w ++ [ev_axios_get];
                 clock_reads := clock_reads w |}) as [w' E].
  rewrite E in *. exists recs. split.
  - rewrite H. now apply Scanner_append_all_files.
  - now intros ? [= <-].
Qed.

Lemma Part0_fetch_files (env : Env) (w : World) :
  exists recs,
    files (Part0.fetchTransactionsFromExplorer env w).1
    = files (Part0.append_all recs w).1
    /\ forall response,
         axios_get env = Ok response ->
         (length recs
          <= length (List.filter (fun tx => String.eqb (toLowerCase (item_to tx))
                                         (Part0.CONTRACT_ADDRESS env))
                       (response_result response)))%nat.
Proof.
  unfold Part0.fetchTransactionsFromExplorer. M_unfold.
  destruct (axios_get env) as [response|e];
    [|exists []; split; [reflexivity|discriminate]].
  destruct (negb _);
    [exists []; split; [reflexivity|intros ? _; cbn [length]; lia]|].
  destruct (Part0_process_files env (response_result response)
              {| files := files w; trace := trace w ++ [ev_axios_get];
                 clock_reads := clock_reads w |}) as (recs & H & Hlen).
  destruct (Part0_process_returns env (response_result response)
              {| files := files w; trace := trace w ++ [ev_axios_get];
                 clock_reads := clock_reads w |}) as [w' E].
  rewrite E in *. exists recs. split.
  - rewrite H. now apply Part0_append_all_files.
  - now intros ? [= <-].
Qed.

(** X11.  Whatever the explorer, the provider and the decoders do,
    and whatever the files held before: after the startup sequence
    there is a list of records such that the structured artifact is the
    sequence of their entries and the tabular artifact is the header
    row followed by their rows, in the same order.  Neither artifact
    ever holds a record that the other lacks. *)
Theorem X11_artifacts_hold_the_same_records (env : Env) (w : World) :
  (exists recs : list Scanner.Attestation,
     let w' := (Scanner.startup env w).1 in
     file_content w' Scanner.JSON_FILE
     = fold_right (fun a acc =>
                     (JSON.stringify (Scanner.to_object a) +:+ str newline) +:+ acc)
         "" recs
     /\ file_content w' Scanner.CSV_FILE
        = (Scanner.CSV_HEADER +:+ str newline)
          +:+ fold_right (fun a acc => (Scanner.csvRow a +:+ str newline) +:+ acc) "" recs
     /\ entries (file_content w' Scanner.JSON_FILE) = length recs)
  /\ (exists recs : list Part0.Attestation,
        let w' := (Part0.startup env w).1 in
        file_content w' Part0.JSON_FILE
        = fold_right (fun a acc =>
                        (JSON.stringify (Part0.to_object a) +:+ str newline) +:+ acc)
            "" recs
        /\ file_content w' Part0.CSV_FILE
           = (Part0.CSV_HEADER +:+ str newline)
             +:+ fold_right (fun a acc => (Part0.csvRow a +:+ str newline) +:+ acc) "" recs
        /\ entries (file_content w' Part0.JSON_FILE) = length recs).
Proof.
  split.
  - destruct (Scanner_fetch_files env (Scanner.initializeFiles w).1) as (recs & H & _).
    exists recs. cbn zeta. rewrite Scanner_startup_eq.
    assert (Hf : forall path,
               file_content (Scanner.fetchTransactionsFromExplorer env
                               (Scanner.initializeFiles w).1).1 path
               = file_content ((_ ← Scanner.initializeFiles;
                                Scanner.append_all recs) w).1 path)
      by (intros path; apply file_content_files; exact H).
    rewrite !Hf.
    destruct (Scanner_sink_contents recs w) as [Hcsv Hjson].
    split; [exact Hjson|]. split; [exact Hcsv|]. apply Scanner_sink_entries.
  - destruct (Part0_fetch_files env (Part0.initializeFiles w).1) as (recs & H & _).
    exists recs. cbn zeta. rewrite Part0_startup_eq.
    assert (Hf : forall path,
               file_content (Part0.fetchTransactionsFromExplorer env
                               (Part0.initializeFiles w).1).1 path
               = file_content ((_ ← Part0.initializeFiles;
                                Part0.append_all recs) w).1 path)
      by (intros path; apply file_content_files; exact H).
    rewrite !Hf.
    destruct (Part0_sink_contents recs w) as [Hcsv Hjson].
    split; [exact Hjson|]. split; [exact Hcsv|]. apply Part0_sink_entries.
Qed.

(** X12.  After the startup sequence the structured artifact holds at
    most as many entries as the explorer listed transactions sent to
    the contract. *)
Theorem X12_at_most_one_record_per_listed_transaction (env : Env) (w : World)
    (response : Response) :
  axios_get env = Ok response ->
  (entries (file_content (Scanner.startup env w).1 Scanner.JSON_FILE)
   <= length (List.filter (fun tx => String.eqb (toLowerCase (item_to tx))
                                  (toLowerCase (env_CONTRACT_ADDRESS env)))
                (response_result response)))%nat
  /\ (entries (file_content (Part0.startup env w).1 Part0.JSON_FILE)
      <= length (List.filter (fun tx => String.eqb (toLowerCase (item_to tx))
                                     (toLowerCase (env_CONTRACT_ADDRESS env)))
                   (response_result response)))%nat.
Proof.
  intros Hget. split.
  - destruct (Scanner_fetch_files env (Scanner.initializeFiles w).1) as (recs & H & Hlen).
    rewrite Scanner_startup_eq.
    rewrite (file_content_files _ ((_ ← Scanner.initializeFiles;
                                    Scanner.append_all recs) w).1 _ H).
    rewrite Scanner_sink_entries. exact (Hlen response Hget).
  - destruct (Part0_fetch_files env (Part0.initializeFiles w).1) as (recs & H & Hlen).
    rewrite Part0_startup_eq.
    rewrite (file_content_files _ ((_ ← Part0.initializeFiles;
                                    Part0.append_all recs) w).1 _ H).
    rewrite Part0_sink_entries. exact (Hlen response Hget).
Qed.

Lemma X12_witness :
  let p := sample_payload (hexlify sample_address)
             (hexlify (encode_tuple true "page-3" address_aa)) in
  (entries (file_content (Scanner.startup (sample_env "1" p) empty_world).1
              Scanner.JSON_FILE) <= 1)%nat.
Proof.
  cbn zeta.
  exact (proj1 (X12_at_most_one_record_per_listed_transaction
                  (sample_env "1" (sample_payload (hexlify sample_address)
                     (hexlify (encode_tuple true "page-3" address_aa))))
                  empty_world
                  {| response_status := "1"; response_message := "OK";
                     response_result := [sample_item; other_item] |} eq_refl)).
Defined.

(** ** A failing explorer *)

(** X13.  When the query to the explorer throws, the startup sequence
    still returns normally: the error is caught, the query is the only
    event after initialisation, the structured artifact is empty and
    the tabular artifact holds the header row alone. *)
Theorem X13_explorer_failure_leaves_fresh_sink (env : Env) (w : World) (e : string) :
  axios_get env = Throw e ->
  (let w' := (Scanner.startup env w).1 in
   Scanner.startup env w = (w', Ok tt)
   /\ file_content w' Scanner.JSON_FILE = ""
   /\ rows (file_content w' Scanner.CSV_FILE) = [Scanner.CSV_HEADER]
   /\ trace w' = trace (Scanner.initializeFiles w).1 ++ [ev_axios_get])
  /\ (let w' := (Part0.startup env w).1 in
      Part0.startup env w = (w', Ok tt)
      /\ file_content w' Part0.JSON_FILE = ""
      /\ rows (file_content w' Part0.CSV_FILE) = [Part0.CSV_HEADER]
      /\ trace w' = trace (Part0.initializeFiles w).1 ++ [ev_axios_get]).
Proof.
  intros He. split; cbn zeta.
  - assert (Hrun : Scanner.startup env w
                   = (after_events (Scanner.initializeFiles w).1 [ev_axios_get], Ok tt)).
    { rewrite Scanner_startup_eq. unfold Scanner.fetchTransactionsFromExplorer.
      M_unfold. now rewrite He. }
    rewrite Hrun. cbn [fst]. split; [reflexivity|].
    destruct (Scanner_sink_contents [] w) as [Hcsv Hjson].
    cbn [fold_right] in Hcsv, Hjson. rewrite string_app_empty_r in Hcsv.
    split; [exact Hjson|]. split; [|reflexivity].
    replace (file_content _ Scanner.CSV_FILE)
      with (Scanner.CSV_HEADER +:+ str newline) by (symmetry; exact Hcsv).
    now apply rows_header.
  - assert (Hrun : Part0.startup env w
                   = (after_events (Part0.initializeFiles w).1 [ev_axios_get], Ok tt)).
    { rewrite Part0_startup_eq. unfold Part0.fetchTransactionsFromExplorer.
      M_unfold. now rewrite He. }
    rewrite Hrun. cbn [fst]. split; [reflexivity|].
    destruct (Part0_sink_contents [] w) as [Hcsv Hjson].
    cbn [fold_right] in Hcsv, Hjson. rewrite string_app_empty_r in Hcsv.
    split; [exact Hjson|]. split; [|reflexivity].
    replace (file_content _ Part0.CSV_FILE)
      with (Part0.CSV_HEADER +:+ str newline) by (symmetry; exact Hcsv).
    now apply rows_header.
Qed.

Lemma X13_witness :
  let w' := (Scanner.startup failing_env empty_world).1 in
  file_content w' Scanner.JSON_FILE = ""
  /\ rows (file_content w' Scanner.CSV_FILE) = [Scanner.CSV_HEADER].
Proof.
  cbn zeta.
  destruct (proj1 (X13_explorer_failure_leaves_fresh_sink failing_env empty_world
                     "Network Error" eq_refl)) as (_ & Hjson & Hcsv & _).
  split; [exact Hjson|exact Hcsv].
Defined.

(** ** The subject in [part_000] *)

Lemma parseSubjectAsAddress_other (bs : list byte) :
  length bs <> 20%nat -> length bs <> 32%nat ->
  Part0.parseSubjectAsAddress (hexlify bs) = Throw "invalid address".
Proof.
  intros H20 H32. unfold Part0.parseSubjectAsAddress. rewrite length_hexlify.
  replace ((2 + 2 * length bs =? 66)%nat) with false
    by (symmetry; apply Nat.eqb_neq; lia).
  now apply getAddress_hexlify_other.
Qed.

(** X14.  In [part_000] the subject decides only whether a record is
    made.  A subject of a length other than 20 and 32 bytes gives no
    record and leaves the world as it was (the block is not looked up);
    and two payloads with the same attestation data and subjects that
    the normaliser accepts give the same result, whatever else differs:
    the normalised subject is not part of the record. *)
Theorem X14_part0_subject_only_gates (env : Env) (txHash : string) (blockNumber : Z)
    (p : AttestationPayload) (w : World) :
  (forall subject : list byte,
     payload_subject p = hexlify subject ->
     length subject <> 20%nat -> length subject <> 32%nat ->
     Part0.assemble env txHash blockNumber p w = (w, Ok None))
  /\ (forall (p' : AttestationPayload) (s s' : string),
        payload_attestationData p' = payload_attestationData p ->
        Part0.parseSubjectAsAddress (payload_subject p) = Ok s ->
        Part0.parseSubjectAsAddress (payload_subject p') = Ok s' ->
        Part0.assemble env txHash blockNumber p' w
        = Part0.assemble env txHash blockNumber p w).
Proof.
  split.
  - intros subject Hsubject H20 H32. unfold Part0.assemble. M_unfold.
    destruct (Part0.decodeAttestationData _) as [[d|]|e] eqn:E; try reflexivity.
    + rewrite Hsubject, parseSubjectAsAddress_other by assumption. reflexivity.
    + pose proof (Part0_decode_never_throws (payload_attestationData p)) as H.
      rewrite E in H. discriminate H.
  - intros p' s s' Hdata Hs Hs'. unfold Part0.assemble.
    now rewrite Hdata, Hs, Hs'.
Qed.

Lemma X14_witness :
  let p := sample_payload (hexlify (x00 :: sample_address))
             (hexlify (encode_parameters true "page-3" address_aa)) in
  Part0.assemble (sample_env "1" p) "0x01" 100 p empty_world = (empty_world, Ok None).
Proof.
  cbn zeta.
  apply (proj1 (X14_part0_subject_only_gates
                  (sample_env "1" (sample_payload (hexlify (x00 :: sample_address))
                     (hexlify (encode_parameters true "page-3" address_aa))))
                  "0x01" 100
                  (sample_payload (hexlify (x00 :: sample_address))
                     (hexlify (encode_parameters true "page-3" address_aa)))
                  empty_world) (x00 :: sample_address)).
  - reflexivity.
  - cbn [length sample_address]. lia.
  - cbn [length sample_address]. lia.
Defined.

(** ** The timestamp in [part_000] *)

Lemma app_suffix (a b z : string) :
  (exists p, b = p +:+ z) -> exists p, a +:+ b = p +:+ z.
Proof. intros [p ->]. exists (a +:+ p). now rewrite string_app_assoc. Qed.

Lemma toISOString_whole_seconds (ts : Z) (s : string) :
  JSDate.toISOString (ts * 1000) = Ok s -> exists prefix, s = prefix +:+ ".000Z".
Proof.
  unfold JSDate.toISOString.
  destruct (Z.abs (ts * 1000) >? 8640000000000000); [discriminate|].
  destruct (JSDate.civil_from_days _) as [[y m] d].
  assert (Hms : (ts * 1000) mod JSDate.msPerDay mod 1000 = 0).
  { unfold JSDate.msPerDay. change 86400000 with (86400 * 1000).
    rewrite Z.mul_mod_distr_r by lia. apply Z.mod_mul. lia. }
  rewrite Hms. intros [= <-].
  change (dec_digits 3 0) with "000".
  do 11 apply app_suffix. now exists "".
Qed.

(** X15.  The timestamp of every record that [part_000] assembles
    ends in [.000Z]: block times are whole seconds.  A block whose
    timestamp is beyond 8640000000000 seconds is not a date that
    JavaScript can print, and [decodeAttestation] then leaves the files
    as they were. *)
Theorem X15_part0_timestamp_whole_seconds (env : Env) (txHash : string)
    (blockNumber : Z) (w : World) :
  (forall p w' a,
     Part0.assemble env txHash blockNumber p w = (w', Ok (Some a)) ->
     exists prefix, Part0.timestamp a = prefix +:+ ".000Z")
  /\ (forall block,
        provider_getBlock env blockNumber = Ok (Some block) ->
        8640000000000 < Z.abs (block_timestamp block) ->
        files (Part0.decodeAttestation env txHash blockNumber w).1 = files w).
Proof.
  split.
  - intros p w' a H.
    destruct (Part0_assemble_timestamp env txHash blockNumber p w w' a H)
      as (block & _ & Hiso).
    now apply (toISOString_whole_seconds (block_timestamp block)).
  - intros block Hblock Hrange.
    destruct (Part0_decodeAttestation_outcome env txHash blockNumber w)
      as (w' & Hrun & [Hsame|Hrec]).
    + now rewrite Hrun.
    + destruct Hrec as (t & decoded & d & subject' & block' & iso & H).
      destruct H as (_ & _ & _ & _ & _ & _ & _ & Hb & Hiso & _).
      rewrite Hblock in Hb. injection Hb as <-.
      unfold JSDate.toISOString in Hiso.
      replace (Z.abs (block_timestamp block * 1000) >? 8640000000000000) with true in Hiso;
        [discriminate Hiso|].
      symmetry. rewrite Z.gtb_ltb. apply Z.ltb_lt. lia.
Qed.

Lemma X15_witness :
  exists prefix, Part0.timestamp (Part0_sample_record "page-3") = prefix +:+ ".000Z".
Proof.
  assert (H : Part0.assemble
                (sample_env "1" (sample_payload (hexlify sample_address)
                                   (hexlify (encode_parameters true "page-3" address_aa))))
                "0x01" 100
                (sample_payload (hexlify sample_address)
                   (hexlify (encode_parameters true "page-3" address_aa))) empty_world
              = (after_events empty_world [ev_getBlock 100],
                 Ok (Some (Part0_sample_record "page-3"))))
    by (vm_compute; reflexivity).
  exact (proj1 (X15_part0_timestamp_whole_seconds _ _ _ _) _ _ _ H).
Defined.

(** ** The lines of the structured artifact *)

Lemma no_line_feed_escape_char (c : ascii) : no_line_feed (JSON.escape_char c) = true.
Proof. destruct c as [[] [] [] [] [] [] [] []]; reflexivity. Qed.

Lemma no_line_feed_escape (s : string) : no_line_feed (JSON.escape s) = true.
Proof.
  induction s as [|c s IH]; [reflexivity|].
  cbn [JSON.escape]. now rewrite no_line_feed_app, no_line_feed_escape_char.
Qed.

Lemma no_line_feed_quote_string (s : string) : no_line_feed (JSON.quote_string s) = true.
Proof.
  unfold JSON.quote_string. now rewrite !no_line_feed_app, no_line_feed_escape.
Qed.

Lemma no_line_feed_member (kv : string * JSON.value) :
  no_line_feed (JSON.member kv) = true.
Proof.
  unfold JSON.member. rewrite !no_line_feed_app, no_line_feed_quote_string.
  destruct kv as [k [s|n|b]]; cbn [snd JSON.stringify_value];
    [rewrite no_line_feed_quote_string|rewrite no_line_feed_number
    |rewrite no_line_feed_bool]; reflexivity.
Qed.

(** every member is a line of its own *)
Lemma rows_members (kvs : list (string * JSON.value)) (rest : string) :
  exists ls,
    rows (JSON.members kvs +:+ rest) = ls ++ rows rest /\ length ls = length kvs.
Proof.
  induction kvs as [|kv kvs IH]; [now exists []|].
  destruct kvs as [|kv' kvs].
  - exists [JSON.member kv]. split; [|reflexivity].
    cbn [JSON.members]. rewrite string_app_assoc.
    now rewrite rows_line by apply no_line_feed_member.
  - destruct IH as (ls & Hls & Hlen).
    exists ((JSON.member kv +:+ ",") :: ls). split; [|cbn [length]; now rewrite Hlen].
    change (JSON.members (kv :: kv' :: kvs))
      with (JSON.member kv +:+ "," +:+ str newline +:+ JSON.members (kv' :: kvs)).
    replace ((JSON.member kv +:+ "," +:+ str newline +:+ JSON.members (kv' :: kvs))
             +:+ rest)
      with ((JSON.member kv +:+ ",") +:+ str newline
            +:+ (JSON.members (kv' :: kvs) +:+ rest))
      by (now rewrite !string_app_assoc).
    rewrite rows_line by (now rewrite no_line_feed_app, no_line_feed_member).
    now rewrite Hls.
Qed.

Lemma rows_stringify (kvs : list (string * JSON.value)) (rest : string) :
  kvs <> [] ->
  length (rows ((JSON.stringify kvs +:+ str newline) +:+ rest))
  = (2 + length kvs + length (rows rest))%nat.
Proof.
  intros Hne. destruct kvs as [|kv kvs]; [contradiction|].
  change (JSON.stringify (kv :: kvs))
    with ("{" +:+ str newline +:+ JSON.members (kv :: kvs) +:+ "}").
  replace ((("{" +:+ str newline +:+ JSON.members (kv :: kvs) +:+ "}") +:+ str newline)
           +:+ rest)
    with ("{" +:+ str newline
          +:+ (JSON.members (kv :: kvs) +:+ ("}" +:+ str newline +:+ rest)))
    by (now rewrite !string_app_assoc).
  rewrite rows_line by reflexivity.
  destruct (rows_members (kv :: kvs) ("}" +:+ str newline +:+ rest)) as (ls & -> & Hlen).
  rewrite rows_line by reflexivity.
  cbn [length]. rewrite length_app. cbn [length] in *. lia.
Qed.

Lemma rows_objects {A} (object : A -> list (string * JSON.value)) (n : nat)
    (recs : list A) :
  (forall a, length (object a) = n) -> n <> 0%nat ->
  length (rows (fold_right
                  (fun a acc => (JSON.stringify (object a) +:+ str newline) +:+ acc)
                  "" recs))
  = ((2 + n) * length recs)%nat.
Proof.
  intros Hn Hpos. induction recs as [|a recs IH]; [cbn; lia|].
  cbn [fold_right length]. rewrite rows_stringify.
  - rewrite IH, Hn. lia.
  - intros E. specialize (Hn a). rewrite E in Hn. cbn in Hn. lia.
Qed.

(** X16.  Whatever the records hold, line feeds included: after
    initialisation and the appending of N records the structured
    artifact has exactly 10 N lines in [attestation-scanner.js] (an
    object of eight members) and 9 N lines in [part_000] (seven
    members). *)
Theorem X16_json_entry_lines (w : World) :
  (forall recs : list Scanner.Attestation,
     let w' := ((_ ← Scanner.initializeFiles; Scanner.append_all recs) w).1 in
     length (rows (file_content w' Scanner.JSON_FILE)) = (10 * length recs)%nat)
  /\ (forall recs : list Part0.Attestation,
        let w' := ((_ ← Part0.initializeFiles; Part0.append_all recs) w).1 in
        length (rows (file_content w' Part0.JSON_FILE)) = (9 * length recs)%nat).
Proof.
  split; intros recs; cbn zeta.
  - destruct (Scanner_sink_contents recs w) as [_ ->].
    now apply (rows_objects Scanner.to_object 8).
  - destruct (Part0_sink_contents recs w) as [_ ->].
    now apply (rows_objects Part0.to_object 7).
Qed.

(** ** The fields of a row *)

Lemma split_commas_nonempty (s : string) : split_commas s <> [].
Proof.
  induction s as [|c s IH]; [discriminate|].
  cbn [split_commas]. destruct (Ascii.eqb c ","); [discriminate|].
  destruct (split_commas s); [contradiction|discriminate].
Qed.

Lemma split_commas_last (f : string) : no_comma f = true -> split_commas f = [f].
Proof.
  induction f as [|c f IH]; [reflexivity|].
  cbn [no_comma string_forallb split_commas].
  intros [Hc Hf]%andb_true_iff. apply negb_true_iff in Hc. rewrite Hc.
  now rewrite (IH Hf).
Qed.

Lemma split_commas_field (f rest : string) :
  no_comma f = true -> split_commas (f +:+ "," +:+ rest) = f :: split_commas rest.
Proof.
  induction f as [|c f IH]; [reflexivity|].
  cbn [no_comma string_forallb].
  intros [Hc Hf]%andb_true_iff. apply negb_true_iff in Hc.
  rewrite app_cons. cbn [split_commas]. rewrite Hc.
  now rewrite (IH Hf).
Qed.

Lemma digit_not_comma (c : ascii) :
  is_digit c = true -> negb (Ascii.eqb c ",") = true.
Proof.
  destruct c as [[] [] [] [] [] [] [] []]; try discriminate; reflexivity.
Qed.

Lemma no_comma_number (n : Z) : no_comma (String_number n) = true.
Proof. apply string_forallb_number; [apply digit_not_comma|reflexivity]. Qed.

Lemma no_comma_bool (b : bool) : no_comma (String_bool b) = true.
Proof. now destruct b. Qed.

(** X17.  A row splits at its commas into the fields of its record,
    in the order of the header, provided that no text field of the
    record holds a comma. *)
Theorem X17_csv_row_fields :
  (forall a : Scanner.Attestation,
     no_comma (Scanner.txHash a) = true -> no_comma (Scanner.schemaId a) = true ->
     no_comma (Scanner.subject a) = true -> no_comma (Scanner.att_articlePage a) = true ->
     no_comma (Scanner.att_submitter a) = true -> no_comma (Scanner.timestamp a) = true ->
     split_commas (Scanner.csvRow a)
     = [Scanner.txHash a; String_number (Scanner.blockNumber a); Scanner.schemaId a;
        Scanner.subject a; String_bool (Scanner.att_isPositive a);
        Scanner.att_articlePage a; Scanner.att_submitter a; Scanner.timestamp a])
  /\ (forall a : Part0.Attestation,
        no_comma (Part0.txHash a) = true -> no_comma (Part0.from a) = true ->
        no_comma (Part0.timestamp a) = true ->
        no_comma (Part0.att_articlePage a) = true ->
        split_commas (Part0.csvRow a)
        = [Part0.txHash a; String_number (Part0.blockNumber a); Part0.from a;
           Part0.timestamp a; Part0.att_articlePage a;
           String_number (Part0.positiveFeedback a);
           String_number (Part0.negativeFeedback a)]).
Proof.
  split.
  - intros a H1 H2 H3 H4 H5 H6. unfold Scanner.csvRow.
    rewrite !split_commas_field
      by (assumption || apply no_comma_number || apply no_comma_bool).
    now rewrite split_commas_last.
  - intros a H1 H2 H3 H4. unfold Part0.csvRow.
    rewrite !split_commas_field by (assumption || apply no_comma_number).
    now rewrite split_commas_last by apply no_comma_number.
Qed.

Lemma X17_witness :
  split_commas (Scanner.csvRow (Scanner_sample_record "page-3"))
  = ["0x01"; "100"; hexlify (repeat x11 32); checksum_address sample_address; "true";
     "page-3"; checksum_address address_aa; "2023-11-14T22:13:20.000Z"].
Proof.
  apply (proj1 X17_csv_row_fields (Scanner_sample_record "page-3"));
    vm_compute; reflexivity.
Defined.

(** ** Checksummed addresses *)

Lemma upper_hex_digits_of_byte (b : byte) :
  let h := hex_char (Z_of_byte b / 16) in
  let l := hex_char (Z_of_byte b mod 16) in
  lower_char (upper_char h) = h /\ lower_char (upper_char l) = l
  /\ hex_value (upper_char h) = Some (Z_of_byte b / 16)
  /\ hex_value (upper_char l) = Some (Z_of_byte b mod 16)
  /\ is_hex_digit (upper_char h) = true /\ is_hex_digit (upper_char l) = true.
Proof. destruct b; repeat split; reflexivity. Qed.

Lemma checksum_case_cons (c : ascii) (s : string) (ns : list Z) :
  exists c' ns',
    Ethers.checksum_case (String c s) ns = String c' (Ethers.checksum_case s ns')
    /\ (c' = c \/ c' = upper_char c).
Proof.
  destruct ns as [|n ns].
  - exists c, []. split; [|now left]. cbn [Ethers.checksum_case]. now destruct s.
  - exists (if 8 <=? n then upper_char c else c), ns. split; [reflexivity|].
    destruct (8 <=? n); auto.
Qed.

Lemma toLowerCase_checksum_case (bs : list byte) (ns : list Z) :
  toLowerCase (Ethers.checksum_case (hex_of_bytes bs) ns) = hex_of_bytes bs.
Proof.
  revert ns. induction bs as [|b bs IH]; intros ns.
  - now destruct ns.
  - cbn [hex_of_bytes].
    destruct (checksum_case_cons (hex_char (Z_of_byte b / 16))
                (String (hex_char (Z_of_byte b mod 16)) (hex_of_bytes bs)) ns)
      as (h & ns1 & -> & Hh).
    destruct (checksum_case_cons (hex_char (Z_of_byte b mod 16)) (hex_of_bytes bs) ns1)
      as (l & ns2 & -> & Hl).
    unfold toLowerCase in *. cbn [string_map]. rewrite IH.
    destruct (upper_hex_digits_of_byte b) as (U1 & U2 & _).
    destruct (hex_chars_lower b) as (_ & _ & _ & _ & L1 & L2).
    cbn zeta in *.
    destruct Hh as [-> | ->], Hl as [-> | ->]; now rewrite ?U1, ?U2, ?L1, ?L2.
Qed.

Lemma checksum_case_is_hex (bs : list byte) (ns : list Z) :
  string_forallb is_hex_digit (Ethers.checksum_case (hex_of_bytes bs) ns) = true.
Proof.
  revert ns. induction bs as [|b bs IH]; intros ns.
  - now destruct ns.
  - cbn [hex_of_bytes].
    destruct (checksum_case_cons (hex_char (Z_of_byte b / 16))
                (String (hex_char (Z_of_byte b mod 16)) (hex_of_bytes bs)) ns)
      as (h & ns1 & -> & Hh).
    destruct (checksum_case_cons (hex_char (Z_of_byte b mod 16)) (hex_of_bytes bs) ns1)
      as (l & ns2 & -> & Hl).
    cbn [string_forallb]. rewrite IH.
    destruct (upper_hex_digits_of_byte b) as (_ & _ & _ & _ & U1 & U2).
    destruct (hex_chars_lower b) as (L1 & L2 & _).
    cbn zeta in *.
    destruct Hh as [-> | ->], Hl as [-> | ->]; now rewrite ?U1, ?U2, ?L1, ?L2.
Qed.

Lemma bytes_of_hex_checksum_case (bs : list byte) (ns : list Z) :
  bytes_of_hex (Ethers.checksum_case (hex_of_bytes bs) ns) = Some bs.
Proof.
  revert ns. induction bs as [|b bs IH]; intros ns.
  - now destruct ns.
  - cbn [hex_of_bytes].
    destruct (checksum_case_cons (hex_char (Z_of_byte b / 16))
                (String (hex_char (Z_of_byte b mod 16)) (hex_of_bytes bs)) ns)
      as (h & ns1 & -> & Hh).
    destruct (checksum_case_cons (hex_char (Z_of_byte b mod 16)) (hex_of_bytes bs) ns1)
      as (l & ns2 & -> & Hl).
    cbn [bytes_of_hex]. rewrite IH.
    destruct (upper_hex_digits_of_byte b) as (_ & _ & U1 & U2 & _).
    destruct (hex_digits_of_byte b) as (L1 & L2).
    assert (E1 : hex_value h = Some (Z_of_byte b / 16))
      by (destruct Hh as [-> | ->]; assumption).
    assert (E2 : hex_value l = Some (Z_of_byte b mod 16))
      by (destruct Hl as [-> | ->]; assumption).
    rewrite E1, E2. do 2 f_equal.
    rewrite <- (byte_of_Z_of_byte b) at 3. f_equal.
    pose proof (Z.div_mod (Z_of_byte b) 16). lia.
Qed.

Lemma length_checksum_case (s : string) (ns : list Z) :
  String.length (Ethers.checksum_case s ns) = String.length s.
Proof.
  revert ns. induction s as [|c s IH]; intros ns; [now destruct ns|].
  destruct ns as [|n ns]; [reflexivity|].
  cbn [Ethers.checksum_case String.length]. now rewrite IH.
Qed.

Lemma checksum_address_cons (bs : list byte) :
  exists cc,
    checksum_address bs = String "0" (String "x" cc)
    /\ String.length cc = (2 * length bs)%nat
    /\ string_forallb is_hex_digit cc = true
    /\ toLowerCase cc = hex_of_bytes bs
    /\ bytes_of_hex cc = Some bs.
Proof.
  eexists. split; [reflexivity|].
  split; [now rewrite length_checksum_case, length_hex_of_bytes|].
  split; [apply checksum_case_is_hex|].
  split; [apply toLowerCase_checksum_case|apply bytes_of_hex_checksum_case].
Qed.

Lemma getAddress_checksum_address (bs : list byte) :
  length bs = 20%nat ->
  Ethers.getAddress (checksum_address bs) = Ok (checksum_address bs).
Proof.
  intros Hlen.
  destruct (checksum_address_cons bs) as (cc & E & Hl & Hh & Hlow & _).
  assert (Hsum : Ethers.getChecksumAddress (checksum_address bs)
                 = Ok (checksum_address bs)).
  { unfold Ethers.getChecksumAddress, Ethers.isHexString. rewrite E.
    cbn [has_0x string_drop String.length]. rewrite Hh, Hl, Hlen.
    cbn [andb Nat.eqb Nat.mul Nat.add].
    unfold toLowerCase. cbn [string_map string_drop].
    change (string_map lower_char cc) with (toLowerCase cc). rewrite Hlow.
    rewrite <- E. reflexivity. }
  unfold Ethers.getAddress, Ethers.matches_hex40.
  replace (has_0x (checksum_address bs)) with true by (now rewrite E).
  replace (string_drop 2 (checksum_address bs)) with cc by (now rewrite E).
  rewrite Hl, Hlen, Hh.
  cbn [andb Nat.eqb Nat.mul Nat.add]. rewrite Hsum.
  cbn [mbind exn_mbind exn_bind]. rewrite String.eqb_refl. cbn [negb].
  now rewrite andb_false_r.
Qed.

(** X18.  The checksummed text of a 20-byte address is a fixed point
    of [getAddress] and of the subject normaliser of [part_000], and it
    denotes the same 20 bytes. *)
Theorem X18_normalised_subject_is_stable (bs : list byte) :
  length bs = 20%nat ->
  Ethers.getAddress (checksum_address bs) = Ok (checksum_address bs)
  /\ Part0.parseSubjectAsAddress (checksum_address bs) = Ok (checksum_address bs)
  /\ Ethers.arrayify (checksum_address bs) = Ok bs.
Proof.
  intros Hlen. pose proof (getAddress_checksum_address bs Hlen) as Hget.
  destruct (checksum_address_cons bs) as (cc & E & Hl & Hh & _ & Hbytes).
  split; [exact Hget|]. split.
  - unfold Part0.parseSubjectAsAddress.
    replace (String.length (checksum_address bs) =? 66)%nat with false; [exact Hget|].
    rewrite E. cbn [String.length]. rewrite Hl, Hlen. reflexivity.
  - unfold Ethers.arrayify, Ethers.isHexString. rewrite E.
    cbn [has_0x string_drop]. now rewrite Hh, Hbytes.
Qed.

Lemma X18_witness :
  Part0.parseSubjectAsAddress (checksum_address sample_address)
  = Ok (checksum_address sample_address).
Proof.
  exact (proj1 (proj2 (X18_normalised_subject_is_stable sample_address eq_refl))).
Defined.
